(** * odh-linter: the error-demotion analyzer and the bundle linter

    A shallow embedding of the Go sources of the repository
    (linters/errordemote, bundle-linters/pkg/{rules,loader,reporter} and
    bundle-linters/cmd/odhlint-bundle) together with the properties that
    the specification states about them.

    Conventions.
    - Go [string]s are byte strings: Rocq [string].
    - Go [int] values are [Z].
    - A Go pointer that may be nil is an [option]; dereferencing nil, or
      indexing a slice out of range, is the outcome [Panic] of [Res].
    - Functions of the Go standard library that the sources call are
      modelled next to their callers, each with a comment naming the
      library function it stands for. *)

From Stdlib Require Import ZArith List String Ascii Bool Lia.
From Stdlib Require Import Sorting.Permutation.
From Stdlib Require Import Floats.SpecFloat.
From stdpp Require Import base option list gmap strings pretty sorting.

Import ListNotations.
Local Open Scope string_scope.
Local Open Scope list_scope.
Local Open Scope Z_scope.

(* ===================================================================== *)
(** * Run-time outcomes *)
(* ===================================================================== *)

(** The outcome of a Go computation that may panic. *)
Inductive Res (A : Type) : Type :=
| Ok (a : A)
| Panic.
Arguments Ok {A} a.
Arguments Panic {A}.

Definition bindRes {A B : Type} (m : Res A) (k : A -> Res B) : Res B :=
  match m with
  | Ok a => k a
  | Panic => Panic
  end.

Notation "x <-! m ; k" := (bindRes m (fun x => k))
  (at level 100, m at next level, right associativity).

(** [*p]: dereferencing a pointer. *)
Definition deref {A : Type} (p : option A) : Res A :=
  match p with
  | Some a => Ok a
  | None => Panic
  end.

(** [for _, x := range l { s = body(s, x) }]. *)
Fixpoint forRange {A S : Type} (l : list A) (body : S -> A -> Res S) (s : S) : Res S :=
  match l with
  | [] => Ok s
  | x :: l' => s' <-! body s x ; forRange l' body s'
  end.

(* ===================================================================== *)
(** * Package strings (Go standard library) *)
(* ===================================================================== *)

(** The table of [unicode.ToLower] is not reproduced: the result of
    [strings.Map(unicode.ToLower, s)] on a string with a byte outside
    ASCII is a parameter of the development. *)
Class UnicodeTables : Type := mapToLower : string -> string.

Module GoStrings.

Definition byte (n : N) : ascii := ascii_of_N n.

Fixpoint bytes (l : list N) : string :=
  match l with
  | [] => EmptyString
  | n :: l' => String (byte n) (bytes l')
  end.

Definition len (s : string) : Z := Z.of_nat (String.length s).

(** [strings.HasPrefix]. *)
Fixpoint HasPrefix (s prefix : string) {struct prefix} : bool :=
  match prefix with
  | EmptyString => true
  | String p prefix' =>
      match s with
      | EmptyString => false
      | String c s' => Ascii.eqb c p && HasPrefix s' prefix'
      end
  end.

Fixpoint rev_append (s acc : string) : string :=
  match s with
  | EmptyString => acc
  | String c s' => rev_append s' (String c acc)
  end.

Definition rev (s : string) : string := rev_append s EmptyString.

(** [strings.HasSuffix]. *)
Definition HasSuffix (s suffix : string) : bool :=
  HasPrefix (rev s) (rev suffix).

(** [strings.Contains]: [substr] occurs in [s] at some byte offset. *)
Fixpoint Contains (s substr : string) : bool :=
  HasPrefix s substr ||
  match s with
  | EmptyString => false
  | String _ s' => Contains s' substr
  end.

(** [strings.Split(s, sep)] for a separator of one byte, which is how
    the sources call it ([","]): the pieces between the separators,
    [n+1] of them for [n] separators. *)
Fixpoint Split (s : string) (sep : ascii) : list string :=
  match s with
  | EmptyString => [EmptyString]
  | String c s' =>
      if Ascii.eqb c sep then EmptyString :: Split s' sep
      else match Split s' sep with
           | [] => [String c EmptyString]
           | piece :: pieces => String c piece :: pieces
           end
  end.

(** The UTF-8 encodings of the code points for which [unicode.IsSpace]
    holds: TAB, LF, VT, FF, CR, SPACE, U+0085, U+00A0, U+1680,
    U+2000..U+200A, U+2028, U+2029, U+202F, U+205F, U+3000. *)
Definition spaceEncodings : list string :=
  map bytes
    [ [9]; [10]; [11]; [12]; [13]; [32];
      [194; 133]; [194; 160];
      [225; 154; 128];
      [226; 128; 128]; [226; 128; 129]; [226; 128; 130]; [226; 128; 131];
      [226; 128; 132]; [226; 128; 133]; [226; 128; 134]; [226; 128; 135];
      [226; 128; 136]; [226; 128; 137]; [226; 128; 138];
      [226; 128; 168]; [226; 128; 169]; [226; 128; 175];
      [226; 129; 159];
      [227; 128; 128] ]%N.

(** The number of bytes of the white-space rune at the start of [s],
    if there is one. *)
Definition spaceWidth (encodings : list string) (s : string) : option nat :=
  String.length <$> find (HasPrefix s) encodings.

(** Drops the white-space runes at the start of [s]; [skip] counts the
    bytes of the current rune that are still to be dropped. *)
Fixpoint trimLeftFrom (encodings : list string) (skip : nat) (s : string) : string :=
  match skip with
  | S skip' =>
      match s with
      | EmptyString => EmptyString
      | String _ s' => trimLeftFrom encodings skip' s'
      end
  | O =>
      match spaceWidth encodings s with
      | Some (S w) =>
          match s with
          | EmptyString => EmptyString
          | String _ s' => trimLeftFrom encodings w s'
          end
      | _ => s
      end
  end.

(** [strings.TrimLeftFunc(s, unicode.IsSpace)]. *)
Definition TrimLeftSpace (s : string) : string :=
  trimLeftFrom spaceEncodings 0 s.

(** [strings.TrimRightFunc(s, unicode.IsSpace)]: the same scan from the
    end, where the last rune is a white-space rune exactly when the
    string ends with its encoding. *)
Definition TrimRightSpace (s : string) : string :=
  rev (trimLeftFrom (map rev spaceEncodings) 0 (rev s)).

(** [strings.TrimSpace]. *)
Definition TrimSpace (s : string) : string :=
  TrimRightSpace (TrimLeftSpace s).

Definition isASCII (s : string) : bool :=
  forallb (fun c => (N_of_ascii c <? 128)%N) (list_ascii_of_string s).

Definition lowerByte (c : ascii) : ascii :=
  let n := N_of_ascii c in
  if ((65 <=? n) && (n <=? 90))%N then ascii_of_N (n + 32) else c.

Fixpoint mapBytes (f : ascii -> ascii) (s : string) : string :=
  match s with
  | EmptyString => EmptyString
  | String c s' => String (f c) (mapBytes f s')
  end.

(** [strings.ToLower]: byte-wise on an ASCII string, through the
    Unicode tables otherwise. *)
Definition ToLower `{tables : UnicodeTables} (s : string) : string :=
  if isASCII s then mapBytes lowerByte s else mapToLower s.

(** [strings.Join]. *)
Fixpoint Join (elems : list string) (sep : string) : string :=
  match elems with
  | [] => EmptyString
  | [e] => e
  | e :: rest => e +:+ sep +:+ Join rest sep
  end.

End GoStrings.

(** The tables used where a closed instance is needed: a string with a
    byte outside ASCII is left as it is. *)
Definition asciiTables : UnicodeTables := fun s => s.

(* ===================================================================== *)
(** * Packages go/token and go/ast (Go standard library) *)
(* ===================================================================== *)

Module token.

(** [token.Pos]: an offset into the file set; [NoPos] is 0. *)
Definition Pos : Type := Z.
Definition NoPos : Pos := 0.

(** The operator and delimiter tokens that occur in the modelled trees. *)
Inductive Token : Type :=
| EQL | NEQ | LSS | GTR | LAND | LOR | NOT | ADD | SUB
| ASSIGN | DEFINE.

Definition Token_eqb (a b : Token) : bool :=
  match a, b with
  | EQL, EQL | NEQ, NEQ | LSS, LSS | GTR, GTR | LAND, LAND | LOR, LOR
  | NOT, NOT | ADD, ADD | SUB, SUB | ASSIGN, ASSIGN | DEFINE, DEFINE => true
  | _, _ => false
  end.

(** [token.File]: the range [base, base+size] of positions of one source
    file and the offsets at which its lines start (the first is 0). A
    file without [//line] directives. *)
Record File : Type := mkFile {
  name : string;
  base : Z;
  size : Z;
  lines : list Z
}.

(** [File.fixOffset]: an offset outside the file is clamped to it. *)
Definition fixOffset (f : File) (offset : Z) : Z :=
  if offset <? 0 then 0
  else if size f <? offset then size f
  else offset.

(** [searchInts]: the index of the last entry that is at most [x], or
    -1; the entries are increasing. *)
Fixpoint searchInts (a : list Z) (x : Z) : Z :=
  match a with
  | [] => -1
  | y :: a' => if y <=? x then 1 + searchInts a' x else -1
  end.

(** [File.Line]: the line number of position [p], 0 for [NoPos]. *)
Definition Line (f : File) (p : Pos) : Z :=
  if p =? NoPos then 0
  else
    let i := searchInts (lines f) (fixOffset f (p - base f)) in
    if 0 <=? i then i + 1 else 0.

(** [token.FileSet]: the files in the order they were added, by
    increasing base. *)
Definition FileSet : Type := list File.

(** [searchFiles]: the last file whose base is at most [p]. *)
Fixpoint searchFiles (files : list File) (p : Z) : option File :=
  match files with
  | [] => None
  | f :: files' =>
      if base f <=? p
      then match searchFiles files' p with
           | Some g => Some g
           | None => Some f
           end
      else None
  end.

(** [FileSet.File]: the file that contains [p], nil if there is none. *)
Definition FileOf (s : FileSet) (p : Pos) : option File :=
  if p =? NoPos then None
  else match searchFiles s p with
       | Some f => if p <=? base f + size f then Some f else None
       | None => None
       end.

End token.

Module ast.

Import token.

(** Expressions and statements: the node kinds of go/ast that the
    analyzer inspects, and those that carry them. [SelectorExpr.Sel] is
    an identifier, kept by its name. *)
#[local] Unset Elimination Schemes.
Inductive Expr : Type :=
| Ident (Name : string)
| BasicLit (Value : string)
| BinaryExpr (X : Expr) (Op : Token) (Y : Expr)
| UnaryExpr (Op : Token) (X : Expr)
| ParenExpr (X : Expr)
| SelectorExpr (X : Expr) (Sel : string)
| CallExpr (Fun : Expr) (Args : list Expr)
| FuncLit (Body : Stmt)
with Stmt : Type :=
| ExprStmt (X : Expr)
| AssignStmt (Lhs : list Expr) (Tok : Token) (Rhs : list Expr)
| ReturnStmt (Results : list Expr)
| BlockStmt (List : list Stmt)
| IfStmt (If : Pos) (Init : option Stmt) (Cond : Expr) (Body : Stmt) (Else : option Stmt)
| ForStmt (Init : option Stmt) (Cond : option Expr) (Post : option Stmt) (Body : Stmt).
#[local] Set Elimination Schemes.

(** [ast.Node]. *)
Inductive Node : Type :=
| NExpr (e : Expr)
| NStmt (s : Stmt).

(** [ast.Comment] and [ast.CommentGroup]; [Comment.Pos()] is [Slash]. *)
Record Comment : Type := mkComment { Slash : Pos; Text : string }.
Record CommentGroup : Type := mkCommentGroup { List : list Comment }.

(** [ast.File]: the bodies of the declared functions and the comments
    of the file. *)
Record File : Type := mkFile {
  Decls : list Stmt;
  Comments : list CommentGroup
}.

(** ** [ast.Inspect]

    [Inspect(node, f)] calls [f(node)]; when that returns true it
    inspects the children of [node] in source order and then calls
    [f(nil)]. The function [f] is a closure over variables of its
    caller: their value is the state [S] that is threaded through. *)
Section Inspect.
Context {S : Type} (f : option Node -> S -> bool * S).

(** A node without children. *)
Definition inspectLeaf (n : Node) (s : S) : S :=
  let '(descend, s) := f (Some n) s in
  if descend then snd (f None s) else s.

Fixpoint inspectExpr (e : Expr) (s : S) : S :=
  let '(descend, s) := f (Some (NExpr e)) s in
  if descend then
    let s :=
      match e with
      | Ident _ => s
      | BasicLit _ => s
      | BinaryExpr x _ y => inspectExpr y (inspectExpr x s)
      | UnaryExpr _ x => inspectExpr x s
      | ParenExpr x => inspectExpr x s
      | SelectorExpr x sel => inspectLeaf (NExpr (Ident sel)) (inspectExpr x s)
      | CallExpr fn args =>
          fold_left (fun s a => inspectExpr a s) args (inspectExpr fn s)
      | FuncLit body => inspectStmt body s
      end in
    snd (f None s)
  else s
with inspectStmt (st : Stmt) (s : S) : S :=
  let '(descend, s) := f (Some (NStmt st)) s in
  if descend then
    let s :=
      match st with
      | ExprStmt x => inspectExpr x s
      | AssignStmt lhs _ rhs =>
          fold_left (fun s a => inspectExpr a s) rhs
            (fold_left (fun s a => inspectExpr a s) lhs s)
      | ReturnStmt results =>
          fold_left (fun s a => inspectExpr a s) results s
      | BlockStmt list =>
          fold_left (fun s a => inspectStmt a s) list s
      | IfStmt _ init cond body els =>
          let s := match init with Some i => inspectStmt i s | None => s end in
          let s := inspectExpr cond s in
          let s := inspectStmt body s in
          match els with Some e => inspectStmt e s | None => s end
      | ForStmt init cond post body =>
          let s := match init with Some i => inspectStmt i s | None => s end in
          let s := match cond with Some c => inspectExpr c s | None => s end in
          let s := match post with Some p => inspectStmt p s | None => s end in
          inspectStmt body s
      end in
    snd (f None s)
  else s.

Definition Inspect (n : Node) (s : S) : S :=
  match n with
  | NExpr e => inspectExpr e s
  | NStmt st => inspectStmt st s
  end.
End Inspect.

(** ** The subtree of a node

    All nodes below a node (the node included) in depth-first preorder:
    the order in which [inspector.Preorder] and an [Inspect] that never
    prunes visit them. *)
Fixpoint subExpr (e : Expr) : list Node :=
  NExpr e ::
  match e with
  | Ident _ => []
  | BasicLit _ => []
  | BinaryExpr x _ y => subExpr x ++ subExpr y
  | UnaryExpr _ x => subExpr x
  | ParenExpr x => subExpr x
  | SelectorExpr x sel => subExpr x ++ [NExpr (Ident sel)]
  | CallExpr fn args => subExpr fn ++ flat_map subExpr args
  | FuncLit body => subStmt body
  end
with subStmt (st : Stmt) : list Node :=
  NStmt st ::
  match st with
  | ExprStmt x => subExpr x
  | AssignStmt lhs _ rhs => flat_map subExpr lhs ++ flat_map subExpr rhs
  | ReturnStmt results => flat_map subExpr results
  | BlockStmt list => flat_map subStmt list
  | IfStmt _ init cond body els =>
      match init with Some i => subStmt i | None => [] end ++
      subExpr cond ++ subStmt body ++
      match els with Some e => subStmt e | None => [] end
  | ForStmt init cond post body =>
      match init with Some i => subStmt i | None => [] end ++
      match cond with Some c => subExpr c | None => [] end ++
      match post with Some p => subStmt p | None => [] end ++
      subStmt body
  end.

Definition subtree (n : Node) : list Node :=
  match n with
  | NExpr e => subExpr e
  | NStmt st => subStmt st
  end.

End ast.

(* ===================================================================== *)
(** * linters/errordemote: the analyzer ODH-ARCH-006 *)
(* ===================================================================== *)

Module errordemote.

Import token ast GoStrings.

(** [analysis.Diagnostic], as [pass.Reportf] records it. *)
Record Diagnostic : Type := mkDiagnostic { Pos : token.Pos; Message : string }.

(** [analysis.Pass]: the file set and the syntax trees of one package. *)
Record Pass : Type := mkPass { Fset : FileSet; Files : list ast.File }.

(** [isNilIdent] checks if an expression is the "nil" identifier. *)
Definition isNilIdent (expr : Expr) : bool :=
  match expr with
  | Ident name => String.eqb name "nil"
  | _ => false
  end.

(** [isErrCondition] checks if the condition is testing an error
    variable. *)
Definition isErrCondition (cond : Expr) : bool :=
  match cond with
  | BinaryExpr x op y =>
      if (Token_eqb op EQL || Token_eqb op NEQ) && (isNilIdent y || isNilIdent x)
      then
        if match x with Ident name => Contains name "err" | _ => false end
        then true
        else if match y with Ident name => Contains name "err" | _ => false end
        then true
        else false
      else false
  | _ => false
  end.

Definition logMethods : gmap string bool :=
  list_to_map
    [ ("Info", true); ("Debug", true); ("Warn", true);
      ("Warning", true); ("Trace", true); ("V", true) ].

(** The closure that [containsLogCall] hands to [ast.Inspect]; the state
    is its variable [hasLog]. *)
Definition logCallVisitor (n : option Node) (hasLog : bool) : bool * bool :=
  match n with
  | Some (NExpr (CallExpr (SelectorExpr _ sel) _)) =>
      if default false (logMethods !! sel) then (false, true) else (true, hasLog)
  | _ => (true, hasLog)
  end.

(** [containsLogCall] checks if a statement contains a log call. *)
Definition containsLogCall (stmt : Stmt) : bool :=
  Inspect logCallVisitor (NStmt stmt) false.

(** The closure of [containsErrorReturn]; the state is [hasReturn]. *)
Definition errorReturnVisitor (n : option Node) (hasReturn : bool) : bool * bool :=
  match n with
  | Some (NStmt (ReturnStmt results)) =>
      if existsb
           (fun result =>
              match result with Ident name => Contains name "err" | _ => false end)
           results
      then (false, true)
      else (true, hasReturn)
  | _ => (true, hasReturn)
  end.

(** [containsErrorReturn] checks if a statement returns an error. *)
Definition containsErrorReturn (stmt : Stmt) : bool :=
  Inspect errorReturnVisitor (NStmt stmt) false.

(** [isErrorDemotionPattern], on the node the inspector passes: an
    [*ast.IfStmt]. *)
Definition isErrorDemotionPattern (ifStmt : Stmt) : bool :=
  match ifStmt with
  | IfStmt _ init cond _ els =>
      match init with
      | None => false
      | Some (AssignStmt lhs tok _) =>
          if negb (Token_eqb tok DEFINE) then false
          else if Z.of_nat (length lhs) <? 2 then false
          else
            match last lhs with
            | Some (Ident name) =>
                if negb (Contains name "err") && negb (String.eqb name "_") then false
                else if negb (isErrCondition cond) then false
                else
                  match els with
                  | None => false
                  | Some e =>
                      let hasLog := containsLogCall e in
                      let returnsError := containsErrorReturn e in
                      hasLog && negb returnsError
                  end
            | _ => false
            end
      | Some _ => false
      end
  | _ => false
  end.

(** The text test of [hasNolintComment]. *)
Definition isNolintText (text : string) : bool :=
  Contains text "nolint:errordemote" ||
  (Contains text "nolint" && negb (Contains text "nolint:")).

(** [hasNolintComment] checks if there's a //nolint:errordemote comment.
    The comments are those of [pass.Files[0]]; their lines are read off
    the token file of [pos]. *)
Definition hasNolintComment (pass : Pass) (pos : token.Pos) : Res bool :=
  match FileOf (Fset pass) pos with
  | None => Ok false
  | Some file =>
      let line := Line file pos in
      file0 <-! deref (Files pass !! 0%nat) ;
      Ok (existsb
            (fun commentGroup =>
               existsb
                 (fun comment =>
                    let commentLine := Line file (Slash comment) in
                    ((commentLine =? line) || (commentLine =? line - 1)) &&
                    isNolintText (Text comment))
                 (List commentGroup))
            (Comments file0))
  end.

Definition keywords : list string :=
  [ "resilience:"; "resilient:"; "non-critical"; "optional";
    "safe to ignore"; "safe to continue"; "safe default"; "may not exist" ].

(** The text test of [hasResilienceDoc]. *)
Definition hasKeyword `{tables : UnicodeTables} (text0 : string) : bool :=
  let text := ToLower text0 in
  existsb (fun keyword => Contains text keyword) keywords.

(** [hasResilienceDoc] checks if there's explicit documentation about
    resilience. *)
Definition hasResilienceDoc `{tables : UnicodeTables} (pass : Pass) (pos : token.Pos) : Res bool :=
  match FileOf (Fset pass) pos with
  | None => Ok false
  | Some file =>
      let line := Line file pos in
      file0 <-! deref (Files pass !! 0%nat) ;
      Ok (existsb
            (fun commentGroup =>
               existsb
                 (fun comment =>
                    let commentLine := Line file (Slash comment) in
                    ((line - 3 <=? commentLine) && (commentLine <? line)) &&
                    hasKeyword (Text comment))
                 (List commentGroup))
            (Comments file0))
  end.

Definition message : string :=
  "error demoted to log statement instead of being returned; add //nolint:errordemote with justification or return the error".

(** The function that [run] hands to [inspector.Preorder]: what it
    reports at one node. The node filter keeps the if-statements. *)
Definition visit `{tables : UnicodeTables} (pass : Pass) (n : Node) : Res (list Diagnostic) :=
  match n with
  | NStmt (IfStmt pos _ _ _ _ as ifStmt) =>
      if isErrorDemotionPattern ifStmt then
        nolint <-! hasNolintComment pass pos ;
        if nolint : bool then Ok []
        else
          doc <-! hasResilienceDoc pass pos ;
          if doc : bool then Ok []
          else Ok [ mkDiagnostic pos message ]
      else Ok []
  | _ => Ok []
  end.

(** [inspector.Preorder]: the nodes of all files of the pass, each file
    depth-first. *)
Definition Preorder (files : list ast.File) : list Node :=
  flat_map (fun f => flat_map subStmt (Decls f)) files.

(** [run]: the diagnostics of one pass, in the order they are reported. *)
Definition run `{tables : UnicodeTables} (pass : Pass) : Res (list Diagnostic) :=
  forRange (Preorder (Files pass))
    (fun reported n => ds <-! visit pass n ; Ok (reported ++ ds)) [].

(** The candidates of the pass: the if-statements that match the
    pattern, before the suppression scan. *)
Definition candidatesAt (n : Node) : list token.Pos :=
  match n with
  | NStmt (IfStmt pos _ _ _ _ as ifStmt) =>
      if isErrorDemotionPattern ifStmt then [pos] else []
  | _ => []
  end.

End errordemote.

(* ===================================================================== *)
(** * bundle-linters/pkg/rules: the data model *)
(* ===================================================================== *)

Module rules.

Import GoStrings.

(** Severity levels for rule violations ([type Severity string]). *)
Definition Severity : Type := string.
Definition SeverityError : Severity := "error".
Definition SeverityWarning : Severity := "warning".
Definition SeverityInfo : Severity := "info".

(** Category groups related rules ([type Category string]). *)
Definition Category : Type := string.
Definition CategoryOLMRequirement : Category := "OLM-Requirement".
Definition CategoryOLMBestPractice : Category := "OLM-Best-Practice".
Definition CategorySecurity : Category := "OLM-Security".
Definition CategoryUpgrade : Category := "OLM-Upgrade".

(** A value of type [interface{}] as the YAML decoder produces it. *)
#[local] Unset Elimination Schemes.
Inductive Value : Type :=
| VNil
| VBool (b : bool)
| VInt (n : Z)
| VInt64 (n : Z)
| VUint64 (n : Z)
| VFloat64 (f : spec_float)
| VString (s : string)
| VSlice (l : list Value)
| VMap (m : list (string * Value)).
#[local] Set Elimination Schemes.

(** Violation represents a rule violation found in a bundle. *)
Module Violation.
Record t : Type := mk {
  RuleID : string;
  RuleName : string;
  Category : rules.Category;
  Severity : rules.Severity;
  Message : string;
  File : string;
  Line : Z;
  Description : string;
  Fixable : bool
}.

(** [String] returns a formatted string representation of a
    violation. *)
Definition String (v : t) : string :=
  let loc := File v in
  let loc := if 0 <? Line v then File v +:+ ":" +:+ pretty (Line v) else loc in
  "[" +:+ RuleID v +:+ "] " +:+ loc +:+ ": " +:+ Message v.
End Violation.
Abbreviation Violation := Violation.t.

Module Metadata.
Record t : Type := mk {
  Name : string;
  Namespace : string;
  Annotations : gmap string string;
  Labels : gmap string string
}.
End Metadata.

Module CRDReference.
Record t : Type := mk { Name : string; Version : string; Kind : string }.
End CRDReference.

Module CSVCustomResourceDefinitions.
Record t : Type := mk { Owned : list CRDReference.t; Required : list CRDReference.t }.
End CSVCustomResourceDefinitions.

Module Container.
Record t : Type := mk {
  Name : string; Image : string; Command : list string; Args : list string
}.
End Container.

Module PodSpec.
Record t : Type := mk { Containers : list Container.t }.
End PodSpec.

Module PodTemplateSpec.
Record t : Type := mk { Spec : PodSpec.t }.
End PodTemplateSpec.

Module DeploymentSpec.
Record t : Type := mk { Template : PodTemplateSpec.t }.
End DeploymentSpec.

Module Deployment.
Record t : Type := mk { Name : string; Spec : DeploymentSpec.t }.
End Deployment.

Module InstallSpec.
Record t : Type := mk { Deployments : list Deployment.t }.
End InstallSpec.

Module CSVInstall.
Record t : Type := mk { Strategy : string; Spec : InstallSpec.t }.
End CSVInstall.

Module InstallMode.
Record t : Type := mk { Type_ : string; Supported : bool }.
End InstallMode.

Module WebhookRule.
Record t : Type := mk {
  APIGroups : list string;
  APIVersions : list string;
  Operations : list string;
  Resources : list string
}.
End WebhookRule.

Module WebhookDefinition.
Record t : Type := mk {
  Type_ : string;
  AdmissionReviewVersions : list string;
  DeploymentName : string;
  FailurePolicy : string;
  GenerateName : string;
  Rules : list WebhookRule.t;
  SideEffects : string;
  WebhookPath : string;
  ConversionCRDs : list string
}.
End WebhookDefinition.

Module CSVSpec.
Record t : Type := mk {
  MinKubeVersion : string;
  InstallModes : list InstallMode.t;
  WebhookDefinitions : list WebhookDefinition.t;
  CustomResourceDefinitions : CSVCustomResourceDefinitions.t;
  Install : CSVInstall.t
}.
End CSVSpec.

Module ClusterServiceVersion.
Record t : Type := mk {
  FilePath : string;
  APIVersion : string;
  Kind : string;
  Metadata : Metadata.t;
  Spec : CSVSpec.t
}.
End ClusterServiceVersion.

Module CRDNames.
Record t : Type := mk { Kind : string; Plural : string; Singular : string }.
End CRDNames.

Module CRDVersion.
Record t : Type := mk { Name : string; Served : bool; Storage : bool }.
End CRDVersion.

Module ServiceReference.
Record t : Type := mk { Name : string; Namespace : string; Path : string }.
End ServiceReference.

Module WebhookClientConfig.
Record t : Type := mk { Service : option ServiceReference.t }.
End WebhookClientConfig.

Module CRDConversionWebhook.
Record t : Type := mk { ClientConfig : option WebhookClientConfig.t }.
End CRDConversionWebhook.

Module CRDConversion.
Record t : Type := mk { Strategy : string; Webhook : option CRDConversionWebhook.t }.
End CRDConversion.

Module CRDSpec.
Record t : Type := mk {
  Group : string;
  Names : CRDNames.t;
  Versions : list CRDVersion.t;
  PreserveUnknownFields : option bool;
  Conversion : option CRDConversion.t
}.
End CRDSpec.

Module CustomResourceDefinition.
Record t : Type := mk {
  FilePath : string;
  APIVersion : string;
  Kind : string;
  Metadata : Metadata.t;
  Spec : CRDSpec.t
}.
End CustomResourceDefinition.

(** Resource represents a generic Kubernetes resource. *)
Module Resource.
Record t : Type := mk {
  FilePath : string;
  APIVersion : string;
  Kind : string;
  Metadata : Metadata.t;
  Spec : gmap string Value
}.
End Resource.

Module BundleAnnotations.
Record t : Type := mk {
  FilePath : string;
  MediaType : string;
  Manifests : string;
  Metadata : string;
  Package : string;
  Channels : list string;
  DefaultChannel : string
}.
End BundleAnnotations.

(** Bundle represents an operator bundle structure. [CSV] and
    [Annotations] are pointers; [CRDs] and [OtherResources] are slices
    of pointers. *)
Module Bundle.
Record t : Type := mk {
  Path : string;
  ManifestsPath : string;
  MetadataPath : string;
  CSV : option ClusterServiceVersion.t;
  CRDs : list (option CustomResourceDefinition.t);
  OtherResources : list (option Resource.t);
  Annotations : option BundleAnnotations.t
}.
End Bundle.
Abbreviation Bundle := Bundle.t.

(** Rule defines a validation rule for operator bundles: the methods of
    the interface, as a value of the interface carries them. *)
Module Rule.
Record t : Type := mk {
  ID : string;
  Name : string;
  Category : rules.Category;
  Severity : rules.Severity;
  Description : string;
  Validate : Bundle -> Res (list Violation);
  Fixable : bool
}.
End Rule.
Abbreviation Rule := Rule.t.

End rules.

(* ===================================================================== *)
(** * bundle-linters/pkg/rules: the rules and the registry *)
(* ===================================================================== *)

Module MinKubeVersionRule.
Import rules.
(** ODH-OLM-001: Missing minKubeVersion in CSV. *)
Definition ID : string := "ODH-OLM-001".
Definition Name : string := "missing-minkubeversion".
Definition Category : Category := CategoryOLMBestPractice.
Definition Severity : Severity := SeverityWarning.
Definition Description : string :=
  "ClusterServiceVersion should specify spec.minKubeVersion to indicate the minimum Kubernetes version supported by the operator. Without this, the operator may be installed on incompatible clusters.".
Definition Fixable : bool := false.

Definition Validate (bundle : Bundle) : Res (list Violation) :=
  let violations : list Violation := [] in
  match Bundle.CSV bundle with
  | None => Ok violations
  | Some csv =>
      if String.eqb (CSVSpec.MinKubeVersion (ClusterServiceVersion.Spec csv)) ""
      then Ok (violations ++
               [ Violation.mk ID Name Category Severity
                   "ClusterServiceVersion is missing spec.minKubeVersion field"
                   (ClusterServiceVersion.FilePath csv) 0
                   "It is recommended to specify the minimum Kubernetes version your operator supports. This prevents installation on incompatible clusters."
                   Fixable ])
      else Ok violations
  end.
End MinKubeVersionRule.

Module WebhookOperatorResourcesRule.
Import rules GoStrings.
(** ODH-OLM-002: Webhook Rule Intercepting Operator Resources. *)
Definition ID : string := "ODH-OLM-002".
Definition Name : string := "webhook-intercepts-operator-resources".
Definition Category : Category := CategoryOLMRequirement.
Definition Severity : Severity := SeverityError.
Definition Description : string :=
  "OLM will place the CSV in failed phase if webhook rules intercept: (1) all groups (apiGroups: ['*']), (2) the operators.coreos.com group, or (3) ValidatingWebhookConfigurations or MutatingWebhookConfigurations resources. This prevents operators from breaking OLM's ability to manage other operators.".
Definition Fixable : bool := false.

Definition containsWildcard (groups : list string) : bool :=
  existsb (fun g => String.eqb g "*") groups.

Definition containsOperatorGroup (groups : list string) : bool :=
  existsb (fun g => String.eqb g "operators.coreos.com") groups.

Definition containsWebhookConfigResources `{tables : UnicodeTables} (resources : list string) : bool :=
  existsb
    (fun r =>
       let rLower := ToLower r in
       String.eqb rLower "validatingwebhookconfigurations" ||
       String.eqb rLower "mutatingwebhookconfigurations")
    resources.

Definition violation (message file description : string) : Violation :=
  Violation.mk ID Name Category Severity message file 0 description Fixable.

Definition Validate `{tables : UnicodeTables} (bundle : Bundle) : Res (list Violation) :=
  let violations : list Violation := [] in
  match Bundle.CSV bundle with
  | None => Ok violations
  | Some csv =>
      Ok (fold_left
            (fun violations webhook =>
               (* Skip conversion webhooks (they have different rules) *)
               if String.eqb (WebhookDefinition.Type_ webhook) "ConversionWebhook"
               then violations
               else
                 fold_left
                   (fun violations rule =>
                      let violations :=
                        if containsWildcard (WebhookRule.APIGroups rule)
                        then violations ++
                             [ violation
                                 ("Webhook '" +:+ WebhookDefinition.GenerateName webhook +:+
                                  "' intercepts all API groups (apiGroups: ['*']). OLM will fail the CSV.")
                                 (ClusterServiceVersion.FilePath csv)
                                 "Webhooks cannot intercept all API groups. This would prevent OLM from managing other operators." ]
                        else violations in
                      let violations :=
                        if containsOperatorGroup (WebhookRule.APIGroups rule)
                        then violations ++
                             [ violation
                                 ("Webhook '" +:+ WebhookDefinition.GenerateName webhook +:+
                                  "' intercepts the 'operators.coreos.com' API group. OLM will fail the CSV.")
                                 (ClusterServiceVersion.FilePath csv)
                                 "Webhooks cannot intercept the operators.coreos.com group. This would break OLM's ability to manage operators." ]
                        else violations in
                      if containsWebhookConfigResources (WebhookRule.Resources rule)
                      then violations ++
                           [ violation
                               ("Webhook '" +:+ WebhookDefinition.GenerateName webhook +:+
                                "' intercepts ValidatingWebhookConfigurations or MutatingWebhookConfigurations resources. OLM will fail the CSV.")
                               (ClusterServiceVersion.FilePath csv)
                               "Webhooks cannot intercept webhook configuration resources. This would break OLM's ability to configure webhooks." ]
                      else violations)
                   (WebhookDefinition.Rules webhook) violations)
            (CSVSpec.WebhookDefinitions (ClusterServiceVersion.Spec csv))
            violations)
  end.
End WebhookOperatorResourcesRule.

Module ConversionWebhookAllNamespacesRule.
Import rules.
(** ODH-OLM-003: Conversion Webhook Without AllNamespaces Install Mode. *)
Definition ID : string := "ODH-OLM-003".
Definition Name : string := "conversion-webhook-requires-allnamespaces".
Definition Category : Category := CategoryOLMRequirement.
Definition Severity : Severity := SeverityError.
Definition Description : string :=
  "CSVs featuring a conversion webhook may only support the AllNamespaces install mode. OLM requires this because conversion webhooks need to be accessible cluster-wide.".
Definition Fixable : bool := true.

Definition Validate (bundle : Bundle) : Res (list Violation) :=
  let violations : list Violation := [] in
  match Bundle.CSV bundle with
  | None => Ok violations
  | Some csv =>
      (* Check if there are any conversion webhooks *)
      let hasConversionWebhook :=
        existsb
          (fun webhook => String.eqb (WebhookDefinition.Type_ webhook) "ConversionWebhook")
          (CSVSpec.WebhookDefinitions (ClusterServiceVersion.Spec csv)) in
      if negb hasConversionWebhook then Ok violations
      else
        (* Check install modes - AllNamespaces must be supported *)
        let allNamespacesSupported :=
          existsb
            (fun mode =>
               String.eqb (InstallMode.Type_ mode) "AllNamespaces" && InstallMode.Supported mode)
            (CSVSpec.InstallModes (ClusterServiceVersion.Spec csv)) in
        if negb allNamespacesSupported
        then Ok (violations ++
                 [ Violation.mk ID Name Category Severity
                     "CSV defines conversion webhook but AllNamespaces install mode is not supported"
                     (ClusterServiceVersion.FilePath csv) 0
                     "OLM requires AllNamespaces install mode for operators with conversion webhooks. Set installModes[type=AllNamespaces].supported = true"
                     Fixable ])
        else Ok violations
  end.
End ConversionWebhookAllNamespacesRule.

Module PDBMaxUnavailableRule.
Import rules GoStrings.
(** ODH-OLM-004: PodDisruptionBudget with maxUnavailable=0. *)
Definition ID : string := "ODH-OLM-004".
Definition Name : string := "pdb-maxunavailable-zero".
Definition Category : Category := CategoryUpgrade.
Definition Severity : Severity := SeverityError.
Definition Description : string :=
  "PodDisruptionBudget maxUnavailable field cannot be set to 0 or 0%. This can make a node impossible to drain and block important lifecycle actions like operator upgrades or even cluster upgrades.".
Definition Fixable : bool := false.

(** [v == 0] on a float64: both zeros, and nothing else. *)
Definition floatIsZero (f : spec_float) : bool :=
  match f with
  | S754_zero _ => true
  | _ => false
  end.

(** [isZeroValue] checks if a value is 0, "0", or "0%". *)
Definition isZeroValue (val : Value) : bool :=
  match val with
  | VInt v => v =? 0
  | VInt64 v => v =? 0
  | VFloat64 v => floatIsZero v
  | VString v =>
      let trimmed := TrimSpace v in
      String.eqb trimmed "0" || String.eqb trimmed "0%"
  | _ => false
  end.

Definition violation (resource : Resource.t) : Violation :=
  Violation.mk ID Name Category Severity
    ("PodDisruptionBudget '" +:+ Metadata.Name (Resource.Metadata resource) +:+
     "' has maxUnavailable set to 0 or 0%")
    (Resource.FilePath resource) 0
    "Setting maxUnavailable to 0 or 0% prevents node drains and can block cluster lifecycle operations. Use a value >= 1."
    Fixable.

Definition Validate (bundle : Bundle) : Res (list Violation) :=
  forRange (Bundle.OtherResources bundle)
    (fun violations p =>
       resource <-! deref p ;
       if negb (String.eqb (Resource.Kind resource) "PodDisruptionBudget")
       then Ok violations
       else
         (* Check maxUnavailable field in spec *)
         match Resource.Spec resource !! "maxUnavailable" with
         | Some maxUnav =>
             if isZeroValue maxUnav
             then Ok (violations ++ [ violation resource ])
             else Ok violations
         | None => Ok violations
         end)
    [].
End PDBMaxUnavailableRule.

Module PDBMinAvailableRule.
Import rules GoStrings.
(** ODH-OLM-005: PodDisruptionBudget with minAvailable=100%. *)
Definition ID : string := "ODH-OLM-005".
Definition Name : string := "pdb-minavailable-hundred-percent".
Definition Category : Category := CategoryUpgrade.
Definition Severity : Severity := SeverityError.
Definition Description : string :=
  "PodDisruptionBudget minAvailable field cannot be set to 100%. This can make a node impossible to drain and block important lifecycle actions like operator upgrades or even cluster upgrades.".
Definition Fixable : bool := false.

(** The float64 100.0: 7036874417766400 * 2^-46. *)
Definition hundred : spec_float := S754_finite false 7036874417766400 (-46).

(** [isHundredPercent] checks if a value is "100%". *)
Definition isHundredPercent (val : Value) : bool :=
  match val with
  | VString v =>
      let trimmed := TrimSpace v in
      String.eqb trimmed "100%" || String.eqb trimmed "100"
  | VInt v => v =? 100
  | VInt64 v => v =? 100
  | VFloat64 v => SFeqb v hundred
  | _ => false
  end.

Definition violation (resource : Resource.t) : Violation :=
  Violation.mk ID Name Category Severity
    ("PodDisruptionBudget '" +:+ Metadata.Name (Resource.Metadata resource) +:+
     "' has minAvailable set to 100%")
    (Resource.FilePath resource) 0
    "Setting minAvailable to 100% prevents node drains and can block cluster lifecycle operations. Use a lower percentage."
    Fixable.

Definition Validate (bundle : Bundle) : Res (list Violation) :=
  forRange (Bundle.OtherResources bundle)
    (fun violations p =>
       resource <-! deref p ;
       if negb (String.eqb (Resource.Kind resource) "PodDisruptionBudget")
       then Ok violations
       else
         match Resource.Spec resource !! "minAvailable" with
         | Some minAvail =>
             if isHundredPercent minAvail
             then Ok (violations ++ [ violation resource ])
             else Ok violations
         | None => Ok violations
         end)
    [].
End PDBMinAvailableRule.

Module PriorityClassGlobalDefaultRule.
Import rules.
(** ODH-OLM-006: PriorityClass with globalDefault=true. *)
Definition ID : string := "ODH-OLM-006".
Definition Name : string := "priorityclass-globaldefault-true".
Definition Category : Category := CategorySecurity.
Definition Severity : Severity := SeverityError.
Definition Description : string :=
  "PriorityClass globalDefault should always be false in operator bundles. Setting globalDefault means all pods in the cluster without an explicit priority class will use this default, which can unintentionally affect other workloads.".
Definition Fixable : bool := true.

(** [isTrueValue] checks if a value is true. *)
Definition isTrueValue (val : Value) : bool :=
  match val with
  | VBool v => v
  | VString v => String.eqb v "true" || String.eqb v "True" || String.eqb v "TRUE"
  | _ => false
  end.

Definition violation (resource : Resource.t) : Violation :=
  Violation.mk ID Name Category Severity
    ("PriorityClass '" +:+ Metadata.Name (Resource.Metadata resource) +:+
     "' has globalDefault set to true")
    (Resource.FilePath resource) 0
    "PriorityClass globalDefault should be false in operator bundles. Setting it to true affects all pods cluster-wide."
    Fixable.

Definition Validate (bundle : Bundle) : Res (list Violation) :=
  forRange (Bundle.OtherResources bundle)
    (fun violations p =>
       resource <-! deref p ;
       if negb (String.eqb (Resource.Kind resource) "PriorityClass")
       then Ok violations
       else
         match Resource.Spec resource !! "globalDefault" with
         | Some globalDefault =>
             if isTrueValue globalDefault
             then Ok (violations ++ [ violation resource ])
             else Ok violations
         | None => Ok violations
         end)
    [].
End PriorityClassGlobalDefaultRule.

Module ChannelNamingRule.
Import rules GoStrings.
(** ODH-OLM-007: Channel Name Without Stability Indicator. *)
Definition ID : string := "ODH-OLM-007".
Definition Name : string := "channel-naming-convention".
Definition Category : Category := CategoryOLMBestPractice.
Definition Severity : Severity := SeverityWarning.
Definition Description : string :=
  "Channel names should follow recommended conventions using prefixes like 'stable', 'fast', or 'candidate' to indicate the support level and maturity. This provides a consistent user experience across operators.".
Definition Fixable : bool := false.

Definition recommendedPrefixes : list string :=
  [ "stable"; "fast"; "candidate"; "preview"; "alpha"; "beta" ].

Definition Validate `{tables : UnicodeTables} (bundle : Bundle) : Res (list Violation) :=
  let violations : list Violation := [] in
  match Bundle.Annotations bundle with
  | None => Ok violations
  | Some annotations =>
      Ok (fold_left
            (fun violations channel =>
               let hasRecommendedPrefix :=
                 existsb (fun prefix => HasPrefix (ToLower channel) prefix)
                   recommendedPrefixes in
               if negb hasRecommendedPrefix
               then violations ++
                    [ Violation.mk ID Name Category Severity
                        ("Channel '" +:+ channel +:+
                         "' does not follow recommended naming conventions")
                        (BundleAnnotations.FilePath annotations) 0
                        ("Consider using a channel name starting with: " +:+
                         Join recommendedPrefixes ", " +:+
                         ". This helps users understand the support level and maturity.")
                        Fixable ]
               else violations)
            (BundleAnnotations.Channels annotations)
            violations)
  end.
End ChannelNamingRule.

Module ConversionPreserveUnknownFieldsRule.
Import rules.
(** ODH-OLM-010: Conversion Webhook CRD with PreserveUnknownFields=true. *)
Definition ID : string := "ODH-OLM-010".
Definition Name : string := "conversion-webhook-preserve-unknown-fields".
Definition Category : Category := CategoryOLMRequirement.
Definition Severity : Severity := SeverityError.
Definition Description : string :=
  "CRDs targeted by conversion webhooks must have spec.preserveUnknownFields set to false or nil. This is required for proper conversion webhook functionality.".
Definition Fixable : bool := true.

Definition Validate (bundle : Bundle) : Res (list Violation) :=
  let violations : list Violation := [] in
  match Bundle.CSV bundle with
  | None => Ok violations
  | Some csv =>
      (* Collect CRDs mentioned in conversion webhooks *)
      let conversionCRDs : gmap string bool :=
        fold_left
          (fun conversionCRDs webhook =>
             if String.eqb (WebhookDefinition.Type_ webhook) "ConversionWebhook"
             then fold_left
                    (fun conversionCRDs crdName => <[crdName := true]> conversionCRDs)
                    (WebhookDefinition.ConversionCRDs webhook) conversionCRDs
             else conversionCRDs)
          (CSVSpec.WebhookDefinitions (ClusterServiceVersion.Spec csv)) ∅ in
      if (size conversionCRDs =? 0)%nat then Ok violations
      else
        (* Check each CRD *)
        forRange (Bundle.CRDs bundle)
          (fun violations p =>
             crd <-! deref p ;
             let spec := CustomResourceDefinition.Spec crd in
             let crdFullName := CRDNames.Plural (CRDSpec.Names spec) +:+ "." +:+ CRDSpec.Group spec in
             if negb (default false (conversionCRDs !! crdFullName)) then Ok violations
             else
               (* Check PreserveUnknownFields *)
               match CRDSpec.PreserveUnknownFields spec with
               | Some true =>
                   Ok (violations ++
                       [ Violation.mk ID Name Category Severity
                           ("CRD '" +:+ crdFullName +:+
                            "' is targeted by conversion webhook but has preserveUnknownFields=true")
                           (CustomResourceDefinition.FilePath crd) 0
                           "CRDs used with conversion webhooks must have spec.preserveUnknownFields set to false or nil. Set it to false."
                           Fixable ])
               | _ => Ok violations
               end)
          violations
  end.
End ConversionPreserveUnknownFieldsRule.

Module registry.
Import rules.

Section Registry.
Context `{tables : UnicodeTables}.

(** [GetAllRules] returns all available validation rules. *)
Definition GetAllRules : list Rule :=
  [ Rule.mk MinKubeVersionRule.ID MinKubeVersionRule.Name
      MinKubeVersionRule.Category MinKubeVersionRule.Severity
      MinKubeVersionRule.Description MinKubeVersionRule.Validate
      MinKubeVersionRule.Fixable;
    Rule.mk WebhookOperatorResourcesRule.ID WebhookOperatorResourcesRule.Name
      WebhookOperatorResourcesRule.Category WebhookOperatorResourcesRule.Severity
      WebhookOperatorResourcesRule.Description WebhookOperatorResourcesRule.Validate
      WebhookOperatorResourcesRule.Fixable;
    Rule.mk ConversionWebhookAllNamespacesRule.ID ConversionWebhookAllNamespacesRule.Name
      ConversionWebhookAllNamespacesRule.Category ConversionWebhookAllNamespacesRule.Severity
      ConversionWebhookAllNamespacesRule.Description ConversionWebhookAllNamespacesRule.Validate
      ConversionWebhookAllNamespacesRule.Fixable;
    Rule.mk PDBMaxUnavailableRule.ID PDBMaxUnavailableRule.Name
      PDBMaxUnavailableRule.Category PDBMaxUnavailableRule.Severity
      PDBMaxUnavailableRule.Description PDBMaxUnavailableRule.Validate
      PDBMaxUnavailableRule.Fixable;
    Rule.mk PDBMinAvailableRule.ID PDBMinAvailableRule.Name
      PDBMinAvailableRule.Category PDBMinAvailableRule.Severity
      PDBMinAvailableRule.Description PDBMinAvailableRule.Validate
      PDBMinAvailableRule.Fixable;
    Rule.mk PriorityClassGlobalDefaultRule.ID PriorityClassGlobalDefaultRule.Name
      PriorityClassGlobalDefaultRule.Category PriorityClassGlobalDefaultRule.Severity
      PriorityClassGlobalDefaultRule.Description PriorityClassGlobalDefaultRule.Validate
      PriorityClassGlobalDefaultRule.Fixable;
    Rule.mk ChannelNamingRule.ID ChannelNamingRule.Name
      ChannelNamingRule.Category ChannelNamingRule.Severity
      ChannelNamingRule.Description ChannelNamingRule.Validate
      ChannelNamingRule.Fixable;
    Rule.mk ConversionPreserveUnknownFieldsRule.ID ConversionPreserveUnknownFieldsRule.Name
      ConversionPreserveUnknownFieldsRule.Category ConversionPreserveUnknownFieldsRule.Severity
      ConversionPreserveUnknownFieldsRule.Description ConversionPreserveUnknownFieldsRule.Validate
      ConversionPreserveUnknownFieldsRule.Fixable ].

(** [GetRuleByID] returns a rule by its ID, nil if there is none. *)
Definition GetRuleByID (id : string) : option Rule :=
  find (fun rule => String.eqb (Rule.ID rule) id) GetAllRules.

(** [ValidateBundle] runs all rules against a bundle and returns
    violations. *)
Definition ValidateBundle (bundle : Bundle) (rules : list Rule) : Res (list Violation) :=
  forRange rules
    (fun allViolations rule =>
       violations <-! Rule.Validate rule bundle ;
       Ok (allViolations ++ violations))
    [].
End Registry.

End registry.

(* ===================================================================== *)
(** * bundle-linters/pkg/loader *)
(* ===================================================================== *)

Module loader.

Import rules GoStrings.

(** A Go [error]: its text, and whether [os.IsNotExist] holds of it. *)
Record error : Type := mkError { IsNotExist : bool; Error : string }.

(** [fmt.Errorf]: a new error; [os.IsNotExist] does not look through
    the [%w] wrapping. *)
Definition Errorf (text : string) : error := mkError false text.

(** [os.IsNotExist(err)]. *)
Definition isNotExist (err : option error) : bool :=
  match err with
  | Some e => IsNotExist e
  | None => false
  end.

(** [os.DirEntry]. *)
Record DirEntry : Type := mkDirEntry { Name : string; IsDir : bool }.

(** The file system, through the calls the loader makes; a Go result
    [(value, err)] is a pair. [Stat] keeps the error only. *)
Class OS : Type := {
  Abs : string -> string * option error;
  Join : string -> string -> string;
  Stat : string -> option error;
  ReadFile : string -> string * option error;
  ReadDir : string -> list DirEntry * option error
}.

(** The anonymous structs that the parsers decode into have the fields
    of the structs of package rules; their parts are kept in those
    types. *)
Record RawBasic : Type := mkRawBasic { basicAPIVersion : string; basicKind : string }.

Record RawCSV : Type := mkRawCSV {
  csvAPIVersion : string;
  csvKind : string;
  csvMetadata : Metadata.t;
  csvSpec : CSVSpec.t
}.

Record RawCRD : Type := mkRawCRD {
  crdAPIVersion : string;
  crdKind : string;
  crdMetadata : Metadata.t;
  crdSpec : CRDSpec.t
}.

Record RawResource : Type := mkRawResource {
  resAPIVersion : string;
  resKind : string;
  resMetadata : Metadata.t;
  resSpec : gmap string Value
}.

(** [yaml.Unmarshal], at each of the types the loader decodes into. *)
Class YAML : Type := {
  UnmarshalAnnotations : string -> gmap string string * option error;
  UnmarshalBasic : string -> RawBasic * option error;
  UnmarshalCSV : string -> RawCSV * option error;
  UnmarshalCRD : string -> RawCRD * option error;
  UnmarshalResource : string -> RawResource * option error
}.

Section Loader.
Context `{os : OS} `{yaml : YAML}.

Definition setAnnotations (bundle : Bundle) (a : option BundleAnnotations.t) : Bundle :=
  Bundle.mk (Bundle.Path bundle) (Bundle.ManifestsPath bundle) (Bundle.MetadataPath bundle)
    (Bundle.CSV bundle) (Bundle.CRDs bundle) (Bundle.OtherResources bundle) a.

Definition setCSV (bundle : Bundle) (csv : option ClusterServiceVersion.t) : Bundle :=
  Bundle.mk (Bundle.Path bundle) (Bundle.ManifestsPath bundle) (Bundle.MetadataPath bundle)
    csv (Bundle.CRDs bundle) (Bundle.OtherResources bundle) (Bundle.Annotations bundle).

Definition setCRDs (bundle : Bundle) (crds : list (option CustomResourceDefinition.t)) : Bundle :=
  Bundle.mk (Bundle.Path bundle) (Bundle.ManifestsPath bundle) (Bundle.MetadataPath bundle)
    (Bundle.CSV bundle) crds (Bundle.OtherResources bundle) (Bundle.Annotations bundle).

Definition setOtherResources (bundle : Bundle) (rs : list (option Resource.t)) : Bundle :=
  Bundle.mk (Bundle.Path bundle) (Bundle.ManifestsPath bundle) (Bundle.MetadataPath bundle)
    (Bundle.CSV bundle) (Bundle.CRDs bundle) rs (Bundle.Annotations bundle).

(** [raw.Annotations[key]]: the empty string for a missing key. *)
Definition annotation (raw : gmap string string) (key : string) : string :=
  default "" (raw !! key).

(** [loadAnnotations] loads the bundle annotations from
    metadata/annotations.yaml. It updates [bundle] in place: the
    bundle it leaves is returned with the error. *)
Definition loadAnnotations (bundle : Bundle) : Bundle * option error :=
  let annotationsPath := Join (Bundle.MetadataPath bundle) "annotations.yaml" in
  if isNotExist (Stat annotationsPath) then
    (* Annotations file is optional in some cases *)
    (bundle, None)
  else
    let '(data, err) := ReadFile annotationsPath in
    match err with
    | Some e => (bundle, Some (Errorf ("failed to read annotations file: " +:+ Error e)))
    | None =>
        let '(raw, err) := UnmarshalAnnotations data in
        match err with
        | Some e => (bundle, Some (Errorf ("failed to parse annotations YAML: " +:+ Error e)))
        | None =>
            let channelsStr := annotation raw "operators.operatorframework.io.bundle.channels.v1" in
            let channels :=
              if negb (String.eqb channelsStr "")
              then map TrimSpace (Split channelsStr ",")
              else [] in
            let annotations :=
              BundleAnnotations.mk annotationsPath
                (annotation raw "operators.operatorframework.io.bundle.mediatype.v1")
                (annotation raw "operators.operatorframework.io.bundle.manifests.v1")
                (annotation raw "operators.operatorframework.io.bundle.metadata.v1")
                (annotation raw "operators.operatorframework.io.bundle.package.v1")
                channels
                (annotation raw "operators.operatorframework.io.bundle.channel.default.v1") in
            (setAnnotations bundle (Some annotations), None)
        end
    end.

(** [parseCSV] parses a ClusterServiceVersion YAML file. *)
Definition parseCSV (filePath data : string) : option ClusterServiceVersion.t * option error :=
  let '(raw, err) := UnmarshalCSV data in
  match err with
  | Some e => (None, Some e)
  | None =>
      let spec := csvSpec raw in
      let installModes :=
        map (fun im => InstallMode.mk (InstallMode.Type_ im) (InstallMode.Supported im))
          (CSVSpec.InstallModes spec) in
      let webhooks :=
        map (fun wd =>
               WebhookDefinition.mk
                 (WebhookDefinition.Type_ wd)
                 (WebhookDefinition.AdmissionReviewVersions wd)
                 (WebhookDefinition.DeploymentName wd)
                 (WebhookDefinition.FailurePolicy wd)
                 (WebhookDefinition.GenerateName wd)
                 (map (fun rule =>
                         WebhookRule.mk (WebhookRule.APIGroups rule) (WebhookRule.APIVersions rule)
                           (WebhookRule.Operations rule) (WebhookRule.Resources rule))
                    (WebhookDefinition.Rules wd))
                 (WebhookDefinition.SideEffects wd)
                 (WebhookDefinition.WebhookPath wd)
                 (WebhookDefinition.ConversionCRDs wd))
          (CSVSpec.WebhookDefinitions spec) in
      let reference r :=
        CRDReference.mk (CRDReference.Name r) (CRDReference.Version r) (CRDReference.Kind r) in
      let crds :=
        CSVCustomResourceDefinitions.mk
          (map reference (CSVCustomResourceDefinitions.Owned (CSVSpec.CustomResourceDefinitions spec)))
          (map reference (CSVCustomResourceDefinitions.Required (CSVSpec.CustomResourceDefinitions spec))) in
      let deployments :=
        map (fun dep =>
               Deployment.mk (Deployment.Name dep)
                 (DeploymentSpec.mk (PodTemplateSpec.mk (PodSpec.mk
                    (map (fun c =>
                            Container.mk (Container.Name c) (Container.Image c)
                              (Container.Command c) (Container.Args c))
                       (PodSpec.Containers (PodTemplateSpec.Spec
                          (DeploymentSpec.Template (Deployment.Spec dep)))))))))
          (InstallSpec.Deployments (CSVInstall.Spec (CSVSpec.Install spec))) in
      (Some (ClusterServiceVersion.mk filePath (csvAPIVersion raw) (csvKind raw)
               (Metadata.mk (Metadata.Name (csvMetadata raw)) (Metadata.Namespace (csvMetadata raw))
                  (Metadata.Annotations (csvMetadata raw)) (Metadata.Labels (csvMetadata raw)))
               (CSVSpec.mk (CSVSpec.MinKubeVersion spec) installModes webhooks crds
                  (CSVInstall.mk (CSVInstall.Strategy (CSVSpec.Install spec))
                     (InstallSpec.mk deployments)))),
       None)
  end.

(** [parseCRD] parses a CustomResourceDefinition YAML file. *)
Definition parseCRD (filePath data : string) : option CustomResourceDefinition.t * option error :=
  let '(raw, err) := UnmarshalCRD data in
  match err with
  | Some e => (None, Some e)
  | None =>
      let spec := crdSpec raw in
      let versions :=
        map (fun v => CRDVersion.mk (CRDVersion.Name v) (CRDVersion.Served v) (CRDVersion.Storage v))
          (CRDSpec.Versions spec) in
      let conversion :=
        match CRDSpec.Conversion spec with
        | None => None
        | Some conv =>
            Some (CRDConversion.mk (CRDConversion.Strategy conv)
                    match CRDConversion.Webhook conv with
                    | None => None
                    | Some wh =>
                        Some (CRDConversionWebhook.mk
                                match CRDConversionWebhook.ClientConfig wh with
                                | None => None
                                | Some cc =>
                                    Some (WebhookClientConfig.mk
                                            match WebhookClientConfig.Service cc with
                                            | None => None
                                            | Some svc =>
                                                Some (ServiceReference.mk
                                                        (ServiceReference.Name svc)
                                                        (ServiceReference.Namespace svc)
                                                        (ServiceReference.Path svc))
                                            end)
                                end)
                    end)
        end in
      (Some (CustomResourceDefinition.mk filePath (crdAPIVersion raw) (crdKind raw)
               (Metadata.mk (Metadata.Name (crdMetadata raw)) (Metadata.Namespace (crdMetadata raw))
                  (Metadata.Annotations (crdMetadata raw)) (Metadata.Labels (crdMetadata raw)))
               (CRDSpec.mk (CRDSpec.Group spec)
                  (CRDNames.mk (CRDNames.Kind (CRDSpec.Names spec))
                     (CRDNames.Plural (CRDSpec.Names spec))
                     (CRDNames.Singular (CRDSpec.Names spec)))
                  versions (CRDSpec.PreserveUnknownFields spec) conversion)),
       None)
  end.

(** [parseResource] parses a generic Kubernetes resource YAML file. *)
Definition parseResource (filePath data : string) : option Resource.t * option error :=
  let '(raw, err) := UnmarshalResource data in
  match err with
  | Some e => (None, Some e)
  | None =>
      (Some (Resource.mk filePath (resAPIVersion raw) (resKind raw)
               (Metadata.mk (Metadata.Name (resMetadata raw)) (Metadata.Namespace (resMetadata raw))
                  (Metadata.Annotations (resMetadata raw)) (Metadata.Labels (resMetadata raw)))
               (resSpec raw)),
       None)
  end.

(** [loadManifestFile] loads a single manifest file and adds it to the
    bundle. *)
Definition loadManifestFile (bundle : Bundle) (filePath : string) : Bundle * option error :=
  let '(data, err) := ReadFile filePath in
  match err with
  | Some e => (bundle, Some (Errorf ("failed to read file: " +:+ Error e)))
  | None =>
      (* Parse basic resource structure to determine kind *)
      let '(basic, err) := UnmarshalBasic data in
      match err with
      | Some e => (bundle, Some (Errorf ("failed to parse YAML: " +:+ Error e)))
      | None =>
          (* Route to specific parser based on kind *)
          if String.eqb (basicKind basic) "ClusterServiceVersion" then
            let '(csv, err) := parseCSV filePath data in
            match err with
            | Some e => (bundle, Some (Errorf ("failed to parse CSV: " +:+ Error e)))
            | None => (setCSV bundle csv, None)
            end
          else if String.eqb (basicKind basic) "CustomResourceDefinition" then
            let '(crd, err) := parseCRD filePath data in
            match err with
            | Some e => (bundle, Some (Errorf ("failed to parse CRD: " +:+ Error e)))
            | None => (setCRDs bundle (Bundle.CRDs bundle ++ [crd]), None)
            end
          else
            (* Parse as generic resource *)
            let '(resource, err) := parseResource filePath data in
            match err with
            | Some e => (bundle, Some (Errorf ("failed to parse resource: " +:+ Error e)))
            | None => (setOtherResources bundle (Bundle.OtherResources bundle ++ [resource]), None)
            end
      end
  end.

(** Only process YAML files that are not directories. *)
Definition isManifest (file : DirEntry) : bool :=
  negb (IsDir file) &&
  negb (negb (HasSuffix (Name file) ".yaml") && negb (HasSuffix (Name file) ".yml")).

(** The loop of [loadManifests] over the directory entries. *)
Fixpoint loadManifestFiles (files : list DirEntry) (bundle : Bundle) : Bundle * option error :=
  match files with
  | [] => (bundle, None)
  | file :: files' =>
      if IsDir file then loadManifestFiles files' bundle
      else if negb (HasSuffix (Name file) ".yaml") && negb (HasSuffix (Name file) ".yml")
      then loadManifestFiles files' bundle
      else
        let filePath := Join (Bundle.ManifestsPath bundle) (Name file) in
        let '(bundle, err) := loadManifestFile bundle filePath in
        match err with
        | Some e =>
            (bundle, Some (Errorf ("failed to load manifest " +:+ Name file +:+ ": " +:+ Error e)))
        | None => loadManifestFiles files' bundle
        end
  end.

(** [loadManifests] loads all manifest files from the manifests
    directory. *)
Definition loadManifests (bundle : Bundle) : Bundle * option error :=
  if isNotExist (Stat (Bundle.ManifestsPath bundle)) then
    (bundle, Some (Errorf ("manifests directory not found: " +:+ Bundle.ManifestsPath bundle)))
  else
    let '(files, err) := ReadDir (Bundle.ManifestsPath bundle) in
    match err with
    | Some e => (bundle, Some (Errorf ("failed to read manifests directory: " +:+ Error e)))
    | None => loadManifestFiles files bundle
    end.

(** [LoadBundle] loads an operator bundle from a directory. The
    result is the pair of a bundle pointer and an error. *)
Definition LoadBundle (bundlePath : string) : option Bundle * option error :=
  (* Normalize path *)
  let '(absPath, err) := Abs bundlePath in
  match err with
  | Some e => (None, Some (Errorf ("failed to resolve bundle path: " +:+ Error e)))
  | None =>
      (* Check if path exists *)
      if isNotExist (Stat absPath) then
        (None, Some (Errorf ("bundle path does not exist: " +:+ absPath)))
      else
        let bundle :=
          Bundle.mk absPath (Join absPath "manifests") (Join absPath "metadata")
            None [] [] None in
        (* Load bundle annotations *)
        let '(bundle, err) := loadAnnotations bundle in
        match err with
        | Some e => (None, Some (Errorf ("failed to load annotations: " +:+ Error e)))
        | None =>
            (* Load manifests *)
            let '(bundle, err) := loadManifests bundle in
            match err with
            | Some e => (None, Some (Errorf ("failed to load manifests: " +:+ Error e)))
            | None => (Some bundle, None)
            end
        end
  end.
End Loader.

End loader.

(* ===================================================================== *)
(** * Package sort (Go standard library) *)
(* ===================================================================== *)

Module sort.

(** What [sort.Slice] does to a slice: it reads it through [Less(i, j)]
    and changes it through [Swap(i, j)], and nothing else. A run of the
    sorting function is a tree of those two calls. *)
Inductive Prog : Type :=
| Return
| Swap (i j : nat) (k : Prog)
| Less (i j : nat) (k : bool -> Prog).

(** [data.Swap(i, j)]; the indices of a sorting run are in range. *)
Definition swap {A : Type} (x : list A) (i j : nat) : list A :=
  match x !! i, x !! j with
  | Some xi, Some xj => <[i := xj]> (<[j := xi]> x)
  | _, _ => x
  end.

(** Runs a program on the slice [x]; [less] is the caller's closure,
    which reads the slice as it is when it is called. *)
Fixpoint exec {A : Type} (less : list A -> nat -> nat -> bool) (p : Prog) (x : list A) : list A :=
  match p with
  | Return => x
  | Swap i j k => exec less k (swap x i j)
  | Less i j k => exec less (k (less x i j)) x
  end.

(** [for j := i; j > a && data.Less(j, j-1); j-- { data.Swap(j, j-1) }],
    followed by [k]. *)
Fixpoint insertionInner (a j : nat) (k : Prog) : Prog :=
  match j with
  | O => k
  | S j' =>
      if (a <? j)%nat
      then Less j j' (fun lt => if lt then Swap j j' (insertionInner a j' k) else k)
      else k
  end.

(** [for i := ...; i < b; i++] with [n] iterations left at most. *)
Fixpoint insertionOuter (a b i n : nat) : Prog :=
  match n with
  | O => Return
  | S n' =>
      if (i <? b)%nat
      then insertionInner a i (insertionOuter a b (S i) n')
      else Return
  end.

(** [insertionSort_func] sorts [data[a:b]] using insertion sort. *)
Definition insertionSort_func (a b : nat) : Prog :=
  insertionOuter a b (a + 1) (b - (a + 1)).

(** The part of [pdqsort_func] that runs on more than [maxInsertion]
    elements (pattern-defeating quicksort) is a parameter. *)
Class Algorithm : Type := pdqsortLarge : nat -> nat -> nat -> Prog.

Definition maxInsertion : nat := 12.

(** [pdqsort_func] sorts [data[a:b]]. *)
Definition pdqsort_func `{alg : Algorithm} (a b limit : nat) : Prog :=
  if (b - a <=? maxInsertion)%nat
  then insertionSort_func a b
  else pdqsortLarge a b limit.

(** [bits.Len]. *)
Definition bitsLen (n : nat) : nat :=
  if (n =? 0)%nat then 0%nat else S (Nat.log2 n).

(** [sort.Slice(x, less)]. *)
Definition Slice `{alg : Algorithm} {A : Type} (x : list A) (less : list A -> nat -> nat -> bool) : list A :=
  let length := length x in
  let limit := bitsLen length in
  exec less (pdqsort_func 0 length limit) x.

End sort.

(** The algorithm used where a closed instance is needed: insertion sort
    at every length. *)
Definition insertionAlgorithm : sort.Algorithm :=
  fun a b _ => sort.insertionSort_func a b.

(* ===================================================================== *)
(** * bundle-linters/pkg/reporter *)
(* ===================================================================== *)

Module reporter.

Import rules GoStrings loader.

(** [io.Writer]: a write leaves the writer in a new state and may
    return an error. *)
Class Writer (W : Type) : Type := Write : W -> string -> W * option error.

Definition newline : string := String (ascii_of_N 10) EmptyString.

Section Reporter.
Context `{alg : sort.Algorithm} {W : Type} `{wr : Writer W}.

(** [fmt.Fprintln(w, s)]. *)
Definition Fprintln (w : W) (s : string) : W * option error :=
  Write w (s +:+ newline).

(** [fmt.Fprintf(w, ...)], with the formatted text. *)
Definition Fprintf (w : W) (s : string) : W * option error :=
  Write w s.

(** Reporter formats and outputs validation results. *)
Record Reporter : Type := New { writer : W }.

(** [getSeverityIcon] returns an emoji icon for the severity level. *)
Definition getSeverityIcon (severity : Severity) : string :=
  if String.eqb severity SeverityError then "❌"
  else if String.eqb severity SeverityWarning then "⚠️ "
  else if String.eqb severity SeverityInfo then "ℹ️ "
  else "  ".

(** [severityWeight] returns a numeric weight for sorting. *)
Definition severityWeight (severity : Severity) : Z :=
  if String.eqb severity SeverityError then 3
  else if String.eqb severity SeverityWarning then 2
  else if String.eqb severity SeverityInfo then 1
  else 0.

(** [formatViolation] formats a single violation for display. *)
Definition formatViolation (v : Violation) : string :=
  let sb := "" in
  (* Format header with severity emoji *)
  let severityIcon := getSeverityIcon (Violation.Severity v) in
  let sb := sb +:+ severityIcon +:+ " [" +:+ Violation.RuleID v +:+ "] " +:+
            Violation.Message v +:+ newline in
  (* Add file location *)
  let sb :=
    if negb (String.eqb (Violation.File v) "") then
      if 0 <? Violation.Line v
      then sb +:+ "   File: " +:+ Violation.File v +:+ ":" +:+ pretty (Violation.Line v) +:+ newline
      else sb +:+ "   File: " +:+ Violation.File v +:+ newline
    else sb in
  (* Add category *)
  let sb := sb +:+ "   Category: " +:+ Violation.Category v +:+ newline in
  (* Add description if available *)
  let sb :=
    if negb (String.eqb (Violation.Description v) "")
    then sb +:+ "   " +:+ Violation.Description v +:+ newline
    else sb in
  (* Add fixable status *)
  let sb :=
    if Violation.Fixable v
    then sb +:+ "   ℹ️  This issue is potentially auto-fixable" +:+ newline
    else sb in
  sb.

(** The comparison of two violations in the closure that [Report]
    hands to [sort.Slice]. *)
Definition lessViolation (vi vj : Violation) : bool :=
  if negb (String.eqb (Violation.Severity vi) (Violation.Severity vj))
  then severityWeight (Violation.Severity vj) <? severityWeight (Violation.Severity vi)
  else if negb (String.eqb (Violation.File vi) (Violation.File vj))
  then String.ltb (Violation.File vi) (Violation.File vj)
  else String.ltb (Violation.RuleID vi) (Violation.RuleID vj).

(** The closure itself: it indexes the slice that is being sorted. *)
Definition less (violations : list Violation) (i j : nat) : bool :=
  match violations !! i, violations !! j with
  | Some vi, Some vj => lessViolation vi vj
  | _, _ => false
  end.

(** The counting loop of [Report]: errors, warnings, infos. *)
Definition countBySeverity (violations : list Violation) : Z * Z * Z :=
  fold_left
    (fun '(errorCount, warningCount, infoCount) v =>
       if String.eqb (Violation.Severity v) SeverityError
       then (errorCount + 1, warningCount, infoCount)
       else if String.eqb (Violation.Severity v) SeverityWarning
       then (errorCount, warningCount + 1, infoCount)
       else if String.eqb (Violation.Severity v) SeverityInfo
       then (errorCount, warningCount, infoCount + 1)
       else (errorCount, warningCount, infoCount))
    violations (0, 0, 0).

(** [Report] outputs validation violations. The slice is sorted in
    place: the result carries the writer, the slice as [Report]
    leaves it, and the error. *)
Definition Report (r : Reporter) (violations : list Violation)
  : Reporter * list Violation * option error :=
  if (length violations =? 0)%nat then
    let '(w, err) := Fprintln (writer r) "✓ No issues found" in
    (New w, violations, err)
  else
    (* Sort violations by severity, then by file, then by rule ID *)
    let violations := sort.Slice violations less in
    (* Count by severity *)
    let '(errorCount, warningCount, infoCount) := countBySeverity violations in
    (* Print summary header *)
    let w := writer r in
    let w := fst (Fprintf w (newline +:+ "Found " +:+ pretty (Z.of_nat (length violations)) +:+
                             " issue(s):" +:+ newline)) in
    let w := if 0 <? errorCount
             then fst (Fprintf w ("  - " +:+ pretty errorCount +:+ " error(s)" +:+ newline))
             else w in
    let w := if 0 <? warningCount
             then fst (Fprintf w ("  - " +:+ pretty warningCount +:+ " warning(s)" +:+ newline))
             else w in
    let w := if 0 <? infoCount
             then fst (Fprintf w ("  - " +:+ pretty infoCount +:+ " info" +:+ newline))
             else w in
    let w := fst (Fprintln w "") in
    (* Print violations *)
    let w :=
      fold_left
        (fun w v =>
           let w := fst (Fprintln w (formatViolation v)) in
           fst (Fprintln w ""))
        violations w in
    (New w, violations, None).

(** [ReportSummary] outputs a summary of violations. *)
Definition ReportSummary (r : Reporter) (violations : list Violation)
  : Reporter * option error :=
  let '(errorCount, warningCount) :=
    fold_left
      (fun '(errorCount, warningCount) v =>
         if String.eqb (Violation.Severity v) SeverityError
         then (errorCount + 1, warningCount)
         else if String.eqb (Violation.Severity v) SeverityWarning
         then (errorCount, warningCount + 1)
         else (errorCount, warningCount))
      violations (0, 0) in
  if 0 <? errorCount then
    let w := fst (Fprintf (writer r)
                    (newline +:+ "❌ Validation failed: " +:+ pretty errorCount +:+
                     " error(s), " +:+ pretty warningCount +:+ " warning(s)" +:+ newline)) in
    (New w, Some (Errorf ("validation failed with " +:+ pretty errorCount +:+ " error(s)")))
  else
    let w :=
      if 0 <? warningCount
      then fst (Fprintf (writer r)
                  (newline +:+ "⚠️  Validation passed with " +:+ pretty warningCount +:+
                   " warning(s)" +:+ newline))
      else fst (Fprintln (writer r) (newline +:+ "✓ All checks passed!")) in
    (New w, None).
End Reporter.

End reporter.

(** A writer that keeps what is written and never fails. *)
Definition bufferWriter : reporter.Writer string :=
  fun w s => (w +:+ s, None).

(* ===================================================================== *)
(** * Package os: the standard output and the standard error *)
(* ===================================================================== *)

Module stdio.

Import loader reporter.

(** What the write system call does on a descriptor: it returns, with
    an error (ENOSPC on a full device, say) or without one, or it fails
    with EPIPE, the descriptor being a pipe whose reader is gone. *)
Inductive Outcome (F : Type) : Type :=
| Returns (s : F) (err : option error)
| EPIPE.
Arguments Returns {F} s err.
Arguments EPIPE {F}.

(** The files behind the descriptors of the process, in a state [F]
    of the world outside: what a write of [data] to the descriptor [fd]
    does. Two descriptors may be the same file. *)
Class Files (F : Type) : Type := write : Z -> F -> string -> Outcome F.

(** The process: running, with the state of its files, or killed by
    SIGPIPE. *)
Inductive Process (F : Type) : Type :=
| Running (s : F)
| Killed.
Arguments Running {F} s.
Arguments Killed {F}.

(** How the process ends: by [os.Exit(code)], its files in the state
    [s], or killed by SIGPIPE. *)
Inductive Exit (F : Type) : Type :=
| Exited (s : F) (code : Z)
| Signalled.
Arguments Exited {F} s code.
Arguments Signalled {F}.

Section Stdio.
Context {F : Type} `{files : Files F}.

(** [File.Write] on the descriptor 1 or 2. When the system call
    fails with EPIPE, [epipecheck] raises SIGPIPE, and a program that
    does not call [signal.Notify], as this one, dies of it: the write
    does not return, which is the state [Killed] here, and a process
    that was killed writes nothing more. Every other error is
    returned. *)
Definition fileWrite (fd : Z) (p : Process F) (data : string) : Process F * option error :=
  match p with
  | Running s =>
      match write fd s data with
      | Returns s' err => (Running s', err)
      | EPIPE => (Killed, None)
      end
  | Killed => (Killed, None)
  end.

(** [os.Stdout] and [os.Stderr], as [io.Writer]s. *)
Definition Stdout : Writer (Process F) := fileWrite 1.
Definition Stderr : Writer (Process F) := fileWrite 2.

(** [os.Exit(code)]; a process that was killed does not get there. *)
Definition osExit (p : Process F) (code : Z) : Exit F :=
  match p with
  | Running s => Exited s code
  | Killed => Signalled
  end.

(** What the program does after a write to a standard file: [k], unless
    the write killed the process. *)
Definition alive (p : Process F) (k : Res (Exit F)) : Res (Exit F) :=
  match p with
  | Running _ => k
  | Killed => Ok Signalled
  end.
End Stdio.

End stdio.

(** Three worlds. In the first the standard output and the standard
    error are two files that keep what is written. In the second the
    standard output is a full device ([/dev/full]): every write to it
    returns ENOSPC. In the third the standard output is a pipe whose
    reader is gone. *)
Definition badDescriptor : loader.error := loader.mkError false "bad file descriptor".
Definition noSpace : loader.error := loader.mkError false "no space left on device".

Definition bufferFiles : stdio.Files (string * string) :=
  fun fd s data =>
    if fd =? 1 then stdio.Returns (fst s +:+ data, snd s) None
    else if fd =? 2 then stdio.Returns (fst s, snd s +:+ data) None
    else stdio.Returns s (Some badDescriptor).

Definition fullDevice : stdio.Files (string * string) :=
  fun fd s data =>
    if fd =? 1 then stdio.Returns s (Some noSpace)
    else bufferFiles fd s data.

Definition closedPipe : stdio.Files (string * string) :=
  fun fd s data =>
    if fd =? 1 then stdio.EPIPE
    else bufferFiles fd s data.

(* ===================================================================== *)
(** * bundle-linters/cmd/odhlint-bundle *)
(* ===================================================================== *)

Module main.

Import rules GoStrings loader reporter registry stdio.

(** [parseRuleList] parses a comma-separated list of rule IDs. *)
Definition parseRuleList (list : string) : gmap string bool :=
  let result : gmap string bool := ∅ in
  if String.eqb list "" then result
  else
    let parts := Split list "," in
    fold_left
      (fun result part =>
         let trimmed := TrimSpace part in
         if negb (String.eqb trimmed "") then <[trimmed := true]> result else result)
      parts result.

(** [hasErrors] checks if there are any error-level violations. *)
Definition hasErrors (violations : list Violation) : bool :=
  existsb (fun v => String.eqb (Violation.Severity v) SeverityError) violations.

(** [hasWarnings] checks if there are any warning-level violations. *)
Definition hasWarnings (violations : list Violation) : bool :=
  existsb (fun v => String.eqb (Violation.Severity v) SeverityWarning) violations.

Section Main.
Context `{tables : UnicodeTables} `{alg : sort.Algorithm} `{os : OS} `{yaml : YAML}
  {W : Type} `{wr : Writer W} {F : Type} `{files : Files F}.

(** [selectRules] determines which rules to run based on
    enable/disable flags. *)
Definition selectRules (enable disable : string) : list Rule :=
  let allRules := GetAllRules in
  (* If enable is specified, start with empty set *)
  if negb (String.eqb enable "") then
    let enabledIDs := parseRuleList enable in
    List.filter (fun rule => bool_decide (is_Some (enabledIDs !! Rule.ID rule))) allRules
  else
    (* Otherwise start with all rules *)
    let selected := allRules in
    (* Remove disabled rules *)
    if negb (String.eqb disable "") then
      let disabledIDs := parseRuleList disable in
      List.filter (fun rule => negb (bool_decide (is_Some (disabledIDs !! Rule.ID rule)))) selected
    else selected.

(** The body of [printRules] for the rules [allRules]: it groups them
    by category and prints the groups of the four categories, in that
    order. *)
Definition printRuleList (allRules : list Rule) (stdout : W) : W :=
  let stdout := fst (Fprintln stdout "Available validation rules:") in
  let stdout := fst (Fprintln stdout "") in
  (* Group by category *)
  let categories : gmap string (list Rule) :=
    fold_left
      (fun categories rule =>
         let cat := Rule.Category rule in
         <[cat := default [] (categories !! cat) ++ [rule]]> categories)
      allRules ∅ in
  (* Print by category *)
  let stdout :=
    fold_left
      (fun stdout cat =>
         match categories !! cat with
         | Some ruleList =>
             if (0 <? length ruleList)%nat then
               let stdout := fst (Fprintf stdout ("=== " +:+ cat +:+ " ===" +:+ newline +:+ newline)) in
               fold_left
                 (fun stdout rule =>
                    let stdout :=
                      fst (Fprintf stdout ("  " +:+ Rule.ID rule +:+ ": " +:+ Rule.Name rule +:+ newline)) in
                    let stdout :=
                      fst (Fprintf stdout ("    Severity: " +:+ Rule.Severity rule +:+ newline)) in
                    let stdout :=
                      fst (Fprintf stdout ("    " +:+ Rule.Description rule +:+ newline)) in
                    fst (Fprintln stdout ""))
                 ruleList stdout
             else stdout
         | None => stdout
         end)
      [ CategoryOLMRequirement; CategoryOLMBestPractice; CategorySecurity; CategoryUpgrade ]
      stdout in
  fst (Fprintf stdout ("Total: " +:+ pretty (Z.of_nat (length allRules)) +:+ " rules" +:+ newline)).

(** [printRules] prints all available rules. *)
Definition printRules (stdout : W) : W := printRuleList GetAllRules stdout.

(** The end of [main], from "Report results" on. *)
Definition reportAndExit (p : Process F) (noWarnings : bool) (violations : list Violation)
  : Exit F :=
  let rep := New p in
  let '(rep, violations, err) := Report (wr := Stdout) rep violations in
  match err with
  | Some err =>
      let p := fst (Fprintf (wr := Stderr) (writer rep)
                      ("Error reporting results: " +:+ Error err +:+ newline)) in
      osExit p 1
  | None =>
      (* Exit with appropriate code *)
      let exitCode := 0 in
      let exitCode :=
        if hasErrors violations then 1
        else if negb noWarnings && hasWarnings violations
        then 0 (* Warnings don't cause failure by default *)
        else exitCode in
      let '(rep, err) := ReportSummary (wr := Stdout) rep violations in
      let exitCode :=
        match err with
        | Some _ => if exitCode =? 0 then 1 else exitCode
        | None => exitCode
        end in
      osExit (writer rep) exitCode
  end.

(** [main], once the flags are parsed and a bundle path is given: how
    the process ends, or a panic. *)
Definition main (p : Process F) (enableRules disableRules : string) (noWarnings : bool)
    (bundlePath : string) : Res (Exit F) :=
  (* Load the bundle *)
  let p := fst (Fprintf (wr := Stdout) p ("Loading bundle from: " +:+ bundlePath +:+ newline)) in
  alive p (
  let '(bundle, err) := LoadBundle bundlePath in
  match err with
  | Some err =>
      let p := fst (Fprintf (wr := Stderr) p
                      ("Error loading bundle: " +:+ Error err +:+ newline)) in
      Ok (osExit p 1)
  | None =>
      bundle <-! deref bundle ;
      (* Determine which rules to run *)
      let rulesToRun := selectRules enableRules disableRules in
      let p :=
        fst (Fprintf (wr := Stdout) p
               ("Running " +:+ pretty (Z.of_nat (length rulesToRun)) +:+
                " validation rule(s)..." +:+ newline +:+ newline)) in
      alive p (
      (* Validate the bundle *)
      violations <-! ValidateBundle bundle rulesToRun ;
      Ok (reportAndExit p noWarnings violations))
  end).
End Main.

End main.

(* ===================================================================== *)
(** * The vocabulary of the specification *)
(* ===================================================================== *)

(** [sub] occurs in [s]. *)
Definition Substring (sub s : string) : Prop :=
  exists pre post : string, s = pre +:+ sub +:+ post.

(* ===================================================================== *)
(** * Induction over syntax trees *)
(* ===================================================================== *)

Section AstInduction.
Import ast.
Variables (P : Expr -> Prop) (Q : Stmt -> Prop).
Hypothesis HIdent : forall name, P (Ident name).
Hypothesis HBasicLit : forall value, P (BasicLit value).
Hypothesis HBinaryExpr : forall x op y, P x -> P y -> P (BinaryExpr x op y).
Hypothesis HUnaryExpr : forall op x, P x -> P (UnaryExpr op x).
Hypothesis HParenExpr : forall x, P x -> P (ParenExpr x).
Hypothesis HSelectorExpr : forall x sel, P x -> P (SelectorExpr x sel).
Hypothesis HCallExpr : forall fn args, P fn -> Forall P args -> P (CallExpr fn args).
Hypothesis HFuncLit : forall body, Q body -> P (FuncLit body).
Hypothesis HExprStmt : forall x, P x -> Q (ExprStmt x).
Hypothesis HAssignStmt :
  forall lhs tok rhs, Forall P lhs -> Forall P rhs -> Q (AssignStmt lhs tok rhs).
Hypothesis HReturnStmt : forall results, Forall P results -> Q (ReturnStmt results).
Hypothesis HBlockStmt : forall stmts, Forall Q stmts -> Q (BlockStmt stmts).
Hypothesis HIfStmt :
  forall pos init cond body els,
    (forall i, init = Some i -> Q i) -> P cond -> Q body ->
    (forall e, els = Some e -> Q e) -> Q (IfStmt pos init cond body els).
Hypothesis HForStmt :
  forall init cond post body,
    (forall i, init = Some i -> Q i) -> (forall c, cond = Some c -> P c) ->
    (forall p, post = Some p -> Q p) -> Q body -> Q (ForStmt init cond post body).

Fixpoint Expr_tree_ind (e : Expr) : P e :=
  match e with
  | Ident name => HIdent name
  | BasicLit value => HBasicLit value
  | BinaryExpr x op y => HBinaryExpr x op y (Expr_tree_ind x) (Expr_tree_ind y)
  | UnaryExpr op x => HUnaryExpr op x (Expr_tree_ind x)
  | ParenExpr x => HParenExpr x (Expr_tree_ind x)
  | SelectorExpr x sel => HSelectorExpr x sel (Expr_tree_ind x)
  | CallExpr fn args =>
      HCallExpr fn args (Expr_tree_ind fn)
        ((fix all (l : list Expr) : Forall P l :=
            match l with
            | [] => @List.Forall_nil _ P
            | a :: l' => @List.Forall_cons _ P a l' (Expr_tree_ind a) (all l')
            end) args)
  | FuncLit body => HFuncLit body (Stmt_tree_ind body)
  end
with Stmt_tree_ind (s : Stmt) : Q s :=
  let allE :=
    fix all (l : list Expr) : Forall P l :=
      match l with
      | [] => @List.Forall_nil _ P
      | a :: l' => @List.Forall_cons _ P a l' (Expr_tree_ind a) (all l')
      end in
  let optS (o : option Stmt) : forall i, o = Some i -> Q i :=
    match o with
    | Some i => fun j (E : Some i = Some j) =>
        match E in _ = r return match r with Some k => Q k | None => True end with
        | eq_refl => Stmt_tree_ind i
        end
    | None => fun j (E : None = Some j) =>
        match E in _ = r return match r with Some k => Q k | None => True end with
        | eq_refl => I
        end
    end in
  let optE (o : option Expr) : forall i, o = Some i -> P i :=
    match o with
    | Some i => fun j (E : Some i = Some j) =>
        match E in _ = r return match r with Some k => P k | None => True end with
        | eq_refl => Expr_tree_ind i
        end
    | None => fun j (E : None = Some j) =>
        match E in _ = r return match r with Some k => P k | None => True end with
        | eq_refl => I
        end
    end in
  match s with
  | ExprStmt x => HExprStmt x (Expr_tree_ind x)
  | AssignStmt lhs tok rhs => HAssignStmt lhs tok rhs (allE lhs) (allE rhs)
  | ReturnStmt results => HReturnStmt results (allE results)
  | BlockStmt stmts =>
      HBlockStmt stmts
        ((fix all (l : list Stmt) : Forall Q l :=
            match l with
            | [] => @List.Forall_nil _ Q
            | a :: l' => @List.Forall_cons _ Q a l' (Stmt_tree_ind a) (all l')
            end) stmts)
  | IfStmt pos init cond body els =>
      HIfStmt pos init cond body els (optS init) (Expr_tree_ind cond)
        (Stmt_tree_ind body) (optS els)
  | ForStmt init cond post body =>
      HForStmt init cond post body (optS init) (optE cond) (optS post)
        (Stmt_tree_ind body)
  end.
End AstInduction.

(* ===================================================================== *)
(** * The error-demotion pattern, as the specification words it *)
(* ===================================================================== *)

Section ErrordemoteVocabulary.
Import token ast errordemote.

(** A closure that looks for a node satisfying [p]: on such a node it
    sets its flag and prunes, and elsewhere it descends. *)
Definition finder (p : Node -> bool) (n : option Node) (found : bool) : bool * bool :=
  match n with
  | Some n => if p n then (false, true) else (true, found)
  | None => (true, found)
  end.

(** The fixed set of log-like selector names. *)
Definition logNames : list string :=
  [ "Info"; "Debug"; "Warn"; "Warning"; "Trace"; "V" ].

(** A call whose selector name is in the log-like set. *)
Inductive LogCall : Node -> Prop :=
| LogCall_intro (x : Expr) (sel : string) (args : list Expr) :
    In sel logNames -> LogCall (NExpr (CallExpr (SelectorExpr x sel) args)).

(** A return statement that returns an identifier containing "err". *)
Inductive ErrorReturn : Node -> Prop :=
| ErrorReturn_intro (results : list Expr) (name : string) :
    In (Ident name) results -> Substring "err" name ->
    ErrorReturn (NStmt (ReturnStmt results)).

(** An initializer that is a short-form declaration of at least two
    names, the last of which contains "err" or is the discard name. *)
Inductive ShortDecl : option Stmt -> Prop :=
| ShortDecl_intro (lhs rhs : list Expr) (name : string) :
    (2 <= length lhs)%nat -> last lhs = Some (Ident name) ->
    Substring "err" name \/ name = "_" ->
    ShortDecl (Some (AssignStmt lhs DEFINE rhs)).

(** An equality or inequality test between the literal nil and an
    identifier containing "err", in either operand order. *)
Inductive NilTest : Expr -> Prop :=
| NilTest_left (op : Token) (name : string) :
    op = EQL \/ op = NEQ -> Substring "err" name ->
    NilTest (BinaryExpr (Ident name) op (Ident "nil"))
| NilTest_right (op : Token) (name : string) :
    op = EQL \/ op = NEQ -> Substring "err" name ->
    NilTest (BinaryExpr (Ident "nil") op (Ident name)).

(** The five conditions on an if-statement with initializer [init],
    condition [cond] and else branch [els]. *)
Definition DemotionPattern (init : option Stmt) (cond : Expr) (els : option Stmt) : Prop :=
  ShortDecl init /\ NilTest cond /\
  exists e : Stmt,
    els = Some e /\
    (exists n, In n (subStmt e) /\ LogCall n) /\
    ~ (exists n, In n (subStmt e) /\ ErrorReturn n).

Definition isLogCall (n : Node) : bool :=
  match n with
  | NExpr (CallExpr (SelectorExpr _ sel) _) => default false (logMethods !! sel)
  | _ => false
  end.

Definition isErrIdent (e : Expr) : bool :=
  match e with
  | Ident name => GoStrings.Contains name "err"
  | _ => false
  end.

Definition isErrorReturn (n : Node) : bool :=
  match n with
  | NStmt (ReturnStmt results) => existsb isErrIdent results
  | _ => false
  end.
End ErrordemoteVocabulary.

(* ===================================================================== *)
(** * The suppression scan, as the specification words it *)
(* ===================================================================== *)

Section SuppressionVocabulary.
Import token ast errordemote.

(** A direct suppression directive: a comment whose text has
    "nolint:errordemote", or a bare directive, one with "nolint" and
    no colon-qualified name (no "nolint:"). *)
Definition Directive (text : string) : Prop :=
  Substring "nolint:errordemote" text \/
  (Substring "nolint" text /\ ~ Substring "nolint:" text).

(** A justification comment: its lower-cased text has one of the
    keywords. *)
Definition Justification `{tables : UnicodeTables} (text : string) : Prop :=
  exists keyword, In keyword keywords /\ Substring keyword (GoStrings.ToLower text).

(** The comments that the scan goes through. *)
Definition scannedComments (file0 : ast.File) : list Comment :=
  flat_map List (Comments file0).

(** The offsets at which the lines of a source text start. *)
Fixpoint lineStartsFrom (offset : Z) (src : string) : list Z :=
  match src with
  | EmptyString => []
  | String c EmptyString => []
  | String c src' =>
      if Ascii.eqb c (ascii_of_N 10)
      then (offset + 1) :: lineStartsFrom (offset + 1) src'
      else lineStartsFrom (offset + 1) src'
  end.

(** The [token.File] that the parser builds for a source text. *)
Definition tokenFile (name : string) (base : Z) (src : string) : token.File :=
  token.mkFile name base (GoStrings.len src) (0 :: lineStartsFrom 0 src).

(** The base that [FileSet.AddFile] gives to the file after [f]. *)
Definition nextBase (f : token.File) : Z := token.base f + token.size f + 1.

Definition tab : string := String (ascii_of_N 9) EmptyString.
Definition nl : string := String (ascii_of_N 10) EmptyString.

(** The body [if v, err := g(); err == nil { use(v) } else {
    log.Info(msg, err) }] with its [if] at [pos]. *)
Definition demotingIf (pos : token.Pos) : Stmt :=
  IfStmt pos
    (Some (AssignStmt [Ident "v"; Ident "err"] DEFINE [CallExpr (Ident "g") []]))
    (BinaryExpr (Ident "err") EQL (Ident "nil"))
    (BlockStmt [ExprStmt (CallExpr (Ident "use") [Ident "v"])])
    (Some (BlockStmt
             [ExprStmt (CallExpr (SelectorExpr (Ident "log") "Info")
                          [Ident "msg"; Ident "err"])])).

(** A package of two files. [a.go] has no comment; [b.go] has the
    demoting if-statement on line 4 and the directive
    [//nolint:errordemote] on line 3. *)
Definition srcA : string := "package p" +:+ nl.
Definition srcB : string :=
  "package p" +:+ nl +:+
  "func f() {" +:+ nl +:+
  tab +:+ "//nolint:errordemote" +:+ nl +:+
  tab +:+ "if v, err := g(); err == nil {" +:+ nl +:+
  tab +:+ tab +:+ "use(v)" +:+ nl +:+
  tab +:+ "} else {" +:+ nl +:+
  tab +:+ tab +:+ "log.Info(msg, err)" +:+ nl +:+
  tab +:+ "}" +:+ nl +:+
  "}" +:+ nl.

Definition fileA : token.File := tokenFile "a.go" 1 srcA.
Definition fileB : token.File := tokenFile "b.go" (nextBase fileA) srcB.

(** The positions in [b.go] of the directive (offset 22, line 3) and of
    the [if] (offset 44, line 4). *)
Definition directivePos : token.Pos := token.base fileB + 22.
Definition ifPos : token.Pos := token.base fileB + 44.

Definition astA : ast.File := ast.mkFile [] [].
Definition astB : ast.File :=
  ast.mkFile
    [BlockStmt [demotingIf ifPos]]
    [mkCommentGroup [mkComment directivePos "//nolint:errordemote"]].

Definition twoFilePass : Pass := mkPass [fileA; fileB] [astA; astB].

(** The same file [b.go] alone in its package. *)
Definition fileB1 : token.File := tokenFile "b.go" 1 srcB.
Definition oneFilePass : Pass :=
  mkPass [fileB1]
    [ast.mkFile
       [BlockStmt [demotingIf (token.base fileB1 + 44)]]
       [mkCommentGroup [mkComment (token.base fileB1 + 22) "//nolint:errordemote"]]].

(** A package of two files where the comment is in the other file:
    [doc.go] opens with a comment that has the word "optional", and
    [c.go] has the demoting if-statement on line 4 and no comment. *)
Definition srcDoc : string :=
  "// Package p holds optional helpers." +:+ nl +:+
  "package p" +:+ nl.
Definition srcC : string :=
  "package p" +:+ nl +:+
  nl +:+
  "func f() {" +:+ nl +:+
  tab +:+ "if v, err := g(); err == nil {" +:+ nl +:+
  tab +:+ tab +:+ "use(v)" +:+ nl +:+
  tab +:+ "} else {" +:+ nl +:+
  tab +:+ tab +:+ "log.Info(msg, err)" +:+ nl +:+
  tab +:+ "}" +:+ nl +:+
  "}" +:+ nl.

Definition fileDoc : token.File := tokenFile "doc.go" 1 srcDoc.
Definition fileC : token.File := tokenFile "c.go" (nextBase fileDoc) srcC.

Definition foreignCommentPass : Pass :=
  mkPass [fileDoc; fileC]
    [ast.mkFile [] [mkCommentGroup [mkComment (token.base fileDoc) "// Package p holds optional helpers."]];
     ast.mkFile [BlockStmt [demotingIf (token.base fileC + 23)]] []].

(** What the parser hands to the pass: each syntax tree of [pass.Files]
    with its token file. The comments of a tree lie in its token file,
    and two trees have different token files. *)
Definition Parsed (pass : Pass) (toks : list token.File) : Prop :=
  Forall2
    (fun (tree : ast.File) (tok : token.File) =>
       forall c, In c (scannedComments tree) -> FileOf (Fset pass) (Slash c) = Some tok)
    (Files pass) toks /\
  NoDup toks.

(** The position [pos] is in the file [file], which is the first file
    of the pass. *)
Definition InFirstFile (pass : Pass) (pos : token.Pos) (file : token.File) : Prop :=
  exists toks, Parsed pass toks /\ head toks = Some file /\
               FileOf (Fset pass) pos = Some file.

(** [c] is a comment of the file [file]: a comment of a tree of the
    pass whose position is in [file]. *)
Definition CommentOf (pass : Pass) (file : token.File) (c : Comment) : Prop :=
  In c (flat_map scannedComments (Files pass)) /\
  FileOf (Fset pass) (Slash c) = Some file.

(** The package of [b.go] and [a.go], in that order: the candidate is
    in the first file. *)
Definition fileA2 : token.File := tokenFile "a.go" (nextBase fileB1) srcA.
Definition firstFilePass : Pass :=
  mkPass [fileB1; fileA2]
    [ast.mkFile
       [BlockStmt [demotingIf (token.base fileB1 + 44)]]
       [mkCommentGroup [mkComment (token.base fileB1 + 22) "//nolint:errordemote"]];
     astA].

(** A file alone in its package, where the directive on line 3 names
    two rules, the second of which is this one. The [if] is at offset
    50, on line 4. *)
Definition srcList : string :=
  "package p" +:+ nl +:+
  "func f() {" +:+ nl +:+
  tab +:+ "//nolint:gosec,errordemote" +:+ nl +:+
  tab +:+ "if v, err := g(); err == nil {" +:+ nl +:+
  tab +:+ tab +:+ "use(v)" +:+ nl +:+
  tab +:+ "} else {" +:+ nl +:+
  tab +:+ tab +:+ "log.Info(msg, err)" +:+ nl +:+
  tab +:+ "}" +:+ nl +:+
  "}" +:+ nl.

Definition fileList : token.File := tokenFile "l.go" 1 srcList.
Definition listDirective : Comment :=
  mkComment (token.base fileList + 22) "//nolint:gosec,errordemote".
Definition listIfPos : token.Pos := token.base fileList + 50.

Definition listDirectivePass : Pass :=
  mkPass [fileList]
    [ast.mkFile [BlockStmt [demotingIf listIfPos]] [mkCommentGroup [listDirective]]].
End SuppressionVocabulary.

(* ===================================================================== *)
(** * Rule selection, as the specification words it *)
(* ===================================================================== *)

(** [id] is one of the identifiers of the comma-separated [list]: a piece
    between commas that, trimmed, is [id] and is not empty. *)
Definition Listed (list : string) (id : string) : Prop :=
  id <> "" /\
  exists part, In part (GoStrings.Split list ",") /\ GoStrings.TrimSpace part = id.

(** [id] is the identifier of a rule of the registry. *)
Definition Registered `{tables : UnicodeTables} (id : string) : Prop :=
  exists rule, In rule registry.GetAllRules /\ rules.Rule.ID rule = id.

(* ===================================================================== *)
(** * The rules over bundles, as the specification words them *)
(* ===================================================================== *)

Section RulesVocabulary.
Import rules.

(** A value that normalizes to zero: the integer 0, the float 0, and the
    strings that are "0" or "0%" once trimmed. *)
Inductive ZeroValue : Value -> Prop :=
| ZeroValue_int : ZeroValue (VInt 0)
| ZeroValue_int64 : ZeroValue (VInt64 0)
| ZeroValue_float (sign : bool) : ZeroValue (VFloat64 (S754_zero sign))
| ZeroValue_string (s : string) :
    GoStrings.TrimSpace s = "0" \/ GoStrings.TrimSpace s = "0%" ->
    ZeroValue (VString s).

(** A generic resource of the disruption-budget kind whose spec has a
    "maxUnavailable" field with a zero value. *)
Definition ZeroBudget (resource : Resource.t) : Prop :=
  Resource.Kind resource = "PodDisruptionBudget" /\
  exists v, Resource.Spec resource !! "maxUnavailable" = Some v /\ ZeroValue v.

Definition isZeroBudget (resource : Resource.t) : bool :=
  String.eqb (Resource.Kind resource) "PodDisruptionBudget" &&
  match Resource.Spec resource !! "maxUnavailable" with
  | Some v => PDBMaxUnavailableRule.isZeroValue v
  | None => false
  end.

(** No pointer of the two slices of the bundle is nil. *)
Definition NoNilEntry (bundle : Bundle) : Prop :=
  Forall is_Some (Bundle.CRDs bundle) /\ Forall is_Some (Bundle.OtherResources bundle).

(** The rules that read the primary resource. *)
Definition csvRules `{tables : UnicodeTables} : list (Bundle -> Res (list Violation)) :=
  [ MinKubeVersionRule.Validate;
    WebhookOperatorResourcesRule.Validate;
    ConversionWebhookAllNamespacesRule.Validate;
    ConversionPreserveUnknownFieldsRule.Validate ].

(** The bundle at [path] with nothing in it. *)
Definition emptyBundle (path manifests metadata : string) : Bundle :=
  Bundle.mk path manifests metadata None [] [] None.

(** A disruption budget whose "maxUnavailable" is [v]. *)
Definition budget (v : Value) : Resource.t :=
  Resource.mk "manifests/pdb.yaml" "policy/v1" "PodDisruptionBudget"
    (Metadata.mk "pdb" "" ∅ ∅) {[ "maxUnavailable" := v ]}.

Definition bundleOf (resources : list Resource.t) : Bundle :=
  Bundle.mk "/b" "/b/manifests" "/b/metadata" None [] (map Some resources) None.
End RulesVocabulary.

(* ===================================================================== *)
(** * Loading, as the specification words it *)
(* ===================================================================== *)

Section LoaderVocabulary.
Import rules loader.
Context `{os : OS} `{yaml : YAML}.

(** The resolved root of the bundle and its two sub-directories. *)
Definition rootOf (bundlePath : string) : string := fst (Abs bundlePath).
Definition manifestsOf (bundlePath : string) : string := Join (rootOf bundlePath) "manifests".
Definition annotationsOf (bundlePath : string) : string :=
  Join (Join (rootOf bundlePath) "metadata") "annotations.yaml".

(** The root path does not exist. *)
Definition RootMissing (bundlePath : string) : Prop :=
  isNotExist (Stat (rootOf bundlePath)) = true.

(** The manifests sub-directory is missing. *)
Definition ManifestsMissing (bundlePath : string) : Prop :=
  isNotExist (Stat (manifestsOf bundlePath)) = true.

(** The annotations file is there and does not parse. *)
Definition AnnotationsUnparsable (bundlePath : string) : Prop :=
  isNotExist (Stat (annotationsOf bundlePath)) = false /\
  snd (UnmarshalAnnotations (fst (ReadFile (annotationsOf bundlePath)))) <> None.

(** The text [data] of a manifest does not parse: either its header, or
    the document at the type its kind is routed to. *)
Definition Unparsable (data : string) : Prop :=
  snd (UnmarshalBasic data) <> None \/
  (let kind := basicKind (fst (UnmarshalBasic data)) in
   if String.eqb kind "ClusterServiceVersion" then snd (UnmarshalCSV data) <> None
   else if String.eqb kind "CustomResourceDefinition" then snd (UnmarshalCRD data) <> None
   else snd (UnmarshalResource data) <> None).

(** A manifest of the manifests sub-directory does not parse. *)
Definition ManifestUnparsable (bundlePath : string) : Prop :=
  exists file,
    In file (fst (ReadDir (manifestsOf bundlePath))) /\
    isManifest file = true /\
    Unparsable (fst (ReadFile (Join (manifestsOf bundlePath) (Name file)))).

(** The kind that the header of a manifest declares. *)
Definition kindOf (bundlePath : string) (file : DirEntry) : string :=
  basicKind (fst (UnmarshalBasic (fst (ReadFile (Join (manifestsOf bundlePath) (Name file)))))).

Definition isCSVManifest (bundlePath : string) (file : DirEntry) : bool :=
  isManifest file && String.eqb (kindOf bundlePath file) "ClusterServiceVersion".

Definition isCRDManifest (bundlePath : string) (file : DirEntry) : bool :=
  isManifest file && negb (String.eqb (kindOf bundlePath file) "ClusterServiceVersion") &&
  String.eqb (kindOf bundlePath file) "CustomResourceDefinition".

Definition isOtherManifest (bundlePath : string) (file : DirEntry) : bool :=
  isManifest file && negb (String.eqb (kindOf bundlePath file) "ClusterServiceVersion") &&
  negb (String.eqb (kindOf bundlePath file) "CustomResourceDefinition").

(** What a rule may rely on in a bundle that was loaded from
    [bundlePath]: its paths are set, no entry of its slices is nil, every
    manifest of the manifests sub-directory was read and parsed, and each
    one is in the bundle: one auxiliary resource for each manifest of
    that kind, one generic resource for each manifest of another kind,
    and a primary resource exactly when a manifest declares that kind. *)
Definition FullyLoaded (bundlePath : string) (bundle : Bundle) : Prop :=
  Bundle.Path bundle = rootOf bundlePath /\
  Bundle.ManifestsPath bundle = manifestsOf bundlePath /\
  Bundle.MetadataPath bundle = Join (rootOf bundlePath) "metadata" /\
  NoNilEntry bundle /\
  (forall file,
      In file (fst (ReadDir (manifestsOf bundlePath))) -> isManifest file = true ->
      snd (ReadFile (Join (manifestsOf bundlePath) (Name file))) = None /\
      ~ Unparsable (fst (ReadFile (Join (manifestsOf bundlePath) (Name file))))) /\
  length (Bundle.CRDs bundle) =
    length (List.filter (isCRDManifest bundlePath) (fst (ReadDir (manifestsOf bundlePath)))) /\
  length (Bundle.OtherResources bundle) =
    length (List.filter (isOtherManifest bundlePath) (fst (ReadDir (manifestsOf bundlePath)))) /\
  (is_Some (Bundle.CSV bundle) <->
   exists file, In file (fst (ReadDir (manifestsOf bundlePath))) /\
                isCSVManifest bundlePath file = true).
(** What one manifest does to the bundle, by the kind of its header. *)
Definition Routed (kind : string) (before after : Bundle) : Prop :=
  Bundle.Path after = Bundle.Path before /\
  Bundle.ManifestsPath after = Bundle.ManifestsPath before /\
  Bundle.MetadataPath after = Bundle.MetadataPath before /\
  Bundle.Annotations after = Bundle.Annotations before /\
  if String.eqb kind "ClusterServiceVersion" then
    is_Some (Bundle.CSV after) /\
    Bundle.CRDs after = Bundle.CRDs before /\
    Bundle.OtherResources after = Bundle.OtherResources before
  else if String.eqb kind "CustomResourceDefinition" then
    Bundle.CSV after = Bundle.CSV before /\
    (exists crd, Bundle.CRDs after = Bundle.CRDs before ++ [Some crd]) /\
    Bundle.OtherResources after = Bundle.OtherResources before
  else
    Bundle.CSV after = Bundle.CSV before /\
    Bundle.CRDs after = Bundle.CRDs before /\
    (exists resource,
        Bundle.OtherResources after = Bundle.OtherResources before ++ [Some resource]).
End LoaderVocabulary.

(** A bundle that the loader accepted, on some file system. *)
Definition LoaderAccepted (bundle : rules.Bundle) : Prop :=
  exists (os : loader.OS) (yaml : loader.YAML) (bundlePath : string),
    loader.LoadBundle bundlePath = (Some bundle, None).

(** A file system with three bundle roots: [/empty] has an empty
    manifests directory, [/nomanifests] has none, and [/broken] has a
    manifests directory with one file that does not parse. *)
Definition noSuchFile : loader.error := loader.mkError true "no such file or directory".

Definition testOS : loader.OS :=
  {| loader.Abs := fun p => (p, None);
     loader.Join := fun a b => a +:+ "/" +:+ b;
     loader.Stat := fun p =>
       if existsb (String.eqb p)
            [ "/empty"; "/empty/manifests"; "/nomanifests";
              "/broken"; "/broken/manifests"; "/broken/manifests/bad.yaml" ]
       then None else Some noSuchFile;
     loader.ReadFile := fun p =>
       if String.eqb p "/broken/manifests/bad.yaml" then ("kind: [", None)
       else ("", Some noSuchFile);
     loader.ReadDir := fun p =>
       if String.eqb p "/empty/manifests" then ([], None)
       else if String.eqb p "/broken/manifests"
       then ([loader.mkDirEntry "bad.yaml" false], None)
       else ([], Some noSuchFile) |}.

(** A decoder that rejects every text. *)
Definition syntaxError : loader.error := loader.mkError false "yaml: did not find expected node content".

Definition emptyMetadata : rules.Metadata.t := rules.Metadata.mk "" "" ∅ ∅.

Definition emptyCSVSpec : rules.CSVSpec.t :=
  rules.CSVSpec.mk "" [] [] (rules.CSVCustomResourceDefinitions.mk [] [])
    (rules.CSVInstall.mk "" (rules.InstallSpec.mk [])).

Definition emptyCRDSpec : rules.CRDSpec.t :=
  rules.CRDSpec.mk "" (rules.CRDNames.mk "" "" "") [] None None.

Definition rejectingYAML : loader.YAML :=
  {| loader.UnmarshalAnnotations := fun _ => (∅, Some syntaxError);
     loader.UnmarshalBasic := fun _ => (loader.mkRawBasic "" "", Some syntaxError);
     loader.UnmarshalCSV := fun _ =>
       (loader.mkRawCSV "" "" emptyMetadata emptyCSVSpec, Some syntaxError);
     loader.UnmarshalCRD := fun _ =>
       (loader.mkRawCRD "" "" emptyMetadata emptyCRDSpec, Some syntaxError);
     loader.UnmarshalResource := fun _ =>
       (loader.mkRawResource "" "" emptyMetadata ∅, Some syntaxError) |}.

(* ===================================================================== *)
(** * Sorting and reporting, as the specification words them *)
(* ===================================================================== *)

Section SortVocabulary.
Context {A : Type}.

(** The closure [func(i, j int) bool { return lt(x[i], x[j]) }]. *)
Definition byIndex (lt : A -> A -> bool) (x : list A) (i j : nat) : bool :=
  match x !! i, x !! j with
  | Some a, Some b => lt a b
  | _, _ => false
  end.

(** [x] is sorted by [lt]: no element is less than an earlier one. *)
Definition SortedBy (lt : A -> A -> bool) (x : list A) : Prop :=
  StronglySorted (fun a b => lt b a = false) x.

(** [lt] is a strict weak ordering of the elements that satisfy [P]: it
    is asymmetric and its complement is transitive. *)
Definition StrictWeak (P : A -> Prop) (lt : A -> A -> bool) : Prop :=
  (forall a b, P a -> P b -> lt a b = true -> lt b a = false) /\
  (forall a b c, P a -> P b -> P c -> lt a b = false -> lt b c = false -> lt a c = false).

(** Insertion of [v] into a sorted prefix that is held in reverse. *)
Fixpoint insertRev (lt : A -> A -> bool) (v : A) (rpre : list A) : list A :=
  match rpre with
  | [] => [v]
  | y :: r => if lt v y then y :: insertRev lt v r else v :: y :: r
  end.

(** What insertion sort makes of [x]. *)
Definition insertionSorted (lt : A -> A -> bool) (x : list A) : list A :=
  rev (fold_left (fun acc v => insertRev lt v acc) x []).
End SortVocabulary.

(** The contract of [sort.Slice] on the part that is a parameter: a
    slice of more than [maxInsertion] elements is sorted, whenever the
    comparison is a strict weak ordering of its elements. *)
Definition SortsLargeSlices `{alg : sort.Algorithm} : Prop :=
  forall (A : Type) (lt : A -> A -> bool) (P : A -> Prop) (x : list A),
    (sort.maxInsertion < length x)%nat ->
    Forall P x -> StrictWeak P lt ->
    SortedBy lt
      (sort.exec (byIndex lt)
         (sort.pdqsortLarge 0 (length x) (sort.bitsLen (length x))) x).

Section ReportVocabulary.
Import rules reporter.

(** One of the three severities of the rules. *)
Definition KnownSeverity (v : Violation) : Prop :=
  Violation.Severity v = SeverityError \/
  Violation.Severity v = SeverityWarning \/
  Violation.Severity v = SeverityInfo.

(** The rank of a severity: Error over Warning over Info. *)
Definition rank (v : Violation) : Z := severityWeight (Violation.Severity v).

(** [a] may stand before [b] in the report: by severity descending, then
    by file path ascending, then by rule ID ascending. *)
Definition Precedes (a b : Violation) : Prop :=
  rank b < rank a \/
  (rank a = rank b /\
   (String.ltb (Violation.File a) (Violation.File b) = true \/
    (Violation.File a = Violation.File b /\
     (String.ltb (Violation.RuleID a) (Violation.RuleID b) = true \/
      Violation.RuleID a = Violation.RuleID b)))).

(** The strict order that the comparison of [Report] decides. *)
Definition Less (a b : Violation) : Prop :=
  rank b < rank a \/
  (rank a = rank b /\
   (String.ltb (Violation.File a) (Violation.File b) = true \/
    (Violation.File a = Violation.File b /\
     String.ltb (Violation.RuleID a) (Violation.RuleID b) = true))).

(** No two different violations of [vs] have the same severity, file and
    rule ID. *)
Definition NoTies (vs : list Violation) : Prop :=
  forall a b, In a vs -> In b vs ->
    Violation.Severity a = Violation.Severity b ->
    Violation.File a = Violation.File b ->
    Violation.RuleID a = Violation.RuleID b -> a = b.

(** Equality of violations is decidable, field by field. *)
Definition Violation_eq_dec (a b : Violation) : {a = b} + {a <> b}.
Proof.
  decide equality; first [apply string_dec | apply Z.eq_dec | apply Bool.bool_dec].
Defined.

(** The list of violations as [Report] leaves it. *)
Definition reported `{alg : sort.Algorithm} {W : Type} `{wr : Writer W}
    (r : Reporter) (violations : list Violation) : list Violation :=
  snd (fst (Report r violations)).

(** Two violations of the rule ODH-OLM-002 on one webhook of one CSV:
    same severity, file and rule ID, different messages. *)
Definition wildcardViolation : Violation :=
  WebhookOperatorResourcesRule.violation
    "Webhook 'hook' intercepts all API groups (apiGroups: ['*']). OLM will fail the CSV."
    "manifests/csv.yaml"
    "Webhooks cannot intercept all API groups. This would prevent OLM from managing other operators.".

Definition operatorGroupViolation : Violation :=
  WebhookOperatorResourcesRule.violation
    "Webhook 'hook' intercepts the 'operators.coreos.com' API group. OLM will fail the CSV."
    "manifests/csv.yaml"
    "Webhooks cannot intercept the operators.coreos.com group. This would break OLM's ability to manage operators.".

Definition warningViolation : Violation :=
  Violation.mk "ODH-OLM-001" "missing-minkubeversion" CategoryOLMBestPractice SeverityWarning
    "ClusterServiceVersion is missing spec.minKubeVersion field" "manifests/csv.yaml" 0 "" false.
End ReportVocabulary.

(* ===================================================================== *)
(** * The run of the analyzer, in words *)
(* ===================================================================== *)

Section RunVocabulary.
Import token ast errordemote.
Context `{tables : UnicodeTables}.

(** The candidate at [pos] is suppressed: one of the two scans finds a
    comment for it. *)
Definition suppressed (pass : Pass) (pos : token.Pos) : bool :=
  match hasNolintComment pass pos with
  | Ok true => true
  | _ =>
      match hasResilienceDoc pass pos with
      | Ok true => true
      | _ => false
      end
  end.

(** The positions of the candidates of the pass, in the order the
    inspector visits them. *)
Definition candidates (pass : Pass) : list token.Pos :=
  flat_map candidatesAt (Preorder (Files pass)).

(** The diagnostic that [run] reports at [pos]. *)
Definition diagnosticAt (pos : token.Pos) : Diagnostic := mkDiagnostic pos message.
End RunVocabulary.

(* ===================================================================== *)
(** * The other rules, in words *)
(* ===================================================================== *)

Section ScanVocabulary.
Import rules.

(** A value that normalizes to one hundred: the integer 100, the float
    100.0, and the strings that are "100%" or "100" once trimmed. *)
Inductive HundredValue : Value -> Prop :=
| HundredValue_int : HundredValue (VInt 100)
| HundredValue_int64 : HundredValue (VInt64 100)
| HundredValue_float : HundredValue (VFloat64 PDBMinAvailableRule.hundred)
| HundredValue_string (s : string) :
    GoStrings.TrimSpace s = "100%" \/ GoStrings.TrimSpace s = "100" ->
    HundredValue (VString s).

(** A disruption budget whose "minAvailable" is one hundred. *)
Definition FullBudget (resource : Resource.t) : Prop :=
  Resource.Kind resource = "PodDisruptionBudget" /\
  exists v, Resource.Spec resource !! "minAvailable" = Some v /\ HundredValue v.

(** A true value: the boolean true, and the strings "true", "True" and
    "TRUE", compared as they are. *)
Inductive TrueValue : Value -> Prop :=
| TrueValue_bool : TrueValue (VBool true)
| TrueValue_string (s : string) :
    s = "true" \/ s = "True" \/ s = "TRUE" -> TrueValue (VString s).

(** A priority class that is the global default. *)
Definition GlobalDefault (resource : Resource.t) : Prop :=
  Resource.Kind resource = "PriorityClass" /\
  exists v, Resource.Spec resource !! "globalDefault" = Some v /\ TrueValue v.

(** The resource is of kind [kind] and the field [field] of its spec
    passes [test]. *)
Definition flagged (kind field : string) (test : Value -> bool) (resource : Resource.t) : bool :=
  String.eqb (Resource.Kind resource) kind &&
  match Resource.Spec resource !! field with
  | Some v => test v
  | None => false
  end.

(** The entries of a slice of pointers that are not nil, and whether
    all of them are. *)
Definition present {A : Type} (l : list (option A)) : list A := omap id l.

Definition allPresent {A : Type} (l : list (option A)) : bool :=
  forallb (fun p : option A => bool_decide (is_Some p)) l.
End ScanVocabulary.

Section CSVRulesVocabulary.
Import rules.
Context `{tables : UnicodeTables}.

(** A webhook rule that intercepts what OLM manages: all groups, the
    operators group, or the webhook configurations. *)
Definition Intercepts (rule : WebhookRule.t) : Prop :=
  In "*" (WebhookRule.APIGroups rule) \/
  In "operators.coreos.com" (WebhookRule.APIGroups rule) \/
  exists r, In r (WebhookRule.Resources rule) /\
            (GoStrings.ToLower r = "validatingwebhookconfigurations" \/
             GoStrings.ToLower r = "mutatingwebhookconfigurations").

(** The violations that ODH-OLM-002 finds in one rule of [webhook]. *)
Definition intercepted (csv : ClusterServiceVersion.t) (webhook : WebhookDefinition.t)
    (rule : WebhookRule.t) : list Violation :=
  (if WebhookOperatorResourcesRule.containsWildcard (WebhookRule.APIGroups rule)
   then [ WebhookOperatorResourcesRule.violation
            ("Webhook '" +:+ WebhookDefinition.GenerateName webhook +:+
             "' intercepts all API groups (apiGroups: ['*']). OLM will fail the CSV.")
            (ClusterServiceVersion.FilePath csv)
            "Webhooks cannot intercept all API groups. This would prevent OLM from managing other operators." ]
   else []) ++
  (if WebhookOperatorResourcesRule.containsOperatorGroup (WebhookRule.APIGroups rule)
   then [ WebhookOperatorResourcesRule.violation
            ("Webhook '" +:+ WebhookDefinition.GenerateName webhook +:+
             "' intercepts the 'operators.coreos.com' API group. OLM will fail the CSV.")
            (ClusterServiceVersion.FilePath csv)
            "Webhooks cannot intercept the operators.coreos.com group. This would break OLM's ability to manage operators." ]
   else []) ++
  (if WebhookOperatorResourcesRule.containsWebhookConfigResources (WebhookRule.Resources rule)
   then [ WebhookOperatorResourcesRule.violation
            ("Webhook '" +:+ WebhookDefinition.GenerateName webhook +:+
             "' intercepts ValidatingWebhookConfigurations or MutatingWebhookConfigurations resources. OLM will fail the CSV.")
            (ClusterServiceVersion.FilePath csv)
            "Webhooks cannot intercept webhook configuration resources. This would break OLM's ability to configure webhooks." ]
   else []).

(** The webhook is a conversion webhook. *)
Definition isConversion (webhook : WebhookDefinition.t) : bool :=
  String.eqb (WebhookDefinition.Type_ webhook) "ConversionWebhook".

(** The channel name starts, in lower case, with a recommended prefix. *)
Definition Recommended (channel : string) : Prop :=
  exists prefix rest,
    In prefix ChannelNamingRule.recommendedPrefixes /\
    GoStrings.ToLower channel = prefix +:+ rest.

Definition isRecommended (channel : string) : bool :=
  existsb (fun prefix => GoStrings.HasPrefix (GoStrings.ToLower channel) prefix)
    ChannelNamingRule.recommendedPrefixes.

(** The violation of ODH-OLM-007 for [channel]. *)
Definition channelViolation (annotations : BundleAnnotations.t) (channel : string) : Violation :=
  Violation.mk ChannelNamingRule.ID ChannelNamingRule.Name ChannelNamingRule.Category
    ChannelNamingRule.Severity
    ("Channel '" +:+ channel +:+ "' does not follow recommended naming conventions")
    (BundleAnnotations.FilePath annotations) 0
    ("Consider using a channel name starting with: " +:+
     GoStrings.Join ChannelNamingRule.recommendedPrefixes ", " +:+
     ". This helps users understand the support level and maturity.")
    ChannelNamingRule.Fixable.

(** The name under which a conversion webhook lists a CRD:
    [plural.group]. *)
Definition crdFullName (crd : CustomResourceDefinition.t) : string :=
  CRDNames.Plural (CRDSpec.Names (CustomResourceDefinition.Spec crd)) +:+ "." +:+
  CRDSpec.Group (CustomResourceDefinition.Spec crd).

(** A conversion webhook of the CSV lists [name]. *)
Definition Targeted (csv : ClusterServiceVersion.t) (name : string) : Prop :=
  exists webhook,
    In webhook (CSVSpec.WebhookDefinitions (ClusterServiceVersion.Spec csv)) /\
    WebhookDefinition.Type_ webhook = "ConversionWebhook" /\
    In name (WebhookDefinition.ConversionCRDs webhook).

Definition isTargeted (csv : ClusterServiceVersion.t) (name : string) : bool :=
  existsb
    (fun webhook =>
       isConversion webhook &&
       existsb (String.eqb name) (WebhookDefinition.ConversionCRDs webhook))
    (CSVSpec.WebhookDefinitions (ClusterServiceVersion.Spec csv)).

(** The CRD sets [spec.preserveUnknownFields] to true. *)
Definition preservesUnknownFields (crd : CustomResourceDefinition.t) : bool :=
  match CRDSpec.PreserveUnknownFields (CustomResourceDefinition.Spec crd) with
  | Some true => true
  | _ => false
  end.

(** The violation of ODH-OLM-010 for [crd]. *)
Definition preserveViolation (crd : CustomResourceDefinition.t) : Violation :=
  Violation.mk ConversionPreserveUnknownFieldsRule.ID ConversionPreserveUnknownFieldsRule.Name
    ConversionPreserveUnknownFieldsRule.Category ConversionPreserveUnknownFieldsRule.Severity
    ("CRD '" +:+ crdFullName crd +:+
     "' is targeted by conversion webhook but has preserveUnknownFields=true")
    (CustomResourceDefinition.FilePath crd) 0
    "CRDs used with conversion webhooks must have spec.preserveUnknownFields set to false or nil. Set it to false."
    ConversionPreserveUnknownFieldsRule.Fixable.

(** The violation carries the identity of [rule], and no line. *)
Definition Stamped (rule : Rule) (v : Violation) : Prop :=
  Violation.RuleID v = Rule.ID rule /\
  Violation.RuleName v = Rule.Name rule /\
  Violation.Category v = Rule.Category rule /\
  Violation.Severity v = Rule.Severity rule /\
  Violation.Fixable v = Rule.Fixable rule /\
  Violation.Line v = 0.
End CSVRulesVocabulary.

(* ===================================================================== *)
(** * The loaded bundle, in words *)
(* ===================================================================== *)

Section PathsVocabulary.
Import rules loader.
Context `{os : OS} `{yaml : YAML}.

(** The path of a manifest of the bundle at [bundlePath]. *)
Definition manifestPath (bundlePath : string) (file : DirEntry) : string :=
  Join (manifestsOf bundlePath) (Name file).

(** The file paths that the entries of the two slices record. *)
Definition crdPaths (bundle : Bundle) : list (option string) :=
  map (fmap CustomResourceDefinition.FilePath) (Bundle.CRDs bundle).

Definition resourcePaths (bundle : Bundle) : list (option string) :=
  map (fmap Resource.FilePath) (Bundle.OtherResources bundle).

(** The bundle from which [LoadBundle] starts. *)
Definition freshBundle (bundlePath : string) : Bundle :=
  Bundle.mk (rootOf bundlePath) (manifestsOf bundlePath)
    (Join (rootOf bundlePath) "metadata") None [] [] None.

(** The manifest at [filePath] can be read and parsed. *)
Definition Loads (filePath : string) : Prop :=
  snd (ReadFile filePath) = None /\ ~ Unparsable (fst (ReadFile filePath)).
End PathsVocabulary.

(* ===================================================================== *)
(** * The printed text, in words *)
(* ===================================================================== *)

Section ReportTextVocabulary.
Import rules reporter.

(** The number of violations of [vs] that have the severity
    [severity]. *)
Definition severityCount (severity : Severity) (vs : list Violation) : Z :=
  Z.of_nat (length (List.filter (fun v => String.eqb (Violation.Severity v) severity) vs)).

(** The header that [Report] prints for a list that is not empty. *)
Definition reportHeader (vs : list Violation) : string :=
  (newline +:+ "Found " +:+ pretty (Z.of_nat (length vs)) +:+ " issue(s):" +:+ newline) +:+
  (if 0 <? severityCount SeverityError vs
   then "  - " +:+ pretty (severityCount SeverityError vs) +:+ " error(s)" +:+ newline
   else "") +:+
  (if 0 <? severityCount SeverityWarning vs
   then "  - " +:+ pretty (severityCount SeverityWarning vs) +:+ " warning(s)" +:+ newline
   else "") +:+
  (if 0 <? severityCount SeverityInfo vs
   then "  - " +:+ pretty (severityCount SeverityInfo vs) +:+ " info" +:+ newline
   else "") +:+
  newline.

(** The text that [Report] prints for the violations, in their order:
    each one formatted and followed by an empty line. *)
Fixpoint reportBody (vs : list Violation) : string :=
  match vs with
  | [] => ""
  | v :: vs' => (formatViolation v +:+ newline) +:+ newline +:+ reportBody vs'
  end.

(** The line that [ReportSummary] prints. *)
Definition summaryLine (errors warnings : Z) : string :=
  if 0 <? errors
  then newline +:+ "❌ Validation failed: " +:+ pretty errors +:+
       " error(s), " +:+ pretty warnings +:+ " warning(s)" +:+ newline
  else if 0 <? warnings
  then newline +:+ "⚠️  Validation passed with " +:+ pretty warnings +:+
       " warning(s)" +:+ newline
  else (newline +:+ "✓ All checks passed!") +:+ newline.

(** The four categories that [printRules] prints, in its order. *)
Definition printedCategories : list Category :=
  [ CategoryOLMRequirement; CategoryOLMBestPractice; CategorySecurity; CategoryUpgrade ].

(** The rules of [allRules] that are in the category [cat]. *)
Definition inCategory (allRules : list Rule) (cat : Category) : list Rule :=
  List.filter (fun rule => String.eqb (Rule.Category rule) cat) allRules.

(** The four lines of one rule. *)
Definition ruleEntry (rule : Rule) : string :=
  ("  " +:+ Rule.ID rule +:+ ": " +:+ Rule.Name rule +:+ newline) +:+
  ("    Severity: " +:+ Rule.Severity rule +:+ newline) +:+
  ("    " +:+ Rule.Description rule +:+ newline) +:+
  newline.

Fixpoint ruleEntries (ruleList : list Rule) : string :=
  match ruleList with
  | [] => ""
  | rule :: ruleList' => ruleEntry rule +:+ ruleEntries ruleList'
  end.

(** The text of one category: nothing when it has no rule. *)
Definition categorySection (allRules : list Rule) (cat : Category) : string :=
  match inCategory allRules cat with
  | [] => ""
  | ruleList =>
      ("=== " +:+ cat +:+ " ===" +:+ newline +:+ newline) +:+ ruleEntries ruleList
  end.

Fixpoint categorySections (allRules : list Rule) (cats : list Category) : string :=
  match cats with
  | [] => ""
  | cat :: cats' => categorySection allRules cat +:+ categorySections allRules cats'
  end.
End ReportTextVocabulary.

(* ===================================================================== *)
(** * A sample bundle *)
(* ===================================================================== *)

(** The bundle at [/bundle]: a CSV with an admission webhook that
    intercepts all groups and a conversion webhook for
    [widgets.example.com], no AllNamespaces install mode and no
    minKubeVersion; the CRD of the widgets, which preserves unknown
    fields; a disruption budget with minAvailable 100%; and annotations
    with the channels "stable-v1" and "nightly". *)
Section SampleBundle.
Import rules loader.

Definition wildcardRule : WebhookRule.t :=
  WebhookRule.mk ["*"] ["v1"] ["CREATE"] ["pods"].

Definition admissionHook : WebhookDefinition.t :=
  WebhookDefinition.mk "ValidatingAdmissionWebhook" ["v1"] "operator" "Fail" "hook"
    [wildcardRule] "None" "/validate" [].

Definition conversionHook : WebhookDefinition.t :=
  WebhookDefinition.mk "ConversionWebhook" ["v1"] "operator" "" "convert"
    [] "None" "/convert" ["widgets.example.com"].

Definition sampleCSVSpec : CSVSpec.t :=
  CSVSpec.mk "" [InstallMode.mk "OwnNamespace" true] [admissionHook; conversionHook]
    (CSVCustomResourceDefinitions.mk [] []) (CSVInstall.mk "deployment" (InstallSpec.mk [])).

Definition sampleCSV : ClusterServiceVersion.t :=
  ClusterServiceVersion.mk "/bundle/manifests/operator.csv.yaml"
    "operators.coreos.com/v1alpha1" "ClusterServiceVersion"
    (Metadata.mk "operator.v1" "" ∅ ∅) sampleCSVSpec.

Definition widgetCRDSpec : CRDSpec.t :=
  CRDSpec.mk "example.com" (CRDNames.mk "Widget" "widgets" "widget") [] (Some true) None.

Definition widgetCRD : CustomResourceDefinition.t :=
  CustomResourceDefinition.mk "/bundle/manifests/widgets.crd.yaml"
    "apiextensions.k8s.io/v1" "CustomResourceDefinition"
    (Metadata.mk "widgets.example.com" "" ∅ ∅) widgetCRDSpec.

Definition fullBudget : Resource.t :=
  Resource.mk "/bundle/manifests/pdb.yml" "policy/v1" "PodDisruptionBudget"
    (Metadata.mk "pdb" "" ∅ ∅) {[ "minAvailable" := VString "100%" ]}.

Definition sampleAnnotations : BundleAnnotations.t :=
  BundleAnnotations.mk "/bundle/metadata/annotations.yaml" "" "" "" "operator"
    ["stable-v1"; "nightly"] "stable-v1".

Definition sampleBundle : Bundle :=
  Bundle.mk "/bundle" "/bundle/manifests" "/bundle/metadata"
    (Some sampleCSV) [Some widgetCRD] [Some fullBudget] (Some sampleAnnotations).

(** A file system with the bundle at [/bundle], whose manifests
    directory also has a text file and a directory, and with a bundle at
    [/locked] whose second manifest cannot be read. *)
Definition permissionDenied : loader.error := loader.mkError false "permission denied".

Definition sampleOS : loader.OS :=
  {| loader.Abs := fun p => (p, None);
     loader.Join := fun a b => a +:+ "/" +:+ b;
     loader.Stat := fun p =>
       if existsb (String.eqb p)
            [ "/bundle"; "/bundle/manifests"; "/bundle/metadata/annotations.yaml";
              "/locked"; "/locked/manifests" ]
       then None else Some noSuchFile;
     loader.ReadFile := fun p =>
       if String.eqb p "/bundle/metadata/annotations.yaml" then ("annotations:", None)
       else if String.eqb p "/bundle/manifests/operator.csv.yaml"
       then ("kind: ClusterServiceVersion", None)
       else if String.eqb p "/bundle/manifests/widgets.crd.yaml"
       then ("kind: CustomResourceDefinition", None)
       else if String.eqb p "/bundle/manifests/pdb.yml"
       then ("kind: PodDisruptionBudget", None)
       else if String.eqb p "/locked/manifests/first.yaml"
       then ("kind: PodDisruptionBudget", None)
       else if String.eqb p "/locked/manifests/second.yaml"
       then ("", Some permissionDenied)
       else ("", Some noSuchFile);
     loader.ReadDir := fun p =>
       if String.eqb p "/bundle/manifests"
       then ([ loader.mkDirEntry "operator.csv.yaml" false;
               loader.mkDirEntry "notes.txt" false;
               loader.mkDirEntry "widgets.crd.yaml" false;
               loader.mkDirEntry "archive.yaml" true;
               loader.mkDirEntry "pdb.yml" false ], None)
       else if String.eqb p "/locked/manifests"
       then ([ loader.mkDirEntry "first.yaml" false;
               loader.mkDirEntry "second.yaml" false;
               loader.mkDirEntry "third.yaml" false ], None)
       else ([], Some noSuchFile) |}.

(** A decoder for the texts of that file system: the kind is what
    follows "kind: ", and the documents are those of the sample
    bundle. *)
Definition kindOfText (data : string) : string :=
  if GoStrings.HasPrefix data "kind: "
  then String.substring 6 (String.length data - 6) data
  else "".

Definition sampleYAML : loader.YAML :=
  {| loader.UnmarshalAnnotations := fun _ =>
       ({[ "operators.operatorframework.io.bundle.package.v1" := "operator";
           "operators.operatorframework.io.bundle.channels.v1" := "stable-v1, nightly";
           "operators.operatorframework.io.bundle.channel.default.v1" := "stable-v1" ]},
        None);
     loader.UnmarshalBasic := fun data => (loader.mkRawBasic "v1" (kindOfText data), None);
     loader.UnmarshalCSV := fun _ =>
       (loader.mkRawCSV "operators.coreos.com/v1alpha1" "ClusterServiceVersion"
          (Metadata.mk "operator.v1" "" ∅ ∅) sampleCSVSpec, None);
     loader.UnmarshalCRD := fun _ =>
       (loader.mkRawCRD "apiextensions.k8s.io/v1" "CustomResourceDefinition"
          (Metadata.mk "widgets.example.com" "" ∅ ∅) widgetCRDSpec, None);
     loader.UnmarshalResource := fun _ =>
       (loader.mkRawResource "policy/v1" "PodDisruptionBudget"
          (Metadata.mk "pdb" "" ∅ ∅) {[ "minAvailable" := VString "100%" ]}, None) |}.

(** The bundle at [/locked], before its manifests are loaded. *)
Definition lockedBundle : Bundle :=
  Bundle.mk "/locked" "/locked/manifests" "/locked/metadata" None [] [] None.
End SampleBundle.

(* ===================================================================== *)
(** * Properties of the string functions *)
(* ===================================================================== *)

Lemma HasPrefix_spec (s prefix : string) :
  GoStrings.HasPrefix s prefix = true <-> exists post : string, s = prefix +:+ post.
Proof.
  revert s. induction prefix as [|p prefix IH]; intros s; simpl.
  - split; [intros _; exists s; reflexivity | reflexivity].
  - destruct s as [|c s]; simpl.
    + split; [discriminate | intros [post Hpost]; discriminate].
    + rewrite andb_true_iff, Ascii.eqb_eq, IH. split.
      * intros [-> [post ->]]. exists post. reflexivity.
      * intros [post Hpost]. injection Hpost as -> ->. split; [reflexivity | eauto].
Qed.

Lemma Contains_spec (s sub : string) :
  GoStrings.Contains s sub = true <-> Substring sub s.
Proof.
  unfold Substring. induction s as [|c s IH]; simpl.
  - rewrite orb_false_r, HasPrefix_spec. split.
    + intros [post Hpost]. exists "", post. exact Hpost.
    + intros [pre [post Hs]]. destruct pre; simpl in Hs; [eauto | discriminate].
  - rewrite orb_true_iff, HasPrefix_spec, IH. split.
    + intros [[post Hpost] | [pre [post Hs]]].
      * exists "", post. exact Hpost.
      * exists (String c pre), post. simpl. rewrite Hs. reflexivity.
    + intros [pre [post Hs]]. destruct pre as [|c' pre]; simpl in Hs.
      * left. eauto.
      * right. injection Hs as -> ->. eauto.
Qed.

(* ===================================================================== *)
(** * The error-demotion pattern (errordemote) *)
(* ===================================================================== *)

Lemma ast_tree_ind (P : ast.Expr -> Prop) (Q : ast.Stmt -> Prop) :
  (forall name, P (ast.Ident name)) ->
  (forall value, P (ast.BasicLit value)) ->
  (forall x op y, P x -> P y -> P (ast.BinaryExpr x op y)) ->
  (forall op x, P x -> P (ast.UnaryExpr op x)) ->
  (forall x, P x -> P (ast.ParenExpr x)) ->
  (forall x sel, P x -> P (ast.SelectorExpr x sel)) ->
  (forall fn args, P fn -> Forall P args -> P (ast.CallExpr fn args)) ->
  (forall body, Q body -> P (ast.FuncLit body)) ->
  (forall x, P x -> Q (ast.ExprStmt x)) ->
  (forall lhs tok rhs, Forall P lhs -> Forall P rhs -> Q (ast.AssignStmt lhs tok rhs)) ->
  (forall results, Forall P results -> Q (ast.ReturnStmt results)) ->
  (forall stmts, Forall Q stmts -> Q (ast.BlockStmt stmts)) ->
  (forall pos init cond body els,
      (forall i, init = Some i -> Q i) -> P cond -> Q body ->
      (forall e, els = Some e -> Q e) -> Q (ast.IfStmt pos init cond body els)) ->
  (forall init cond post body,
      (forall i, init = Some i -> Q i) -> (forall c, cond = Some c -> P c) ->
      (forall p, post = Some p -> Q p) -> Q body -> Q (ast.ForStmt init cond post body)) ->
  (forall e, P e) /\ (forall s, Q s).
Proof.
  intros. split; [apply (Expr_tree_ind P Q) | apply (Stmt_tree_ind P Q)]; assumption.
Qed.

Section InspectFinder.
Import ast.

Variable p : Node -> bool.
Variable f : option Node -> bool -> bool * bool.
Hypothesis f_finder : forall n found, f n found = finder p n found.

Lemma inspectLeaf_finder (n : Node) (found : bool) :
  inspectLeaf f n found = found || p n.
Proof.
  unfold inspectLeaf. rewrite f_finder. unfold finder.
  destruct (p n); simpl.
  - apply eq_sym, orb_true_r.
  - rewrite f_finder. simpl. apply eq_sym, orb_false_r.
Qed.

Lemma fold_inspect_finder {A : Type} (walk : A -> bool -> bool) (sub : A -> list Node)
    (l : list A) (found : bool) :
  Forall (fun a => forall found, walk a found = found || existsb p (sub a)) l ->
  fold_left (fun s a => walk a s) l found = found || existsb p (flat_map sub l).
Proof.
  intros Hall. revert found. induction Hall as [|a l Ha _ IH]; intros found; simpl.
  - apply eq_sym, orb_false_r.
  - rewrite IH, Ha, existsb_app, orb_assoc. reflexivity.
Qed.

Lemma inspect_finder :
  (forall e found, inspectExpr f e found = found || existsb p (subExpr e)) /\
  (forall s found, inspectStmt f s found = found || existsb p (subStmt s)).
Proof.
  apply ast_tree_ind.
  all: intros; cbn [inspectExpr inspectStmt subExpr subStmt existsb];
    rewrite f_finder; unfold finder;
    match goal with |- context [p ?n] => destruct (p n) eqn:Hp end;
    cbn [orb]; [now rewrite orb_true_r | rewrite f_finder; cbn [finder snd]].
  - now rewrite orb_false_r.
  - now rewrite orb_false_r.
  - rewrite H0, H, existsb_app, orb_assoc. reflexivity.
  - apply H.
  - apply H.
  - rewrite inspectLeaf_finder, H, existsb_app. cbn [existsb].
    rewrite orb_false_r, orb_assoc. reflexivity.
  - rewrite (fold_inspect_finder (inspectExpr f) subExpr) by assumption.
    rewrite H, existsb_app, orb_assoc. reflexivity.
  - apply H.
  - apply H.
  - rewrite !(fold_inspect_finder (inspectExpr f) subExpr) by assumption.
    rewrite existsb_app, orb_assoc. reflexivity.
  - rewrite (fold_inspect_finder (inspectExpr f) subExpr) by assumption. reflexivity.
  - rewrite (fold_inspect_finder (inspectStmt f) subStmt) by assumption. reflexivity.
  - rewrite !existsb_app.
    destruct init as [i|], els as [e|]; cbn [existsb];
      repeat match goal with
             | Hq : forall x, Some ?i = Some x -> _ |- _ => specialize (Hq i eq_refl)
             end;
      repeat match goal with Hq : forall found, _ = _ |- _ => rewrite Hq; clear Hq end;
      rewrite <- ?orb_assoc; cbn [orb]; rewrite ?orb_false_r; reflexivity.
  - rewrite !existsb_app.
    destruct init as [i|], cond as [c|], post as [q|]; cbn [existsb];
      repeat match goal with
             | Hq : forall x, Some ?i = Some x -> _ |- _ => specialize (Hq i eq_refl)
             end;
      repeat match goal with Hq : forall found, _ = _ |- _ => rewrite Hq; clear Hq end;
      rewrite <- ?orb_assoc; cbn [orb]; rewrite ?orb_false_r; reflexivity.
Qed.
End InspectFinder.

Section DemotionPattern.
Import token ast errordemote.

Lemma logMethods_lookup (sel : string) :
  default false (logMethods !! sel) = true <-> In sel logNames.
Proof.
  unfold logMethods, logNames. cbn [list_to_map foldr uncurry fst snd In].
  rewrite !lookup_insert, lookup_empty.
  repeat case_decide; subst; cbn [default from_option id]; split; intros Hs;
    try reflexivity; try discriminate; try tauto.
  all: repeat (destruct Hs as [Hs | Hs]; [congruence |]); try contradiction.
Qed.

Lemma isLogCall_spec (n : Node) : isLogCall n = true <-> LogCall n.
Proof.
  split.
  - destruct n as [[| | | | | |[]|]|]; cbn [isLogCall]; try discriminate.
    intros Hs. constructor. now apply logMethods_lookup.
  - intros [x sel args Hsel]. cbn [isLogCall]. now apply logMethods_lookup.
Qed.

Lemma isErrIdent_spec (e : Expr) :
  isErrIdent e = true <-> exists name, e = Ident name /\ Substring "err" name.
Proof.
  split.
  - destruct e; cbn [isErrIdent]; try discriminate.
    intros Hc. eexists. split; [reflexivity | now apply Contains_spec].
  - intros [name [-> Hs]]. now apply Contains_spec.
Qed.

Lemma isErrorReturn_spec (n : Node) : isErrorReturn n = true <-> ErrorReturn n.
Proof.
  split.
  - destruct n as [|[]]; cbn [isErrorReturn]; try discriminate.
    intros Hex. apply existsb_exists in Hex as [r [Hin Hr]].
    apply isErrIdent_spec in Hr as [name [-> Hs]]. econstructor; eassumption.
  - intros [results name Hin Hs]. cbn [isErrorReturn].
    apply existsb_exists. exists (Ident name). split; [exact Hin |].
    apply isErrIdent_spec. eauto.
Qed.

Lemma logCallVisitor_finder (n : option Node) (found : bool) :
  logCallVisitor n found = finder isLogCall n found.
Proof.
  destruct n as [[[| | | | | |[]|]|]|]; reflexivity.
Qed.

Lemma errorReturnVisitor_finder (n : option Node) (found : bool) :
  errorReturnVisitor n found = finder isErrorReturn n found.
Proof.
  destruct n as [[|[]]|]; reflexivity.
Qed.

(** The log-call scan finds a call exactly when the subtree has one: the
    pruning below a found call loses nothing. *)
Lemma containsLogCall_spec (stmt : Stmt) :
  containsLogCall stmt = true <-> exists n, In n (subStmt stmt) /\ LogCall n.
Proof.
  unfold containsLogCall, Inspect.
  rewrite (proj2 (inspect_finder isLogCall logCallVisitor logCallVisitor_finder)).
  cbn [orb]. rewrite existsb_exists.
  split; intros [n [Hin Hn]]; exists n; (split; [exact Hin | now apply isLogCall_spec]).
Qed.

Lemma containsErrorReturn_spec (stmt : Stmt) :
  containsErrorReturn stmt = true <-> exists n, In n (subStmt stmt) /\ ErrorReturn n.
Proof.
  unfold containsErrorReturn, Inspect.
  rewrite (proj2 (inspect_finder isErrorReturn errorReturnVisitor errorReturnVisitor_finder)).
  cbn [orb]. rewrite existsb_exists.
  split; intros [n [Hin Hn]]; exists n; (split; [exact Hin | now apply isErrorReturn_spec]).
Qed.

Lemma Token_eqb_eq (a b : Token) : Token_eqb a b = true <-> a = b.
Proof. destruct a, b; cbn; split; congruence. Qed.

Lemma isNilIdent_spec (e : Expr) : isNilIdent e = true <-> e = Ident "nil".
Proof.
  destruct e; cbn [isNilIdent]; try (split; [discriminate | congruence]).
  rewrite String.eqb_eq. split; congruence.
Qed.

Lemma nil_is_not_err : ~ Substring "err" "nil".
Proof. intros Hs. apply Contains_spec in Hs. discriminate. Qed.

Lemma isErrCondition_spec (cond : Expr) : isErrCondition cond = true <-> NilTest cond.
Proof.
  destruct cond as [| |x op y| | | | |];
    try (split; [discriminate | inversion 1]).
  assert (Hform : isErrCondition (BinaryExpr x op y) =
                  (Token_eqb op EQL || Token_eqb op NEQ) &&
                  (isNilIdent y || isNilIdent x) && (isErrIdent x || isErrIdent y)).
  { cbn [isErrCondition]. fold (isErrIdent x) (isErrIdent y).
    destruct (_ && _), (isErrIdent x), (isErrIdent y); reflexivity. }
  rewrite Hform, !andb_true_iff, !orb_true_iff, !Token_eqb_eq, !isNilIdent_spec,
    !isErrIdent_spec.
  split.
  - intros [[Hop Hnil] Herr].
    destruct Hnil as [-> | ->], Herr as [[name [Hn Hs]] | [name [Hn Hs]]];
      try (injection Hn as <-; now destruct nil_is_not_err); subst.
    + now constructor.
    + now constructor.
  - intros Ht. inversion Ht; subst; repeat split; eauto.
Qed.
End DemotionPattern.

Section CandidateTheorem.
Import token ast errordemote.

Lemma isErrorDemotionPattern_iff (pos : token.Pos) (init : option Stmt) (cond : Expr)
    (body : Stmt) (els : option Stmt) :
  isErrorDemotionPattern (IfStmt pos init cond body els) = true <->
  DemotionPattern init cond els.
Proof.
  unfold DemotionPattern. cbn [isErrorDemotionPattern]. split.
  - intros Hp.
    destruct init as [[|lhs tok rhs| | | |]|]; try discriminate.
    destruct (Token_eqb tok DEFINE) eqn:Htok; cbn [negb] in Hp; [|discriminate].
    apply Token_eqb_eq in Htok as ->.
    destruct (Z.of_nat (length lhs) <? 2) eqn:Hlen; [discriminate|].
    apply Z.ltb_ge in Hlen.
    destruct (last lhs) as [[name| | | | | | |]|] eqn:Hlast; try discriminate.
    destruct (GoStrings.Contains name "err") eqn:Hname;
      [|destruct (String.eqb name "_") eqn:Hdiscard]; cbn [negb andb] in Hp;
      try discriminate.
    all: destruct (isErrCondition cond) eqn:Hcond; cbn [negb] in Hp; [|discriminate].
    all: destruct els as [e|]; [|discriminate].
    all: apply andb_true_iff in Hp as [Hlog Hret]; apply negb_true_iff in Hret.
    all: split; [|split].
    all: try (now apply isErrCondition_spec).
    all: try (exists e; split; [reflexivity|]; split;
              [now apply containsLogCall_spec
              | rewrite <- containsErrorReturn_spec; congruence]).
    + econstructor; [lia | exact Hlast | left; now apply Contains_spec].
    + econstructor; [lia | exact Hlast | right; now apply String.eqb_eq].
  - intros [Hinit [Hcond [e [-> [Hlog Hret]]]]].
    destruct Hinit as [lhs rhs name Hlen Hlast Hname].
    cbn [Token_eqb negb]. rewrite Hlast.
    destruct (Z.of_nat (length lhs) <? 2) eqn:Hlt; [apply Z.ltb_lt in Hlt; lia|].
    apply isErrCondition_spec in Hcond. rewrite Hcond. cbn [negb].
    apply containsLogCall_spec in Hlog. rewrite Hlog.
    destruct (containsErrorReturn e) eqn:Hr;
      [apply containsErrorReturn_spec in Hr; contradiction|].
    destruct Hname as [Hs | ->].
    + apply Contains_spec in Hs. rewrite Hs. reflexivity.
    + destruct (GoStrings.Contains "_" "err"); reflexivity.
Qed.

(** C1. For every if-statement, the error-demotion detector has exactly
    one candidate at that statement if and only if its initializer is a
    short-form declaration of at least two names whose last name contains
    "err" or is "_", its condition compares nil with an identifier
    containing "err" by == or != in either order, it has an else branch,
    the subtree of the else branch has a call whose selector name is in
    the log-like set, and that subtree has no return statement returning
    an identifier containing "err"; it has no candidate there otherwise. *)
Theorem errordemote_candidate_iff_pattern :
  forall (pos : token.Pos) (init : option Stmt) (cond : Expr) (body : Stmt) (els : option Stmt),
    (candidatesAt (NStmt (IfStmt pos init cond body els)) = [pos] <->
     DemotionPattern init cond els) /\
    (candidatesAt (NStmt (IfStmt pos init cond body els)) = [] <->
     ~ DemotionPattern init cond els).
Proof.
  intros pos init cond body els.
  pose proof (isErrorDemotionPattern_iff pos init cond body els) as Hiff.
  unfold candidatesAt.
  destruct (isErrorDemotionPattern (IfStmt pos init cond body els)).
  - split; split; try tauto; discriminate.
  - split; split; try discriminate; try tauto.
    all: try (intros Hd; apply Hiff in Hd; discriminate).
    all: try (intros _ Hd; apply Hiff in Hd; discriminate).
Qed.
End CandidateTheorem.

(* ===================================================================== *)
(** * The suppression scan (errordemote) *)
(* ===================================================================== *)

Section SuppressionScan.
Import token ast errordemote.
Context `{tables : UnicodeTables}.

Lemma isNolintText_spec (text : string) :
  isNolintText text = true <-> Directive text.
Proof.
  unfold isNolintText, Directive.
  rewrite orb_true_iff, andb_true_iff, negb_true_iff, !Contains_spec.
  rewrite <- (Contains_spec text "nolint:").
  destruct (GoStrings.Contains text "nolint:"); intuition congruence.
Qed.

Lemma hasKeyword_spec (text : string) :
  hasKeyword text = true <-> Justification text.
Proof.
  unfold hasKeyword, Justification. rewrite existsb_exists.
  split; intros [k [Hin Hk]]; exists k; (split; [exact Hin | now apply Contains_spec]).
Qed.

Lemma existsb_groups (q : Comment -> bool) (groups : list CommentGroup) :
  existsb (fun g => existsb q (List g)) groups = existsb q (flat_map List groups).
Proof.
  induction groups as [|g groups IH]; cbn [existsb flat_map]; [reflexivity|].
  rewrite existsb_app, IH. reflexivity.
Qed.

Lemma Ok_inj {A : Type} (a b : A) : Ok a = Ok b <-> a = b.
Proof. split; [now injection 1 | now intros ->]. Qed.

Lemma hasNolintComment_spec (pass : Pass) (pos : token.Pos) (file : token.File)
    (file0 : ast.File) :
  FileOf (Fset pass) pos = Some file ->
  Files pass !! 0%nat = Some file0 ->
  hasNolintComment pass pos =
  Ok (existsb
        (fun c =>
           ((Line file (Slash c) =? Line file pos) ||
            (Line file (Slash c) =? Line file pos - 1)) && isNolintText (Text c))
        (scannedComments file0)).
Proof.
  intros Hfile Hfile0. unfold hasNolintComment, scannedComments.
  rewrite Hfile, Hfile0. cbn [deref bindRes]. now rewrite existsb_groups.
Qed.

Lemma hasResilienceDoc_spec (pass : Pass) (pos : token.Pos) (file : token.File)
    (file0 : ast.File) :
  FileOf (Fset pass) pos = Some file ->
  Files pass !! 0%nat = Some file0 ->
  hasResilienceDoc pass pos =
  Ok (existsb
        (fun c =>
           ((Line file pos - 3 <=? Line file (Slash c)) &&
            (Line file (Slash c) <? Line file pos)) && hasKeyword (Text c))
        (scannedComments file0)).
Proof.
  intros Hfile Hfile0. unfold hasResilienceDoc, scannedComments.
  rewrite Hfile, Hfile0. cbn [deref bindRes]. now rewrite existsb_groups.
Qed.

(** For a candidate in the first file of the pass, the comments that
    the scan goes through are the comments of the candidate's own
    file. *)
Lemma first_file_comments (pass : Pass) (pos : token.Pos) (file : token.File) :
  InFirstFile pass pos file ->
  FileOf (Fset pass) pos = Some file /\
  exists file0,
    Files pass !! 0%nat = Some file0 /\
    forall c, CommentOf pass file c <-> In c (scannedComments file0).
Proof.
  intros [toks [[Hall Hdup] [Hhead Hpos]]]. split; [exact Hpos|].
  destruct toks as [|tok toks']; [discriminate|].
  cbn in Hhead. injection Hhead as ->.
  destruct (Files pass) as [|file0 rest] eqn:Hfiles; [inversion Hall|].
  apply List.Forall2_cons_iff in Hall as [Hfirst Hrest].
  exists file0. split; [reflexivity|].
  intros c. unfold CommentOf. rewrite Hfiles. cbn [flat_map]. rewrite in_app_iff. split.
  - intros [[Hin | Hin] Hfile]; [exact Hin|]. exfalso.
    apply NoDup_cons in Hdup as [Hnotin _]. apply Hnotin.
    clear Hfirst Hnotin Hfiles.
    induction Hrest as [|tree tok rest toks' Htree Hrest IH]; [destruct Hin|].
    cbn [flat_map] in Hin. apply in_app_iff in Hin as [Hin | Hin].
    + specialize (Htree c Hin). assert (tok = file) as -> by congruence.
      left.
    + right. now apply IH.
  - intros Hin. split; [now left | now apply Hfirst].
Qed.

(** C4, as amended. For a candidate at line L of the first file of the
    pass, the scan finds a direct suppression directive exactly when a
    comment of that file whose text has "nolint:errordemote", or has
    "nolint" and no "nolint:", is on a line of [L-1, L], and it finds
    a justification exactly when a comment of that file with one of the
    keywords is on a line of [L-3, L-1]; a candidate for which either
    is found is not reported, and any other candidate is. *)
Theorem suppression_windows (pass : Pass) (pos : token.Pos) (file : token.File) :
  InFirstFile pass pos file ->
  let L := Line file pos in
  let lineOf (c : Comment) := Line file (Slash c) in
  let directive :=
    exists c, CommentOf pass file c /\ Directive (Text c) /\
              L - 1 <= lineOf c <= L in
  let justification :=
    exists c, CommentOf pass file c /\ Justification (Text c) /\
              L - 3 <= lineOf c <= L - 1 in
  (hasNolintComment pass pos = Ok true <-> directive) /\
  (hasNolintComment pass pos = Ok false <-> ~ directive) /\
  (hasResilienceDoc pass pos = Ok true <-> justification) /\
  (hasResilienceDoc pass pos = Ok false <-> ~ justification) /\
  (forall init cond body els,
      isErrorDemotionPattern (IfStmt pos init cond body els) = true ->
      (visit pass (NStmt (IfStmt pos init cond body els)) = Ok [] <->
       directive \/ justification) /\
      (visit pass (NStmt (IfStmt pos init cond body els)) = Ok [mkDiagnostic pos message] <->
       ~ (directive \/ justification))).
Proof.
  intros Hfirst L lineOf directive justification.
  destruct (first_file_comments pass pos file Hfirst) as [Hfile [file0 [Hfile0 Hown]]].
  assert (Hd : forall b, hasNolintComment pass pos = Ok b -> (b = true <-> directive)).
  { intros b. rewrite (hasNolintComment_spec pass pos file file0 Hfile Hfile0), Ok_inj.
    intros <-. rewrite existsb_exists. unfold directive, lineOf, L.
    split; intros [c [Hin Hc]]; exists c; (split; [now apply Hown|]).
    - apply andb_true_iff in Hc as [Hw Ht]. apply isNolintText_spec in Ht.
      split; [exact Ht|]. apply orb_true_iff in Hw as [Hw | Hw]; apply Z.eqb_eq in Hw; lia.
    - destruct Hc as [Ht Hw]. apply andb_true_iff. split; [|now apply isNolintText_spec].
      apply orb_true_iff.
      destruct (Z.eq_dec (Line file (Slash c)) (Line file pos)) as [He | Hne];
        [left | right]; apply Z.eqb_eq; lia. }
  assert (Hj : forall b, hasResilienceDoc pass pos = Ok b -> (b = true <-> justification)).
  { intros b. rewrite (hasResilienceDoc_spec pass pos file file0 Hfile Hfile0), Ok_inj.
    intros <-. rewrite existsb_exists. unfold justification, lineOf, L.
    split; intros [c [Hin Hc]]; exists c; (split; [now apply Hown|]).
    - apply andb_true_iff in Hc as [Hw Ht]. apply hasKeyword_spec in Ht.
      split; [exact Ht|]. apply andb_true_iff in Hw as [Hlo Hhi].
      apply Z.leb_le in Hlo. apply Z.ltb_lt in Hhi. lia.
    - destruct Hc as [Ht Hw]. apply andb_true_iff. split; [|now apply hasKeyword_spec].
      apply andb_true_iff. split; [apply Z.leb_le | apply Z.ltb_lt]; lia. }
  destruct (hasNolintComment pass pos) as [nolint|] eqn:Hn;
    [|rewrite (hasNolintComment_spec pass pos file file0 Hfile Hfile0) in Hn; discriminate].
  destruct (hasResilienceDoc pass pos) as [doc|] eqn:Hr;
    [|rewrite (hasResilienceDoc_spec pass pos file file0 Hfile Hfile0) in Hr; discriminate].
  specialize (Hd nolint eq_refl). specialize (Hj doc eq_refl).
  rewrite !Ok_inj.
  refine (conj _ (conj _ (conj _ (conj _ _))));
    try (destruct nolint, doc; intuition congruence).
  intros init cond body els Hpattern.
  cbn [visit]. rewrite Hpattern, Hn. cbn [bindRes].
  destruct nolint; [|rewrite Hr; cbn [bindRes]; destruct doc].
  all: rewrite ?Ok_inj; split; split; intuition congruence.
Qed.

(** The scan never panics on a node of the pass: there is a first file. *)
Lemma visit_no_panic (pass : Pass) (n : Node) :
  Files pass <> [] -> exists ds, visit pass n = Ok ds.
Proof.
  intros Hne. destruct (Files pass) as [|file0 rest] eqn:Hfiles; [contradiction|].
  destruct n as [e|[]]; cbn [visit]; eauto.
  destruct (isErrorDemotionPattern _); eauto.
  unfold hasNolintComment, hasResilienceDoc. rewrite Hfiles.
  destruct (FileOf (Fset pass) If) as [file|]; cbn [deref bindRes lookup list_lookup];
    repeat match goal with |- context [if ?b then _ else _] => destruct b end; eauto.
Qed.
End SuppressionScan.

(** The instance of the amended C4 at the package of [b.go] and [a.go],
    in that order: the directive on line 3 of [b.go] suppresses the
    candidate on line 4 of [b.go]. *)
Lemma suppression_windows_witness :
  errordemote.hasNolintComment firstFilePass (token.base fileB1 + 44) = Ok true /\
  errordemote.visit (tables := asciiTables) firstFilePass
    (ast.NStmt (demotingIf (token.base fileB1 + 44))) = Ok [].
Proof.
  assert (Hfirst : InFirstFile firstFilePass (token.base fileB1 + 44) fileB1).
  { exists [fileB1; fileA2]. split; [split|split; reflexivity].
    - apply List.Forall2_cons; [|apply List.Forall2_cons; [|apply List.Forall2_nil]].
      + intros c [<- | []]. reflexivity.
      + intros c [].
    - apply NoDup_cons. split; [|apply NoDup_singleton].
      rewrite list_elem_of_singleton. intros Heq.
      assert (Hname : token.name fileB1 = token.name fileA2) by (now rewrite Heq).
      discriminate Hname. }
  pose proof (suppression_windows (tables := asciiTables) firstFilePass
                (token.base fileB1 + 44) fileB1 Hfirst) as Hw.
  cbv zeta in Hw. destruct Hw as [Hd [_ [_ [_ Hv]]]].
  assert (Hdir : errordemote.hasNolintComment firstFilePass (token.base fileB1 + 44) = Ok true)
    by (vm_compute; reflexivity).
  split; [exact Hdir|].
  unfold demotingIf.
  match goal with
  | |- errordemote.visit _ (ast.NStmt (ast.IfStmt _ ?i ?c ?b ?e)) = _ =>
      apply (proj1 (Hv i c b e eq_refl))
  end.
  left. apply Hd. exact Hdir.
Defined.

(** C4, as stated, fails: in the file [l.go], alone in its package, the
    comment [//nolint:gosec,errordemote] on line 3 is a directive that
    names the rule, the candidate is on line 4, and it is reported: the
    scan looks for the text "nolint:errordemote". *)
Lemma directive_in_a_list_does_not_suppress :
  String.substring 22 26 srcList = ast.Text listDirective /\
  String.substring 50 2 srcList = "if" /\
  GoStrings.Contains (ast.Text listDirective) "nolint:" = true /\
  GoStrings.Contains (ast.Text listDirective) "errordemote" = true /\
  token.FileOf (errordemote.Fset listDirectivePass) (ast.Slash listDirective) = Some fileList /\
  token.FileOf (errordemote.Fset listDirectivePass) listIfPos = Some fileList /\
  token.Line fileList (ast.Slash listDirective) = 3 /\
  token.Line fileList listIfPos = 4 /\
  errordemote.hasNolintComment listDirectivePass listIfPos = Ok false /\
  errordemote.run (tables := asciiTables) listDirectivePass =
    Ok [errordemote.mkDiagnostic listIfPos errordemote.message].
Proof. repeat split; vm_compute; reflexivity. Qed.

Section ScanAcrossFiles.
Import token ast errordemote.

(** C5 (the code departs from the claim). In the package of [a.go] and
    [b.go] the candidate on line 4 of [b.go] has the directive
    [//nolint:errordemote] of its own file on the line above, and it is
    reported all the same: the scan goes through the comments of the
    first file of the package, which is [a.go]. Alone in its package the
    same file is not reported. And in the package of [doc.go] and [c.go]
    the candidate on line 4 of [c.go] is suppressed by a comment of
    [doc.go]. *)
Theorem scan_reads_comments_of_first_file :
  forall tables : UnicodeTables,
    (FileOf (Fset twoFilePass) ifPos = Some fileB /\
     FileOf (Fset twoFilePass) directivePos = Some fileB /\
     Line fileB ifPos = 4 /\ Line fileB directivePos = 3 /\
     Directive "//nolint:errordemote" /\
     run twoFilePass = Ok [mkDiagnostic ifPos message]) /\
    run oneFilePass = Ok [] /\
    (FileOf (Fset foreignCommentPass) (base fileC + 23) = Some fileC /\
     FileOf (Fset foreignCommentPass) (base fileDoc) = Some fileDoc /\
     Line fileC (base fileC + 23) = 4 /\
     run foreignCommentPass = Ok []).
Proof.
  intros tables. repeat split; try (vm_compute; reflexivity).
  apply isNolintText_spec. vm_compute. reflexivity.
Qed.
End ScanAcrossFiles.

(* ===================================================================== *)
(** * Rule selection (odhlint-bundle) *)
(* ===================================================================== *)

Section Selection.
Import rules registry main.
Context `{tables : UnicodeTables}.

Lemma parseRuleList_fold (parts : list string) (acc : gmap string bool) (id : string) :
  is_Some
    (fold_left
       (fun result part =>
          let trimmed := GoStrings.TrimSpace part in
          if negb (String.eqb trimmed "") then <[trimmed := true]> result else result)
       parts acc !! id) <->
  is_Some (acc !! id) \/
  (id <> "" /\ exists part, In part parts /\ GoStrings.TrimSpace part = id).
Proof.
  revert acc. induction parts as [|part parts IH]; intros acc; cbn [fold_left In].
  - split; [tauto | intros [Hs | [_ [part [[] _]]]]; exact Hs].
  - rewrite IH. cbv zeta.
    destruct (String.eqb (GoStrings.TrimSpace part) "") eqn:Hempty; cbn [negb].
    + apply String.eqb_eq in Hempty. split.
      * intros [Hs | [Hne [p [Hin Hp]]]]; [tauto | right; eauto].
      * intros [Hs | [Hne [p [[-> | Hin] Hp]]]]; [tauto | congruence | right; eauto].
    + apply String.eqb_neq in Hempty. rewrite lookup_insert. split.
      * intros [Hs | [Hne [p [Hin Hp]]]]; [|right; eauto].
        case_decide as Hid; [subst; right; eauto | tauto].
      * intros [Hs | [Hne [p [[-> | Hin] Hp]]]].
        -- left. case_decide; [eauto | exact Hs].
        -- left. case_decide; [eauto | congruence].
        -- right. eauto.
Qed.

Lemma parseRuleList_spec (list id : string) :
  is_Some (parseRuleList list !! id) <-> Listed list id.
Proof.
  unfold parseRuleList, Listed. cbv zeta.
  destruct (String.eqb list "") eqn:Hlist.
  - apply String.eqb_eq in Hlist as ->. rewrite lookup_empty. split.
    + intros [x Hx]. discriminate.
    + intros [Hne [part [[<- | []] Hp]]]. vm_compute in Hp. congruence.
  - rewrite parseRuleList_fold, lookup_empty. split.
    + intros [[x Hx] | Hl]; [discriminate | exact Hl].
    + tauto.
Qed.

(** C2. When the enable list is not empty the selected rules are the
    rules of the registry whose identifier is in the enable list,
    whatever the disable list is; when it is empty they are the rules of
    the registry whose identifier is not in the disable list. Identifiers
    of either list that no rule of the registry has change nothing: two
    lists that have the same registered identifiers select the same
    rules. The selection is a total function: no error is raised. *)
Theorem selectRules_selection (enable disable : string) :
  (enable <> "" ->
   (forall rule, In rule (selectRules enable disable) <->
                 In rule GetAllRules /\ Listed enable (Rule.ID rule)) /\
   (forall disable', selectRules enable disable' = selectRules enable disable) /\
   (forall enable',
       enable' <> "" ->
       (forall id, Registered id -> (Listed enable id <-> Listed enable' id)) ->
       selectRules enable' disable = selectRules enable disable)) /\
  (enable = "" ->
   (forall rule, In rule (selectRules enable disable) <->
                 In rule GetAllRules /\ ~ Listed disable (Rule.ID rule)) /\
   (forall disable',
       (forall id, Registered id -> (Listed disable id <-> Listed disable' id)) ->
       selectRules enable disable' = selectRules enable disable)).
Proof.
  assert (Hon : forall e d, e <> "" ->
            selectRules e d =
            List.filter (fun rule => bool_decide (is_Some (parseRuleList e !! Rule.ID rule)))
              GetAllRules).
  { intros e d He. unfold selectRules. apply String.eqb_neq in He. now rewrite He. }
  assert (Hoff : forall d,
            selectRules "" d =
            List.filter
              (fun rule => negb (bool_decide (is_Some (parseRuleList d !! Rule.ID rule))))
              GetAllRules).
  { intros d. unfold selectRules. cbn [String.eqb negb].
    destruct (String.eqb d "") eqn:Hd; cbn [negb]; [|reflexivity].
    apply String.eqb_eq in Hd as ->.
    symmetry. apply forallb_filter_id. apply forallb_forall. intros rule _.
    unfold parseRuleList. cbn [String.eqb]. rewrite lookup_empty.
    rewrite bool_decide_eq_false_2; [reflexivity | intros [x Hx]; discriminate]. }
  split.
  - intros He. split; [|split].
    + intros rule. rewrite (Hon _ _ He), filter_In, bool_decide_eq_true, parseRuleList_spec.
      reflexivity.
    + intros d'. now rewrite !(Hon _ _ He).
    + intros e' He' Hsame. rewrite (Hon _ _ He), (Hon _ _ He').
      apply filter_ext_in. intros rule Hin. apply bool_decide_ext.
      rewrite !parseRuleList_spec. symmetry. apply Hsame. exists rule. tauto.
  - intros ->. split.
    + intros rule.
      rewrite Hoff, filter_In, negb_true_iff, bool_decide_eq_false, parseRuleList_spec.
      reflexivity.
    + intros d' Hsame. rewrite !Hoff.
      apply filter_ext_in. intros rule Hin. f_equal. apply bool_decide_ext.
      rewrite !parseRuleList_spec. symmetry. apply Hsame. exists rule. tauto.
Qed.
End Selection.

(** The instance of C2 at the enable list "ODH-OLM-004, NO-SUCH-RULE" and
    the disable list "ODH-OLM-004": the one rule selected is
    ODH-OLM-004. *)
Lemma selectRules_selection_witness :
  map rules.Rule.ID
    (main.selectRules (tables := asciiTables) "ODH-OLM-004, NO-SUCH-RULE" "ODH-OLM-004") =
  ["ODH-OLM-004"] /\
  main.selectRules (tables := asciiTables) "ODH-OLM-004, NO-SUCH-RULE" "" =
  main.selectRules (tables := asciiTables) "ODH-OLM-004, NO-SUCH-RULE" "ODH-OLM-004".
Proof.
  split; [vm_compute; reflexivity|].
  apply (proj1 (selectRules_selection (tables := asciiTables)
                  "ODH-OLM-004, NO-SUCH-RULE" "ODH-OLM-004")).
  discriminate.
Defined.

(* ===================================================================== *)
(** * The rules over bundles *)
(* ===================================================================== *)

Section BudgetRule.
Import rules.

Lemma isZeroValue_spec (v : Value) :
  PDBMaxUnavailableRule.isZeroValue v = true <-> ZeroValue v.
Proof.
  split.
  - destruct v as [|b|n|n|n|f|s|l|m]; cbn [PDBMaxUnavailableRule.isZeroValue];
      try discriminate.
    + intros Hn. apply Z.eqb_eq in Hn as ->. constructor.
    + intros Hn. apply Z.eqb_eq in Hn as ->. constructor.
    + destruct f; cbn; try discriminate. constructor.
    + cbv zeta. rewrite orb_true_iff, !String.eqb_eq. now constructor.
  - intros [| |sign|s Hs]; cbn [PDBMaxUnavailableRule.isZeroValue
                                PDBMaxUnavailableRule.floatIsZero]; try reflexivity.
    cbv zeta. now rewrite orb_true_iff, !String.eqb_eq.
Qed.

Lemma isZeroBudget_spec (resource : Resource.t) :
  isZeroBudget resource = true <-> ZeroBudget resource.
Proof.
  unfold isZeroBudget, ZeroBudget. rewrite andb_true_iff, String.eqb_eq.
  destruct (Resource.Spec resource !! "maxUnavailable") as [v|].
  - rewrite isZeroValue_spec. split.
    + intros [Hk Hz]. eauto.
    + intros [Hk [v' [Hv Hz]]]. injection Hv as <-. tauto.
  - split; [intros [_ Hf]; discriminate | intros [_ [v [Hv _]]]; discriminate].
Qed.

Lemma PDBMaxUnavailable_loop (resources : list Resource.t) (acc : list Violation) :
  forRange (map Some resources)
    (fun violations p =>
       resource <-! deref p ;
       if negb (String.eqb (Resource.Kind resource) "PodDisruptionBudget")
       then Ok violations
       else
         match Resource.Spec resource !! "maxUnavailable" with
         | Some maxUnav =>
             if PDBMaxUnavailableRule.isZeroValue maxUnav
             then Ok (violations ++ [ PDBMaxUnavailableRule.violation resource ])
             else Ok violations
         | None => Ok violations
         end)
    acc =
  Ok (acc ++ map PDBMaxUnavailableRule.violation (List.filter isZeroBudget resources)).
Proof.
  revert acc. induction resources as [|r resources IH]; intros acc;
    cbn [map forRange List.filter].
  - now rewrite app_nil_r.
  - cbn [deref bindRes]. unfold isZeroBudget at 1.
    destruct (String.eqb (Resource.Kind r) "PodDisruptionBudget"); cbn [negb andb].
    + destruct (Resource.Spec r !! "maxUnavailable") as [v|]; [|apply IH].
      destruct (PDBMaxUnavailableRule.isZeroValue v); [|apply IH].
      cbn [bindRes]. rewrite IH. cbn [map]. now rewrite <- app_assoc.
    + apply IH.
Qed.

(** C8. On a bundle whose generic resources are [resources], the rule
    ODH-OLM-004 returns one violation for each resource of kind
    PodDisruptionBudget whose spec has a "maxUnavailable" field with a
    zero value (the integer 0, the float 0, or a string that is "0" or
    "0%" once trimmed), in the order of the resources, and nothing else;
    each of them has severity Error and names the file of its
    resource. *)
Theorem PDBMaxUnavailable_violations (bundle : Bundle) (resources : list Resource.t) :
  Bundle.OtherResources bundle = map Some resources ->
  PDBMaxUnavailableRule.Validate bundle =
    Ok (map PDBMaxUnavailableRule.violation (List.filter isZeroBudget resources)) /\
  (forall resource, isZeroBudget resource = true <-> ZeroBudget resource) /\
  (forall resource,
      Violation.Severity (PDBMaxUnavailableRule.violation resource) = SeverityError /\
      Violation.RuleID (PDBMaxUnavailableRule.violation resource) = "ODH-OLM-004" /\
      Violation.File (PDBMaxUnavailableRule.violation resource) = Resource.FilePath resource).
Proof.
  intros Hres. split; [|split].
  - unfold PDBMaxUnavailableRule.Validate. rewrite Hres. apply PDBMaxUnavailable_loop.
  - apply isZeroBudget_spec.
  - intros resource. repeat split.
Qed.
End BudgetRule.

(** The instance of C8 at scenario 5: the budget with "0%" gives one
    violation of severity Error, the budget with "1" gives none. *)
Lemma PDBMaxUnavailable_violations_witness :
  (exists v,
      PDBMaxUnavailableRule.Validate (bundleOf [budget (rules.VString "0%")]) = Ok [v] /\
      rules.Violation.Severity v = rules.SeverityError) /\
  PDBMaxUnavailableRule.Validate (bundleOf [budget (rules.VString "1")]) = Ok [].
Proof.
  split.
  - exists (PDBMaxUnavailableRule.violation (budget (rules.VString "0%"))).
    split; [|reflexivity].
    apply (proj1 (PDBMaxUnavailable_violations
                    (bundleOf [budget (rules.VString "0%")])
                    [budget (rules.VString "0%")] eq_refl)).
  - apply (proj1 (PDBMaxUnavailable_violations
                    (bundleOf [budget (rules.VString "1")])
                    [budget (rules.VString "1")] eq_refl)).
Defined.

(* ===================================================================== *)
(** * Loading a bundle *)
(* ===================================================================== *)

Section Loading.
Import rules loader.
Context `{os : OS} `{yaml : YAML}.

Lemma parseCSV_result (filePath data : string) :
  snd (parseCSV filePath data) = snd (UnmarshalCSV data) /\
  (snd (UnmarshalCSV data) = None -> is_Some (fst (parseCSV filePath data))).
Proof.
  unfold parseCSV. destruct (UnmarshalCSV data) as [raw [e|]]; cbn; split; eauto; discriminate.
Qed.

Lemma parseCRD_result (filePath data : string) :
  snd (parseCRD filePath data) = snd (UnmarshalCRD data) /\
  (snd (UnmarshalCRD data) = None -> is_Some (fst (parseCRD filePath data))).
Proof.
  unfold parseCRD. destruct (UnmarshalCRD data) as [raw [e|]]; cbn; split; eauto; discriminate.
Qed.

Lemma parseResource_result (filePath data : string) :
  snd (parseResource filePath data) = snd (UnmarshalResource data) /\
  (snd (UnmarshalResource data) = None -> is_Some (fst (parseResource filePath data))).
Proof.
  unfold parseResource.
  destruct (UnmarshalResource data) as [raw [e|]]; cbn; split; eauto; discriminate.
Qed.

Lemma loadManifestFile_result (bundle : Bundle) (filePath : string) :
  (snd (loadManifestFile bundle filePath) = None <->
   snd (ReadFile filePath) = None /\ ~ Unparsable (fst (ReadFile filePath))) /\
  (snd (loadManifestFile bundle filePath) = None ->
   Routed (basicKind (fst (UnmarshalBasic (fst (ReadFile filePath)))))
     bundle (fst (loadManifestFile bundle filePath))).
Proof.
  unfold loadManifestFile, Unparsable, Routed.
  destruct (ReadFile filePath) as [data [e|]]; cbn [fst snd].
  { split; [split; [discriminate | intros [Hd _]; discriminate] | discriminate]. }
  destruct (UnmarshalBasic data) as [basic [e|]]; cbn [fst snd].
  { split; [split; [discriminate | intros [_ Hn]; exfalso; apply Hn; left; discriminate]
           | discriminate]. }
  cbv zeta.
  destruct (String.eqb (basicKind basic) "ClusterServiceVersion");
    [|destruct (String.eqb (basicKind basic) "CustomResourceDefinition")].
  - destruct (parseCSV_result filePath data) as [Herr Hsome].
    destruct (parseCSV filePath data) as [csv err]; cbn [fst snd] in *. subst err.
    destruct (UnmarshalCSV data) as [raw [e|]]; cbn [fst snd] in *.
    + split; [split; [discriminate | intros [_ Hn]; exfalso; apply Hn; right; discriminate]
             | discriminate].
    + split; [split; [intros _; split; [reflexivity | intros [Hb | Hk]; congruence]
                     | reflexivity]
             | intros _; cbn; auto 10].
  - destruct (parseCRD_result filePath data) as [Herr Hsome].
    destruct (parseCRD filePath data) as [crd err]; cbn [fst snd] in *. subst err.
    destruct (UnmarshalCRD data) as [raw [e|]]; cbn [fst snd] in *.
    + split; [split; [discriminate | intros [_ Hn]; exfalso; apply Hn; right; discriminate]
             | discriminate].
    + split; [split; [intros _; split; [reflexivity | intros [Hb | Hk]; congruence]
                     | reflexivity]
             | intros _; destruct (Hsome eq_refl) as [c ->]; cbn; eauto 10].
  - destruct (parseResource_result filePath data) as [Herr Hsome].
    destruct (parseResource filePath data) as [res err]; cbn [fst snd] in *. subst err.
    destruct (UnmarshalResource data) as [raw [e|]]; cbn [fst snd] in *.
    + split; [split; [discriminate | intros [_ Hn]; exfalso; apply Hn; right; discriminate]
             | discriminate].
    + split; [split; [intros _; split; [reflexivity | intros [Hb | Hk]; congruence]
                     | reflexivity]
             | intros _; destruct (Hsome eq_refl) as [r ->]; cbn; eauto 10].
Qed.

Lemma isManifest_false_kinds (bundlePath : string) (file : DirEntry) :
  isManifest file = false ->
  isCSVManifest bundlePath file = false /\ isCRDManifest bundlePath file = false /\
  isOtherManifest bundlePath file = false.
Proof.
  unfold isCSVManifest, isCRDManifest, isOtherManifest. intros ->. auto.
Qed.

Lemma loadManifestFiles_skip (file : DirEntry) (files : list DirEntry) (bundle : Bundle) :
  isManifest file = false ->
  loadManifestFiles (file :: files) bundle = loadManifestFiles files bundle.
Proof.
  unfold isManifest. cbn [loadManifestFiles].
  destruct (IsDir file); [reflexivity|]. cbn [negb andb].
  destruct (negb (GoStrings.HasSuffix (Name file) ".yaml") &&
            negb (GoStrings.HasSuffix (Name file) ".yml")); [reflexivity | discriminate].
Qed.

Lemma loadManifestFiles_step (file : DirEntry) (files : list DirEntry) (bundle : Bundle) :
  isManifest file = true ->
  loadManifestFiles (file :: files) bundle =
  let '(bundle', err) :=
    loadManifestFile bundle (Join (Bundle.ManifestsPath bundle) (Name file)) in
  match err with
  | Some e =>
      (bundle', Some (Errorf ("failed to load manifest " +:+ Name file +:+ ": " +:+ Error e)))
  | None => loadManifestFiles files bundle'
  end.
Proof.
  unfold isManifest. cbn [loadManifestFiles].
  destruct (IsDir file); [discriminate|]. cbn [negb andb].
  destruct (negb (GoStrings.HasSuffix (Name file) ".yaml") &&
            negb (GoStrings.HasSuffix (Name file) ".yml")); [discriminate | reflexivity].
Qed.

(** The loop fails exactly when one of the manifests cannot be read or
    parsed. *)
Lemma loadManifestFiles_error (bundlePath : string) (files : list DirEntry) (bundle : Bundle) :
  Bundle.ManifestsPath bundle = manifestsOf bundlePath ->
  (snd (loadManifestFiles files bundle) = None <->
   forall file, In file files -> isManifest file = true ->
     snd (ReadFile (Join (manifestsOf bundlePath) (Name file))) = None /\
     ~ Unparsable (fst (ReadFile (Join (manifestsOf bundlePath) (Name file))))).
Proof.
  revert bundle. induction files as [|file files IH]; intros bundle Hpath.
  - cbn. split; [intros _ file [] | reflexivity].
  - destruct (isManifest file) eqn:Hm.
    + rewrite (loadManifestFiles_step _ _ _ Hm), Hpath.
      destruct (loadManifestFile_result bundle (Join (manifestsOf bundlePath) (Name file)))
        as [Herr Hrouted].
      destruct (loadManifestFile bundle (Join (manifestsOf bundlePath) (Name file)))
        as [bundle' [e|]]; cbn [fst snd] in *.
      * split; [discriminate|]. intros Hall. exfalso.
        assert (Hnone : Some e = None) by (apply Herr, Hall; [now left | exact Hm]).
        discriminate.
      * specialize (Hrouted eq_refl). destruct Hrouted as [_ [Hmp _]].
        rewrite (IH bundle') by congruence. split.
        -- intros Hall f [<- | Hin] Hf; [now apply Herr | now apply Hall].
        -- intros Hall f Hin Hf. apply Hall; [now right | exact Hf].
    + rewrite (loadManifestFiles_skip _ _ _ Hm), (IH bundle Hpath). split.
      * intros Hall f [<- | Hin] Hf; [congruence | now apply Hall].
      * intros Hall f Hin Hf. apply Hall; [now right | exact Hf].
Qed.

(** When the loop succeeds, every manifest is in the bundle. *)
Lemma loadManifestFiles_success (bundlePath : string) (files : list DirEntry) (bundle : Bundle) :
  Bundle.ManifestsPath bundle = manifestsOf bundlePath ->
  snd (loadManifestFiles files bundle) = None ->
  let after := fst (loadManifestFiles files bundle) in
  Bundle.Path after = Bundle.Path bundle /\
  Bundle.ManifestsPath after = Bundle.ManifestsPath bundle /\
  Bundle.MetadataPath after = Bundle.MetadataPath bundle /\
  Bundle.Annotations after = Bundle.Annotations bundle /\
  (NoNilEntry bundle -> NoNilEntry after) /\
  length (Bundle.CRDs after) =
    (length (Bundle.CRDs bundle) + length (List.filter (isCRDManifest bundlePath) files))%nat /\
  length (Bundle.OtherResources after) =
    (length (Bundle.OtherResources bundle) +
     length (List.filter (isOtherManifest bundlePath) files))%nat /\
  (is_Some (Bundle.CSV after) <->
   is_Some (Bundle.CSV bundle) \/
   exists file, In file files /\ isCSVManifest bundlePath file = true).
Proof.
  revert bundle. induction files as [|file files IH]; intros bundle Hpath Hok after.
  - subst after. cbn. repeat split; auto; try lia.
    all: try (intros [Hs | [file [[] _]]]; exact Hs).
    all: unfold NoNilEntry in *; tauto.
  - subst after. destruct (isManifest file) eqn:Hm.
    + rewrite (loadManifestFiles_step _ _ _ Hm), Hpath in *.
      destruct (loadManifestFile_result bundle (Join (manifestsOf bundlePath) (Name file)))
        as [_ Hrouted].
      destruct (loadManifestFile bundle (Join (manifestsOf bundlePath) (Name file)))
        as [bundle' [e|]]; cbn [fst snd] in *; [discriminate|].
      specialize (Hrouted eq_refl).
      destruct Hrouted as [Hp [Hmp [Hmd [Han Hkind]]]].
      assert (Hpath' : Bundle.ManifestsPath bundle' = manifestsOf bundlePath) by congruence.
      specialize (IH bundle' Hpath' Hok). cbv zeta in IH.
      destruct IH as [IHp [IHmp [IHmd [IHan [IHnil [IHcrd [IHother IHcsv]]]]]]].
      cbn [List.filter]. unfold isCRDManifest at 1, isOtherManifest at 1.
      unfold NoNilEntry in *.
      assert (Hcsvm : isCSVManifest bundlePath file =
                      String.eqb (kindOf bundlePath file) "ClusterServiceVersion")
        by (unfold isCSVManifest; now rewrite Hm).
      rewrite Hm. cbn [andb]. fold (kindOf bundlePath file) in Hkind.
      destruct (String.eqb (kindOf bundlePath file) "ClusterServiceVersion") eqn:Hk1;
        [|destruct (String.eqb (kindOf bundlePath file) "CustomResourceDefinition") eqn:Hk2];
        cbn [negb andb].
      * destruct Hkind as [Hcsv [Hcrds Hothers]].
        refine (conj _ (conj _ (conj _ (conj _ (conj _ (conj _ (conj _ _))))))); try congruence.
        -- intros [Hc Ho]. apply IHnil. rewrite Hcrds, Hothers. now split.
        -- split; [intros _; right; exists file; split; [now left | congruence]|].
           intros _. apply IHcsv. now left.
      * destruct Hkind as [Hcsv [[crd Hcrds] Hothers]].
        refine (conj _ (conj _ (conj _ (conj _ (conj _ (conj _ (conj _ _))))))); try congruence.
        -- intros [Hc Ho]. apply IHnil. rewrite Hcrds, Hothers.
           split; [apply Forall_app; split; [exact Hc | repeat constructor; eauto] | exact Ho].
        -- rewrite IHcrd, Hcrds, length_app. cbn [length]. lia.
        -- rewrite IHcsv, Hcsv. split.
           ++ intros [Hs | [f [Hin Hf]]];
             [now left | right; exists f; split; [now right | exact Hf]].
           ++ intros [Hs | [f [[<- | Hin] Hf]]]; [now left | congruence | right; eauto].
      * destruct Hkind as [Hcsv [Hcrds [resource Hothers]]].
        refine (conj _ (conj _ (conj _ (conj _ (conj _ (conj _ (conj _ _))))))); try congruence.
        -- intros [Hc Ho]. apply IHnil. rewrite Hcrds, Hothers.
           split; [exact Hc | apply Forall_app; split; [exact Ho | repeat constructor; eauto]].
        -- rewrite IHother, Hothers, length_app. cbn [length]. lia.
        -- rewrite IHcsv, Hcsv. split.
           ++ intros [Hs | [f [Hin Hf]]];
             [now left | right; exists f; split; [now right | exact Hf]].
           ++ intros [Hs | [f [[<- | Hin] Hf]]]; [now left | congruence | right; eauto].
    + rewrite (loadManifestFiles_skip _ _ _ Hm) in *.
      specialize (IH bundle Hpath Hok). cbv zeta in IH.
      destruct IH as [IHp [IHmp [IHmd [IHan [IHnil [IHcrd [IHother IHcsv]]]]]]].
      destruct (isManifest_false_kinds bundlePath file Hm) as [Hc1 [Hc2 Hc3]].
      cbn [List.filter]. rewrite Hc2, Hc3.
      refine (conj _ (conj _ (conj _ (conj _ (conj _ (conj _ (conj _ _))))))); try assumption.
      rewrite IHcsv. split.
      * intros [Hs | [f [Hin Hf]]];
             [now left | right; exists f; split; [now right | exact Hf]].
      * intros [Hs | [f [[<- | Hin] Hf]]]; [now left | congruence | right; eauto].
Qed.

Lemma loadAnnotations_result (bundle : Bundle) :
  let annotationsPath := Join (Bundle.MetadataPath bundle) "annotations.yaml" in
  (snd (loadAnnotations bundle) = None ->
   let after := fst (loadAnnotations bundle) in
   Bundle.Path after = Bundle.Path bundle /\
   Bundle.ManifestsPath after = Bundle.ManifestsPath bundle /\
   Bundle.MetadataPath after = Bundle.MetadataPath bundle /\
   Bundle.CSV after = Bundle.CSV bundle /\
   Bundle.CRDs after = Bundle.CRDs bundle /\
   Bundle.OtherResources after = Bundle.OtherResources bundle) /\
  (isNotExist (Stat annotationsPath) = false ->
   snd (UnmarshalAnnotations (fst (ReadFile annotationsPath))) <> None ->
   snd (loadAnnotations bundle) <> None).
Proof.
  unfold loadAnnotations. cbv zeta.
  destruct (isNotExist (Stat (Join (Bundle.MetadataPath bundle) "annotations.yaml"))).
  { cbn. split; [auto 10 | discriminate]. }
  destruct (ReadFile (Join (Bundle.MetadataPath bundle) "annotations.yaml"))
    as [data [e|]]; cbn [fst snd].
  { split; [discriminate | intros _ _; discriminate]. }
  destruct (UnmarshalAnnotations data) as [raw [e|]]; cbn [fst snd].
  { split; [discriminate | intros _ _; discriminate]. }
  split; [intros _; cbn; auto 10 | intros _ Hn; exact Hn].
Qed.

(** The outcomes of [LoadBundle]. *)
Lemma LoadBundle_outcome (bundlePath : string) :
  ((exists bundle, LoadBundle bundlePath = (Some bundle, None)) \/
   (exists err, LoadBundle bundlePath = (None, Some err))) /\
  (RootMissing bundlePath \/ ManifestsMissing bundlePath \/
   AnnotationsUnparsable bundlePath \/ ManifestUnparsable bundlePath ->
   exists err, LoadBundle bundlePath = (None, Some err)) /\
  (forall bundle,
      LoadBundle bundlePath = (Some bundle, None) -> FullyLoaded bundlePath bundle).
Proof.
  unfold RootMissing, ManifestsMissing, AnnotationsUnparsable, ManifestUnparsable,
    FullyLoaded, annotationsOf, LoadBundle.
  assert (Hroot0 : rootOf bundlePath = fst (Abs bundlePath)) by reflexivity.
  assert (Hman0 : manifestsOf bundlePath = Join (rootOf bundlePath) "manifests")
    by reflexivity.
  destruct (Abs bundlePath) as [absPath [e|]]; cbn [fst snd] in Hroot0.
  { split; [right; eauto | split; [eauto | discriminate]]. }
  rewrite Hroot0 in *. clear Hroot0.
  destruct (isNotExist (Stat absPath)) eqn:Hroot.
  { split; [right; eauto | split; [eauto | discriminate]]. }
  set (bundle0 := Bundle.mk absPath (Join absPath "manifests") (Join absPath "metadata")
                    None [] [] None).
  destruct (loadAnnotations_result bundle0) as [Hann Hannerr]. cbv zeta in Hann, Hannerr.
  destruct (loadAnnotations bundle0) as [bundle1 [e|]]; cbn [fst snd] in *.
  { split; [right; eauto | split; [eauto | discriminate]]. }
  destruct (Hann eq_refl) as [Hp1 [Hmp1 [Hmd1 [Hcsv1 [Hcrd1 Hoth1]]]]].
  cbn [bundle0 Bundle.Path Bundle.ManifestsPath Bundle.MetadataPath Bundle.CSV
       Bundle.CRDs Bundle.OtherResources] in *.
  assert (Hpath : Bundle.ManifestsPath bundle1 = manifestsOf bundlePath) by congruence.
  pose proof (loadManifestFiles_error bundlePath
                (fst (ReadDir (manifestsOf bundlePath))) bundle1 Hpath) as Herr.
  pose proof (loadManifestFiles_success bundlePath
                (fst (ReadDir (manifestsOf bundlePath))) bundle1 Hpath) as Hsucc.
  cbv zeta in Hsucc.
  unfold loadManifests. rewrite Hpath.
  destruct (isNotExist (Stat (manifestsOf bundlePath))) eqn:Hman.
  { split; [right; eauto | split; [eauto | discriminate]]. }
  destruct (ReadDir (manifestsOf bundlePath)) as [files [e|]]; cbn [fst snd] in *.
  { split; [right; eauto | split; [eauto | discriminate]]. }
  destruct (loadManifestFiles files bundle1) as [bundle2 [e|]]; cbn [fst snd] in *.
  { split; [right; eauto | split; [eauto | discriminate]]. }
  split; [left; eauto|]. split.
  - intros [Hr | [Hm | [[Hex Hun] | [file [Hin [Hf Hun]]]]]]; exfalso.
    + congruence.
    + congruence.
    + now apply (Hannerr Hex Hun).
    + destruct (proj1 Herr eq_refl file Hin Hf) as [_ Hn]. contradiction.
  - intros bundle Heq. injection Heq as <-.
    destruct (Hsucc eq_refl) as [Hp2 [Hmp2 [Hmd2 [_ [Hnil [Hlc [Hlo Hcsv]]]]]]].
    refine (conj _ (conj _ (conj _ (conj _ (conj _ (conj _ (conj _ _))))))); try congruence.
    + apply Hnil. unfold NoNilEntry. rewrite Hcrd1, Hoth1. split; constructor.
    + apply (proj1 Herr eq_refl).
    + rewrite Hlc, Hcrd1. reflexivity.
    + rewrite Hlo, Hoth1. reflexivity.
    + rewrite Hcsv, Hcsv1. split; [intros [[x Hx] | Hf]; [discriminate | exact Hf] | tauto].
Qed.

End Loading.


(* ===================================================================== *)
(** * No rule faults on a loaded bundle *)
(* ===================================================================== *)

Section NeverFaults.
Import rules registry.
Context `{tables : UnicodeTables}.

Lemma forRange_Ok {A S : Type} (l : list A) (body : S -> A -> Res S) :
  Forall (fun x => forall s, exists s', body s x = Ok s') l ->
  forall s, exists s', forRange l body s = Ok s'.
Proof.
  induction 1 as [|x l Hx _ IH]; intros s; cbn [forRange]; [eauto|].
  destruct (Hx s) as [s' ->]. cbn [bindRes]. apply IH.
Qed.

(** A loop over present resources that appends at most one violation per
    resource. *)
Lemma resource_loop_Ok (resources : list (option Resource.t))
    (step : list Violation -> Resource.t -> Res (list Violation)) :
  Forall is_Some resources ->
  (forall violations resource, exists violations', step violations resource = Ok violations') ->
  forall acc,
    exists violations,
      forRange resources (fun violations p => resource <-! deref p ; step violations resource) acc =
      Ok violations.
Proof.
  intros Hsome Hstep. apply forRange_Ok.
  eapply List.Forall_impl; [|exact Hsome]. intros p [resource ->] s. cbn. apply Hstep.
Qed.

Lemma PDBMaxUnavailable_Ok (bundle : Bundle) :
  NoNilEntry bundle -> exists vs, PDBMaxUnavailableRule.Validate bundle = Ok vs.
Proof.
  intros [_ Hres]. unfold PDBMaxUnavailableRule.Validate.
  apply (resource_loop_Ok _
           (fun violations resource =>
              if negb (String.eqb (Resource.Kind resource) "PodDisruptionBudget")
              then Ok violations
              else match Resource.Spec resource !! "maxUnavailable" with
                   | Some maxUnav =>
                       if PDBMaxUnavailableRule.isZeroValue maxUnav
                       then Ok (violations ++ [PDBMaxUnavailableRule.violation resource])
                       else Ok violations
                   | None => Ok violations
                   end) Hres).
  intros violations resource.
  repeat match goal with
         | |- context [if ?b then _ else _] => destruct b
         | |- context [match ?o with Some _ => _ | None => _ end] => destruct o
         end; eauto.
Qed.

Lemma PDBMinAvailable_Ok (bundle : Bundle) :
  NoNilEntry bundle -> exists vs, PDBMinAvailableRule.Validate bundle = Ok vs.
Proof.
  intros [_ Hres]. unfold PDBMinAvailableRule.Validate.
  apply (resource_loop_Ok _
           (fun violations resource =>
              if negb (String.eqb (Resource.Kind resource) "PodDisruptionBudget")
              then Ok violations
              else match Resource.Spec resource !! "minAvailable" with
                   | Some minAvail =>
                       if PDBMinAvailableRule.isHundredPercent minAvail
                       then Ok (violations ++ [PDBMinAvailableRule.violation resource])
                       else Ok violations
                   | None => Ok violations
                   end) Hres).
  intros violations resource.
  repeat match goal with
         | |- context [if ?b then _ else _] => destruct b
         | |- context [match ?o with Some _ => _ | None => _ end] => destruct o
         end; eauto.
Qed.

Lemma PriorityClassGlobalDefault_Ok (bundle : Bundle) :
  NoNilEntry bundle -> exists vs, PriorityClassGlobalDefaultRule.Validate bundle = Ok vs.
Proof.
  intros [_ Hres]. unfold PriorityClassGlobalDefaultRule.Validate.
  apply (resource_loop_Ok _
           (fun violations resource =>
              if negb (String.eqb (Resource.Kind resource) "PriorityClass")
              then Ok violations
              else match Resource.Spec resource !! "globalDefault" with
                   | Some globalDefault =>
                       if PriorityClassGlobalDefaultRule.isTrueValue globalDefault
                       then Ok (violations ++ [PriorityClassGlobalDefaultRule.violation resource])
                       else Ok violations
                   | None => Ok violations
                   end) Hres).
  intros violations resource.
  repeat match goal with
         | |- context [if ?b then _ else _] => destruct b
         | |- context [match ?o with Some _ => _ | None => _ end] => destruct o
         end; eauto.
Qed.

Lemma ConversionPreserveUnknownFields_Ok (bundle : Bundle) :
  NoNilEntry bundle -> exists vs, ConversionPreserveUnknownFieldsRule.Validate bundle = Ok vs.
Proof.
  intros [Hcrds _]. unfold ConversionPreserveUnknownFieldsRule.Validate. cbv zeta.
  destruct (Bundle.CSV bundle) as [csv|]; [|eauto].
  destruct (size _ =? 0)%nat; [eauto|].
  apply forRange_Ok. eapply List.Forall_impl; [|exact Hcrds].
  intros p [crd ->] s. cbn [deref bindRes].
  repeat match goal with
         | |- context [if ?b then _ else _] => destruct b
         | |- context [match ?o with Some _ => _ | None => _ end] => destruct o
         end; eauto.
Qed.

Lemma GetAllRules_Ok (bundle : Bundle) :
  NoNilEntry bundle ->
  Forall (fun rule => exists vs, Rule.Validate rule bundle = Ok vs) GetAllRules.
Proof.
  intros Hnil. unfold GetAllRules. repeat constructor; cbn [Rule.Validate].
  - unfold MinKubeVersionRule.Validate.
    destruct (Bundle.CSV bundle); [destruct (String.eqb _ _)|]; eauto.
  - unfold WebhookOperatorResourcesRule.Validate. destruct (Bundle.CSV bundle); eauto.
  - unfold ConversionWebhookAllNamespacesRule.Validate. cbv zeta.
    destruct (Bundle.CSV bundle); [|eauto].
    destruct (negb _); [eauto|]. destruct (negb _); eauto.
  - now apply PDBMaxUnavailable_Ok.
  - now apply PDBMinAvailable_Ok.
  - now apply PriorityClassGlobalDefault_Ok.
  - unfold ChannelNamingRule.Validate. destruct (Bundle.Annotations bundle); eauto.
  - now apply ConversionPreserveUnknownFields_Ok.
Qed.

Lemma ValidateBundle_Ok (bundle : Bundle) (rules : list Rule) :
  Forall (fun rule => exists vs, Rule.Validate rule bundle = Ok vs) rules ->
  exists vs, ValidateBundle bundle rules = Ok vs.
Proof.
  intros Hall. unfold ValidateBundle. apply forRange_Ok.
  eapply List.Forall_impl; [|exact Hall]. intros rule [vs Hvs] s. rewrite Hvs. cbn. eauto.
Qed.

Lemma LoaderAccepted_NoNilEntry (bundle : Bundle) :
  LoaderAccepted bundle -> NoNilEntry bundle.
Proof.
  intros [os [yaml [bundlePath Hload]]].
  destruct (LoadBundle_outcome (os := os) (yaml := yaml) bundlePath) as [_ [_ Hfull]].
  destruct (Hfull bundle Hload) as [_ [_ [_ [Hnil _]]]]. exact Hnil.
Qed.

(** C9. On a bundle without a primary resource every rule that reads the
    primary resource returns the empty list. On a bundle that the loader
    accepted no rule faults, and neither does the run of any selection
    of rules; on the bundle with no primary resource, no auxiliary
    resource, no annotations and no generic resource every rule returns
    the empty list. *)
Theorem Validate_treats_absence_as_nothing_to_check (bundle : Bundle) :
  (Bundle.CSV bundle = None ->
   Forall (fun validate => validate bundle = Ok []) csvRules) /\
  (LoaderAccepted bundle ->
   Forall (fun rule => exists vs, Rule.Validate rule bundle = Ok vs) GetAllRules /\
   (forall rules, incl rules GetAllRules -> exists vs, ValidateBundle bundle rules = Ok vs)) /\
  (Bundle.CSV bundle = None -> Bundle.CRDs bundle = [] ->
   Bundle.OtherResources bundle = [] -> Bundle.Annotations bundle = None ->
   Forall (fun rule => Rule.Validate rule bundle = Ok []) GetAllRules).
Proof.
  split; [|split].
  - intros Hcsv. unfold csvRules. repeat constructor.
    + unfold MinKubeVersionRule.Validate. now rewrite Hcsv.
    + unfold WebhookOperatorResourcesRule.Validate. now rewrite Hcsv.
    + unfold ConversionWebhookAllNamespacesRule.Validate. now rewrite Hcsv.
    + unfold ConversionPreserveUnknownFieldsRule.Validate. now rewrite Hcsv.
  - intros Hacc. apply LoaderAccepted_NoNilEntry in Hacc.
    pose proof (GetAllRules_Ok bundle Hacc) as Hall. split; [exact Hall|].
    intros rules Hincl. apply ValidateBundle_Ok.
    apply List.Forall_forall. intros rule Hin.
    apply (proj1 (List.Forall_forall _ _) Hall). now apply Hincl.
  - intros Hcsv Hcrds Hres Hann. unfold GetAllRules. repeat constructor; cbn [Rule.Validate].
    + unfold MinKubeVersionRule.Validate. now rewrite Hcsv.
    + unfold WebhookOperatorResourcesRule.Validate. now rewrite Hcsv.
    + unfold ConversionWebhookAllNamespacesRule.Validate. now rewrite Hcsv.
    + unfold PDBMaxUnavailableRule.Validate. now rewrite Hres.
    + unfold PDBMinAvailableRule.Validate. now rewrite Hres.
    + unfold PriorityClassGlobalDefaultRule.Validate. now rewrite Hres.
    + unfold ChannelNamingRule.Validate. now rewrite Hann.
    + unfold ConversionPreserveUnknownFieldsRule.Validate. now rewrite Hcsv.
Qed.
End NeverFaults.

(** The instance of C9 at the bundle loaded from [/empty], which has no
    primary resource, no auxiliary resource, no annotations and no
    generic resource: the run of all rules returns. *)
Lemma Validate_treats_absence_as_nothing_to_check_witness :
  LoaderAccepted (emptyBundle "/empty" "/empty/manifests" "/empty/metadata") /\
  exists vs,
    registry.ValidateBundle (emptyBundle "/empty" "/empty/manifests" "/empty/metadata")
      (registry.GetAllRules (tables := asciiTables)) = Ok vs.
Proof.
  assert (Hacc : LoaderAccepted (emptyBundle "/empty" "/empty/manifests" "/empty/metadata")).
  { exists testOS, rejectingYAML, "/empty". reflexivity. }
  split; [exact Hacc|].
  apply (proj2 (proj1 (proj2 (Validate_treats_absence_as_nothing_to_check
                                (tables := asciiTables)
                                (emptyBundle "/empty" "/empty/manifests" "/empty/metadata")))
                  Hacc)).
  intros rule Hin. exact Hin.
Defined.

(* ===================================================================== *)
(** * sort.Slice permutes the slice *)
(* ===================================================================== *)

Section SlicePermutes.
Context {A : Type}.

Lemma insert_head_Permutation (x : list A) (j : nat) (y a : A) :
  x !! j = Some y -> Permutation (y :: <[j := a]> x) (a :: x).
Proof.
  revert j. induction x as [|b x IH]; intros [|j] Hj; cbn in *; try discriminate.
  - injection Hj as ->. apply perm_swap.
  - etransitivity; [apply perm_swap|].
    etransitivity; [apply perm_skip, IH, Hj|]. apply perm_swap.
Qed.

Lemma swap_Permutation (x : list A) (i j : nat) : Permutation (sort.swap x i j) x.
Proof.
  unfold sort.swap.
  destruct (x !! i) as [xi|] eqn:Hi; [|reflexivity].
  destruct (x !! j) as [xj|] eqn:Hj; [|reflexivity].
  revert i j Hi Hj. induction x as [|a x IH]; intros [|i] [|j] Hi Hj; cbn in *;
    try discriminate.
  - injection Hi as ->. injection Hj as ->. reflexivity.
  - injection Hi as ->. now apply insert_head_Permutation.
  - injection Hj as ->. now apply insert_head_Permutation.
  - apply perm_skip. now apply IH.
Qed.

Lemma exec_Permutation (less : list A -> nat -> nat -> bool) (p : sort.Prog) (x : list A) :
  Permutation (sort.exec less p x) x.
Proof.
  revert x. induction p as [|i j k IH|i j k IH]; intros x; cbn [sort.exec].
  - reflexivity.
  - etransitivity; [apply IH | apply swap_Permutation].
  - apply IH.
Qed.

Lemma Slice_Permutation `{alg : sort.Algorithm} (x : list A) (less : list A -> nat -> nat -> bool) :
  Permutation (sort.Slice x less) x.
Proof. apply exec_Permutation. Qed.
End SlicePermutes.

Section ReportPermutes.
Import rules reporter.
Context `{alg : sort.Algorithm} {W : Type} `{wr : Writer W}.

Lemma reported_Permutation (r : Reporter) (violations : list Violation) :
  Permutation (reported r violations) violations.
Proof.
  unfold reported, Report.
  destruct (length violations =? 0)%nat.
  - destruct (Fprintln (writer r) _). reflexivity.
  - destruct (countBySeverity _) as [[e w] i]. cbn [fst snd]. apply Slice_Permutation.
Qed.

(** C10. [Report] leaves in the slice the violations it was given, each
    as it was, in a new order: the list after [Report] is a permutation
    of the list before, and every violation value occurs in it as many
    times as before, whatever the sorting function does for long slices
    and whatever the writer does. *)
Theorem Report_permutes_violations :
  forall (r : Reporter) (violations : list Violation),
    Permutation violations (reported r violations) /\
    (forall v : Violation,
        count_occ Violation_eq_dec (reported r violations) v =
        count_occ Violation_eq_dec violations v).
Proof.
  intros r violations.
  pose proof (reported_Permutation r violations) as Hperm.
  split; [now symmetry|].
  intros v. now apply Permutation_count_occ.
Qed.
End ReportPermutes.

(* ===================================================================== *)
(** * Insertion sort, as sort.Slice runs it on short slices *)
(* ===================================================================== *)

Section InsertionSort.
Context {A : Type} (lt : A -> A -> bool).

Lemma swap_cons (a : A) (x : list A) (i j : nat) :
  sort.swap (a :: x) (S i) (S j) = a :: sort.swap x i j.
Proof.
  unfold sort.swap. cbn [lookup list_lookup].
  change ((a :: x) !! S i) with (x !! i). change ((a :: x) !! S j) with (x !! j).
  destruct (x !! i), (x !! j); reflexivity.
Qed.

Lemma swap_adjacent (l1 : list A) (a b : A) (l2 : list A) :
  sort.swap (l1 ++ a :: b :: l2) (S (length l1)) (length l1) = l1 ++ b :: a :: l2.
Proof.
  induction l1 as [|c l1 IH]; [reflexivity|].
  cbn [app length]. rewrite swap_cons, IH. reflexivity.
Qed.

Lemma byIndex_adjacent (l1 : list A) (a b : A) (l2 : list A) :
  byIndex lt (l1 ++ a :: b :: l2) (S (length l1)) (length l1) = lt b a.
Proof.
  unfold byIndex.
  rewrite (list_lookup_middle l1 (b :: l2) a (length l1) eq_refl).
  replace (l1 ++ a :: b :: l2) with ((l1 ++ [a]) ++ b :: l2)
    by (now rewrite <- app_assoc).
  rewrite (list_lookup_middle (l1 ++ [a]) l2 b (S (length l1)));
    [reflexivity | rewrite length_app; cbn; lia].
Qed.

Lemma length_insertRev (v : A) (rpre : list A) :
  length (insertRev lt v rpre) = S (length rpre).
Proof.
  induction rpre as [|y r IH]; cbn [insertRev]; [reflexivity|].
  destruct (lt v y); cbn [length]; [now rewrite IH | reflexivity].
Qed.

Lemma insertRev_Permutation (v : A) (rpre : list A) :
  Permutation (insertRev lt v rpre) (v :: rpre).
Proof.
  induction rpre as [|y r IH]; cbn [insertRev]; [reflexivity|].
  destruct (lt v y); [|reflexivity].
  etransitivity; [apply perm_skip, IH | apply perm_swap].
Qed.

(** The inner loop moves [x[j]] down into the sorted prefix. *)
Lemma exec_insertionInner (v : A) (rpre post : list A) (k : sort.Prog) :
  sort.exec (byIndex lt) (sort.insertionInner 0 (length rpre) k) (rev rpre ++ v :: post) =
  sort.exec (byIndex lt) k (rev (insertRev lt v rpre) ++ post).
Proof.
  revert post. induction rpre as [|y r IH]; intros post; [reflexivity|].
  cbn [length sort.insertionInner Nat.ltb Nat.leb sort.exec rev insertRev].
  replace ((rev r ++ [y]) ++ v :: post) with (rev r ++ y :: v :: post)
    by (now rewrite <- app_assoc).
  rewrite <- (length_rev r).
  rewrite byIndex_adjacent.
  destruct (lt v y); cbn [sort.exec rev].
  - rewrite swap_adjacent. rewrite (length_rev r), IH, <- app_assoc. reflexivity.
  - rewrite <- !app_assoc. reflexivity.
Qed.

(** The outer loop inserts the elements of [rest] one after the other. *)
Lemma exec_insertionOuter (rest rpre : list A) :
  sort.exec (byIndex lt)
    (sort.insertionOuter 0 (length rpre + length rest) (length rpre) (length rest))
    (rev rpre ++ rest) =
  rev (fold_left (fun acc v => insertRev lt v acc) rest rpre).
Proof.
  revert rpre. induction rest as [|v rest IH]; intros rpre;
    cbn [length sort.insertionOuter sort.exec fold_left].
  - now rewrite app_nil_r.
  - destruct (length rpre <? length rpre + S (length rest))%nat eqn:Hlt;
      [|apply Nat.ltb_ge in Hlt; lia].
    rewrite exec_insertionInner.
    specialize (IH (insertRev lt v rpre)). rewrite length_insertRev in IH.
    replace (length rpre + S (length rest))%nat with (S (length rpre) + length rest)%nat
      by lia.
    exact IH.
Qed.

Lemma exec_insertionSort (x : list A) :
  sort.exec (byIndex lt) (sort.insertionSort_func 0 (length x)) x = insertionSorted lt x.
Proof.
  unfold sort.insertionSort_func, insertionSorted.
  destruct x as [|a rest]; [reflexivity|].
  cbn [length fold_left insertRev Nat.add Nat.sub].
  rewrite Nat.sub_0_r.
  exact (exec_insertionOuter rest [a]).
Qed.

(** Insertion keeps a reversed prefix sorted. *)
Lemma insertRev_sorted (P : A -> Prop) (v : A) (rpre : list A) :
  StrictWeak P lt -> P v -> Forall P rpre ->
  StronglySorted (fun a b => lt a b = false) rpre ->
  StronglySorted (fun a b => lt a b = false) (insertRev lt v rpre).
Proof.
  intros [Hasym Hneg] Hv HP Hs. induction Hs as [|y r Hr IH Hy]; cbn [insertRev].
  - repeat constructor.
  - apply Forall_cons in HP as [Hy' HP]. specialize (IH HP).
    destruct (lt v y) eqn:Hvy.
    + constructor; [exact IH|].
      rewrite (insertRev_Permutation v r). constructor; [|exact Hy].
      now apply Hasym.
    + constructor; [now constructor|]. constructor; [exact Hvy|].
      rewrite List.Forall_forall in *. intros b Hb.
      apply (Hneg v y b); auto.
Qed.

Lemma insertionSorted_Permutation (x : list A) : Permutation (insertionSorted lt x) x.
Proof.
  unfold insertionSorted. rewrite <- Permutation_rev.
  assert (Hgen : forall acc, Permutation (fold_left (fun acc v => insertRev lt v acc) x acc)
                               (x ++ acc)).
  { induction x as [|v rest IH]; intros acc; cbn [fold_left app]; [reflexivity|].
    rewrite IH, insertRev_Permutation. symmetry. apply Permutation_middle. }
  rewrite Hgen, app_nil_r. reflexivity.
Qed.

Lemma insertionSorted_sorted (P : A -> Prop) (x : list A) :
  StrictWeak P lt -> Forall P x -> SortedBy lt (insertionSorted lt x).
Proof.
  intros Hsw HP. unfold SortedBy, insertionSorted.
  assert (Hgen : forall acc,
             Forall P acc -> StronglySorted (fun a b => lt a b = false) acc ->
             StronglySorted (fun a b => lt a b = false)
               (fold_left (fun acc v => insertRev lt v acc) x acc)).
  { induction HP as [|v rest Hv HP IH]; intros acc Hacc Hs; cbn [fold_left]; [exact Hs|].
    apply IH.
    - rewrite (insertRev_Permutation v acc). now constructor.
    - now apply (insertRev_sorted P). }
  specialize (Hgen [] (List.Forall_nil _) (SSorted_nil _)).
  revert Hgen. generalize (fold_left (fun acc v => insertRev lt v acc) x []).
  intros l Hl. induction Hl as [|a l Hl IH Ha]; cbn [rev]; [constructor|].
  apply StronglySorted_app_2; [|exact IH | repeat constructor].
  intros x1 x2 Hx1 Hx2. apply list_elem_of_singleton in Hx2 as ->.
  rewrite List.Forall_forall in Ha. apply Ha.
  apply in_rev. now apply list_elem_of_In.
Qed.
End InsertionSort.

(** Insertion sort at every length meets the contract for long slices. *)
Lemma insertionAlgorithm_sorts : SortsLargeSlices (alg := insertionAlgorithm).
Proof.
  intros A lt P x _ HP Hsw.
  change (sort.pdqsortLarge 0 (length x) (sort.bitsLen (length x)))
    with (sort.insertionSort_func 0 (length x)).
  rewrite exec_insertionSort. now apply (insertionSorted_sorted lt P).
Qed.

Section SliceSorts.
Context `{alg : sort.Algorithm} {A : Type}.

(** [sort.Slice] sorts, given the contract for long slices. *)
Lemma Slice_sorted (lt : A -> A -> bool) (P : A -> Prop) (x : list A) :
  SortsLargeSlices -> StrictWeak P lt -> Forall P x ->
  SortedBy lt (sort.Slice x (byIndex lt)).
Proof.
  intros Hlarge Hsw HP. unfold sort.Slice, sort.pdqsort_func. cbv zeta.
  rewrite Nat.sub_0_r.
  destruct (length x <=? sort.maxInsertion)%nat eqn:Hlen.
  - rewrite exec_insertionSort. now apply (insertionSorted_sorted lt P).
  - apply Nat.leb_gt in Hlen. now apply (Hlarge A lt P x).
Qed.
End SliceSorts.

(* ===================================================================== *)
(** * The order of the report *)
(* ===================================================================== *)

Section StringOrder.

Lemma ascii_compare_refl (c : ascii) : Ascii.compare c c = Eq.
Proof. apply N.compare_refl. Qed.

Lemma string_compare_refl (s : string) : String.compare s s = Eq.
Proof.
  induction s as [|c s IH]; [reflexivity|]. cbn. now rewrite ascii_compare_refl.
Qed.

Lemma string_compare_trans (a b c : string) :
  String.compare a b = Lt -> String.compare b c = Lt -> String.compare a c = Lt.
Proof.
  revert b c. induction a as [|x a IH]; intros [|y b] [|z c]; cbn; try congruence.
  destruct (Ascii.compare x y) eqn:Hxy, (Ascii.compare y z) eqn:Hyz; try congruence.
  - apply Ascii.compare_eq_iff in Hxy as ->. apply Ascii.compare_eq_iff in Hyz as ->.
    rewrite ascii_compare_refl. apply IH.
  - apply Ascii.compare_eq_iff in Hxy as ->. now rewrite Hyz.
  - apply Ascii.compare_eq_iff in Hyz as <-. now rewrite Hxy.
  - intros _ _. unfold Ascii.compare in *.
    rewrite N.compare_lt_iff in Hxy, Hyz.
    assert (Hxz : (N_of_ascii x ?= N_of_ascii z)%N = Lt) by (apply N.compare_lt_iff; lia).
    now rewrite Hxz.
Qed.

Lemma ltb_irrefl (s : string) : String.ltb s s = false.
Proof. unfold String.ltb. now rewrite string_compare_refl. Qed.

Lemma ltb_trans (a b c : string) :
  String.ltb a b = true -> String.ltb b c = true -> String.ltb a c = true.
Proof.
  unfold String.ltb.
  destruct (String.compare a b) eqn:Hab; try discriminate.
  destruct (String.compare b c) eqn:Hbc; try discriminate.
  now rewrite (string_compare_trans a b c Hab Hbc).
Qed.

Lemma ltb_asym (a b : string) : String.ltb a b = true -> String.ltb b a = false.
Proof.
  intros Hab. destruct (String.ltb b a) eqn:Hba; [|reflexivity].
  pose proof (ltb_trans a b a Hab Hba) as Haa. rewrite ltb_irrefl in Haa. discriminate.
Qed.

Lemma ltb_total (a b : string) :
  String.ltb a b = true \/ a = b \/ String.ltb b a = true.
Proof.
  unfold String.ltb. rewrite (String.compare_antisym b a).
  destruct (String.compare a b) eqn:Hab; cbn; auto.
  right. left. now apply String.compare_eq_iff.
Qed.
End StringOrder.

(** Closes a goal that is a nest of alternatives over the three keys. *)
Ltac order_close :=
  solve [ eapply ltb_trans; eassumption
        | congruence
        | lia
        | left; order_close
        | right; split; [order_close | order_close]
        | right; order_close ].

Section ViolationOrder.
Import rules reporter.

Lemma rank_severity (a b : Violation) :
  KnownSeverity a -> KnownSeverity b ->
  (rank a = rank b <-> Violation.Severity a = Violation.Severity b).
Proof.
  unfold KnownSeverity, rank.
  intros [Ha | [Ha | Ha]] [Hb | [Hb | Hb]]; rewrite Ha, Hb; vm_compute;
    split; intros Heq; first [reflexivity | discriminate Heq].
Qed.

Lemma lessViolation_spec (a b : Violation) :
  KnownSeverity a -> KnownSeverity b -> (lessViolation a b = true <-> Less a b).
Proof.
  intros Ha Hb. pose proof (rank_severity a b Ha Hb) as Hrank.
  unfold lessViolation, Less. fold (rank a) (rank b).
  destruct (String.eqb (Violation.Severity a) (Violation.Severity b)) eqn:Hsev; cbn [negb].
  - apply String.eqb_eq in Hsev. apply Hrank in Hsev.
    destruct (String.eqb (Violation.File a) (Violation.File b)) eqn:Hfile; cbn [negb].
    + apply String.eqb_eq in Hfile. split.
      * intros Hr. right. auto.
      * intros [Hlt | [_ [Hf | [_ Hr]]]]; [lia | | exact Hr].
        rewrite Hfile, ltb_irrefl in Hf. discriminate.
    + apply String.eqb_neq in Hfile. split.
      * intros Hf. right. auto.
      * intros [Hlt | [_ [Hf | [Heq _]]]]; [lia | exact Hf | contradiction].
  - apply String.eqb_neq in Hsev. rewrite Z.ltb_lt. split.
    + intros Hlt. now left.
    + intros [Hlt | [Heq _]]; [exact Hlt | exfalso; apply Hsev, Hrank, Heq].
Qed.

Lemma Less_asym (a b : Violation) : Less a b -> ~ Less b a.
Proof.
  unfold Less.
  intros [Hr | [Hr [Hf | [Hf Hi]]]] [Hr' | [Hr' [Hf' | [Hf' Hi']]]]; try lia.
  - apply ltb_asym in Hf. congruence.
  - rewrite Hf', ltb_irrefl in Hf. discriminate.
  - rewrite Hf, ltb_irrefl in Hf'. discriminate.
  - apply ltb_asym in Hi. congruence.
Qed.

Lemma not_Less_Precedes (a b : Violation) : ~ Less b a <-> Precedes a b.
Proof.
  unfold Less, Precedes. split.
  - intros Hn.
    destruct (Z.lt_trichotomy (rank a) (rank b)) as [Hlt | [Heq | Hgt]];
      [exfalso; apply Hn; now left | | now left].
    right. split; [exact Heq|].
    destruct (ltb_total (Violation.File a) (Violation.File b)) as [Hf | [Hf | Hf]];
      [now left | | exfalso; apply Hn; right; split; [lia | now left]].
    right. split; [exact Hf|].
    destruct (ltb_total (Violation.RuleID a) (Violation.RuleID b)) as [Hi | [Hi | Hi]];
      [now left | now right |].
    exfalso. apply Hn. right. split; [lia|]. right. split; [congruence | exact Hi].
  - intros [Hr | [Hr [Hf | [Hf [Hi | Hi]]]]] [Hr' | [Hr' [Hf' | [Hf' Hi']]]]; try lia.
    + apply ltb_asym in Hf. congruence.
    + rewrite Hf', ltb_irrefl in Hf. discriminate.
    + rewrite Hf, ltb_irrefl in Hf'. discriminate.
    + apply ltb_asym in Hi. congruence.
    + rewrite Hf, ltb_irrefl in Hf'. discriminate.
    + rewrite Hi, ltb_irrefl in Hi'. discriminate.
Qed.

Lemma Precedes_trans (a b c : Violation) : Precedes a b -> Precedes b c -> Precedes a c.
Proof.
  unfold Precedes.
  intros [Hr | [Hr [Hf | [Hf [Hi | Hi]]]]] [Hr' | [Hr' [Hf' | [Hf' [Hi' | Hi']]]]];
    order_close.
Qed.

Lemma Precedes_antisym (a b : Violation) :
  Precedes a b -> Precedes b a ->
  rank a = rank b /\ Violation.File a = Violation.File b /\
  Violation.RuleID a = Violation.RuleID b.
Proof.
  intros Hab Hba. apply not_Less_Precedes in Hab, Hba. unfold Less in Hab, Hba.
  destruct (Z.lt_trichotomy (rank a) (rank b)) as [Hlt | [Heq | Hgt]];
    [exfalso; apply Hab; now left | | exfalso; apply Hba; now left].
  split; [exact Heq|].
  destruct (ltb_total (Violation.File a) (Violation.File b)) as [Hf | [Hf | Hf]];
    [exfalso; apply Hba; right; split; [lia | now left] |
    | exfalso; apply Hab; right; split; [lia | now left]].
  split; [exact Hf|].
  destruct (ltb_total (Violation.RuleID a) (Violation.RuleID b)) as [Hi | [Hi | Hi]];
    [exfalso; apply Hba; right; split; [lia | right; split; [congruence | exact Hi]]
    | exact Hi
    | exfalso; apply Hab; right; split; [lia | right; split; [congruence | exact Hi]]].
Qed.

Lemma lessViolation_StrictWeak : StrictWeak KnownSeverity lessViolation.
Proof.
  split.
  - intros a b Ha Hb Hab. apply (lessViolation_spec a b Ha Hb) in Hab.
    destruct (lessViolation b a) eqn:Hba; [|reflexivity].
    apply (lessViolation_spec b a Hb Ha) in Hba. now destruct (Less_asym a b Hab).
  - intros a b c Ha Hb Hc Hab Hbc.
    assert (Hpab : Precedes b a).
    { apply not_Less_Precedes. rewrite <- (lessViolation_spec a b Ha Hb). congruence. }
    assert (Hpbc : Precedes c b).
    { apply not_Less_Precedes. rewrite <- (lessViolation_spec b c Hb Hc). congruence. }
    pose proof (Precedes_trans c b a Hpbc Hpab) as Hpca.
    apply not_Less_Precedes in Hpca.
    destruct (lessViolation a c) eqn:Hac; [|reflexivity].
    apply (lessViolation_spec a c Ha Hc) in Hac. contradiction.
Qed.

Lemma SortedBy_Precedes (vs : list Violation) :
  Forall KnownSeverity vs -> SortedBy lessViolation vs -> StronglySorted Precedes vs.
Proof.
  intros Hk Hs. induction Hs as [|a l Hl IH Ha]; [constructor|].
  apply Forall_cons in Hk as [Hka Hk]. constructor; [now apply IH|].
  rewrite List.Forall_forall in *. intros b Hb.
  apply not_Less_Precedes. rewrite <- (lessViolation_spec b a (Hk b Hb) Hka).
  rewrite (Ha b Hb). discriminate.
Qed.
End ViolationOrder.

Section ReportOrder.
Import rules reporter.
Context `{alg : sort.Algorithm} {W : Type} `{wr : Writer W}.

Lemma reported_sorted (r : Reporter) (violations : list Violation) :
  SortsLargeSlices -> Forall KnownSeverity violations ->
  StronglySorted Precedes (reported r violations).
Proof.
  intros Hlarge Hknown.
  assert (Hk : Forall KnownSeverity (reported r violations)).
  { now rewrite (reported_Permutation r violations). }
  apply SortedBy_Precedes; [exact Hk|].
  unfold reported, Report.
  destruct (length violations =? 0)%nat eqn:Hlen.
  - destruct (Fprintln (writer r) _). cbn [fst snd].
    apply Nat.eqb_eq in Hlen. destruct violations; [constructor | discriminate].
  - destruct (countBySeverity _) as [[e w] i]. cbn [fst snd].
    change less with (byIndex lessViolation).
    now apply (Slice_sorted lessViolation KnownSeverity violations Hlarge
                 lessViolation_StrictWeak).
Qed.

(** C6, as amended. The list that [Report] leaves is a permutation of
    the violations it was given, ordered by severity descending, then by
    file path ascending, then by rule ID ascending. When no two different
    violations have the same severity, file and rule ID, the list is the
    same for every permutation of the input; violations that have all
    three in common are left in an order that follows from the order of
    the input. The severities are those of the rules, and the sorting
    function meets its contract on long slices. *)
Theorem Report_order (r : Reporter) (violations : list Violation) :
  SortsLargeSlices ->
  Forall KnownSeverity violations ->
  Permutation violations (reported r violations) /\
  StronglySorted Precedes (reported r violations) /\
  (NoTies violations ->
   forall (r' : Reporter) (violations' : list Violation),
     Permutation violations violations' ->
     reported r' violations' = reported r violations).
Proof.
  intros Hlarge Hknown. split; [|split].
  - symmetry. apply reported_Permutation.
  - now apply reported_sorted.
  - intros Hties r' violations' Hperm.
    assert (Hknown' : Forall KnownSeverity violations') by now rewrite <- Hperm.
    apply (StronglySorted_unique_strong Precedes).
    + intros x1 x2 Hx1 Hx2 H12 H21.
      rewrite (reported_Permutation r' violations'), <- Hperm in Hx1.
      rewrite (reported_Permutation r violations) in Hx2.
      apply list_elem_of_In in Hx1, Hx2.
      destruct (Precedes_antisym x1 x2 H12 H21) as [Hr [Hf Hi]].
      rewrite List.Forall_forall in Hknown.
      apply Hties; try assumption.
      now apply (rank_severity x1 x2 (Hknown x1 Hx1) (Hknown x2 Hx2)).
    + now apply reported_sorted.
    + now apply reported_sorted.
    + rewrite (reported_Permutation r' violations'),
        (reported_Permutation r violations). now symmetry.
Qed.
End ReportOrder.

(** C6, as stated, fails: the two violations of the rule ODH-OLM-002 on
    one webhook have the same severity, file and rule ID, and [Report]
    leaves them in the order it was given them. The two inputs are
    permutations of each other and the two reports differ. *)
Lemma Report_order_follows_input_order :
  Permutation [wildcardViolation; operatorGroupViolation]
    [operatorGroupViolation; wildcardViolation] /\
  reported (alg := insertionAlgorithm) (wr := bufferWriter) (reporter.New "")
    [wildcardViolation; operatorGroupViolation] =
  [wildcardViolation; operatorGroupViolation] /\
  reported (alg := insertionAlgorithm) (wr := bufferWriter) (reporter.New "")
    [operatorGroupViolation; wildcardViolation] =
  [operatorGroupViolation; wildcardViolation] /\
  [wildcardViolation; operatorGroupViolation] <>
  [operatorGroupViolation; wildcardViolation].
Proof.
  split; [apply perm_swap|]. split; [vm_compute; reflexivity|].
  split; [vm_compute; reflexivity | discriminate].
Qed.

(** The instance of the amended C6 at a warning followed by an error:
    the error comes first in the report. *)
Lemma Report_order_witness :
  reported (alg := insertionAlgorithm) (wr := bufferWriter) (reporter.New "")
    [warningViolation; wildcardViolation] =
  [wildcardViolation; warningViolation] /\
  StronglySorted Precedes
    (reported (alg := insertionAlgorithm) (wr := bufferWriter) (reporter.New "")
       [warningViolation; wildcardViolation]).
Proof.
  split; [vm_compute; reflexivity|].
  apply (Report_order (alg := insertionAlgorithm) (wr := bufferWriter) (reporter.New "")
           [warningViolation; wildcardViolation] insertionAlgorithm_sorts).
  apply List.Forall_cons; [right; left; reflexivity|].
  apply List.Forall_cons; [left; reflexivity | apply List.Forall_nil].
Defined.

(* ===================================================================== *)
(** * The exit status (odhlint-bundle) *)
(* ===================================================================== *)

Section ExitStatus.
Import rules reporter main.
Context `{alg : sort.Algorithm} {W : Type} `{wr : Writer W}.

Lemma hasErrors_spec (violations : list Violation) :
  hasErrors violations = true <->
  exists v, In v violations /\ Violation.Severity v = SeverityError.
Proof.
  unfold hasErrors. rewrite existsb_exists.
  split; intros [v [Hin Hv]]; exists v; (split; [exact Hin | now apply String.eqb_eq]).
Qed.

Lemma hasErrors_Permutation (l1 l2 : list Violation) :
  Permutation l1 l2 -> hasErrors l1 = hasErrors l2.
Proof.
  intros Hperm. apply eq_true_iff_eq. rewrite !hasErrors_spec.
  split; intros [v [Hin Hv]]; exists v; (split; [|exact Hv]).
  - now apply (Permutation_in _ Hperm).
  - now apply (Permutation_in _ (Permutation_sym Hperm)).
Qed.

(** Without an error-level violation the error count of the summary
    stays where it is. *)
Lemma summary_count (violations : list Violation) (errorCount warningCount : Z) :
  hasErrors violations = false ->
  fst (fold_left
         (fun '(errorCount, warningCount) v =>
            if String.eqb (Violation.Severity v) SeverityError
            then (errorCount + 1, warningCount)
            else if String.eqb (Violation.Severity v) SeverityWarning
            then (errorCount, warningCount + 1)
            else (errorCount, warningCount))
         violations (errorCount, warningCount)) = errorCount.
Proof.
  revert errorCount warningCount.
  induction violations as [|v violations IH]; intros e w Hno; [reflexivity|].
  cbn [hasErrors existsb] in Hno. apply orb_false_iff in Hno as [Hv Hno].
  cbn [fold_left]. rewrite Hv.
  destruct (String.eqb (Violation.Severity v) SeverityWarning); now apply IH.
Qed.

Lemma ReportSummary_no_error (r : Reporter) (violations : list Violation) :
  hasErrors violations = false -> snd (ReportSummary r violations) = None.
Proof.
  intros Hno. unfold ReportSummary.
  pose proof (summary_count violations 0 0 Hno) as Hcount.
  destruct (fold_left _ violations (0, 0)) as [errorCount warningCount].
  cbn [fst] in Hcount. subst errorCount. reflexivity.
Qed.

(** [Report] returns the error of its one write for the empty list,
    and nil for every other list. *)
Lemma Report_cases (r : Reporter) (violations : list Violation) :
  (violations = [] /\
   Report r violations =
   (New (fst (Fprintln (writer r) "✓ No issues found")), [],
    snd (Fprintln (writer r) "✓ No issues found"))) \/
  (violations <> [] /\ snd (Report r violations) = None).
Proof.
  unfold Report. destruct violations as [|v vs]; [left | right].
  - cbn [length Nat.eqb]. destruct (Fprintln (writer r) _). auto.
  - split; [discriminate|]. cbn [length Nat.eqb].
    destruct (countBySeverity _) as [[e w] i]. reflexivity.
Qed.
End ExitStatus.

Section ProcessExit.
Import rules reporter stdio main.
Context `{alg : sort.Algorithm} {F : Type} `{files : Files F}.

Lemma osExit_Exited (p : Process F) (code : Z) (s : F) (exitCode : Z) :
  osExit p code = Exited s exitCode -> p = Running s /\ exitCode = code.
Proof. destruct p as [s'|]; cbn; [intros [= -> ->]; auto | discriminate]. Qed.

(** The two ways in which the end of [main] gets to [os.Exit]: after a
    failed write of the success line, with 1, and after the summary,
    with 1 or 0 as the list has a violation of severity Error or has
    none. *)
Lemma reportAndExit_cases (p : Process F) (noWarnings : bool) (violations : list Violation) :
  (exists e,
      violations = [] /\
      snd (Fprintln (wr := Stdout) p "✓ No issues found") = Some e /\
      reportAndExit p noWarnings violations =
      osExit (fst (Fprintf (wr := Stderr)
                     (fst (Fprintln (wr := Stdout) p "✓ No issues found"))
                     ("Error reporting results: " +:+ loader.Error e +:+ newline))) 1) \/
  ((violations = [] -> snd (Fprintln (wr := Stdout) p "✓ No issues found") = None) /\
   exists q,
     reportAndExit p noWarnings violations =
     osExit q (if hasErrors violations then 1 else 0)).
Proof.
  unfold reportAndExit.
  pose proof (reported_Permutation (wr := Stdout) (New p) violations) as Hperm.
  unfold reported in Hperm.
  destruct (Report_cases (wr := Stdout) (New p) violations) as [[-> Hrep] | [Hne Hnil]].
  - rewrite Hrep. cbn [writer].
    destruct (snd (Fprintln (wr := Stdout) p "✓ No issues found")) as [e|] eqn:Hwrite.
    + left. exists e. auto.
    + right. split; [reflexivity|]. cbn [hasErrors existsb].
      destruct (ReportSummary _ []) as [rep' err'] eqn:Hsum.
      pose proof (ReportSummary_no_error (wr := Stdout)
                    (New (fst (Fprintln (wr := Stdout) p "✓ No issues found"))) []
                    eq_refl) as Hnone.
      rewrite Hsum in Hnone. cbn [snd] in Hnone. subst err'.
      exists (writer rep'). now destruct (negb noWarnings && hasWarnings []).
  - right. split; [contradiction|].
    destruct (Report (wr := Stdout) (New p) violations) as [[rep sorted] err].
    cbn [fst snd] in *. subst err.
    rewrite <- (hasErrors_Permutation _ _ Hperm).
    destruct (ReportSummary rep sorted) as [rep' err'] eqn:Hsum.
    exists (writer rep').
    destruct (hasErrors sorted) eqn:Herr.
    + now destruct err'.
    + pose proof (ReportSummary_no_error (wr := Stdout) rep sorted Herr) as Hnone.
      rewrite Hsum in Hnone. cbn [snd] in Hnone. subst err'.
      now destruct (negb noWarnings && hasWarnings sorted).
Qed.

(** C3, as amended. When the process reaches [os.Exit], the exit
    status is not zero exactly when the list has a violation of
    severity Error, or the list is empty and the write of the success
    line returns an error; and a list that is not empty and has
    warnings and infos only gives zero. *)
Theorem exit_status (p : Process F) (noWarnings : bool) (violations : list Violation)
    (s : F) (exitCode : Z) :
  reportAndExit p noWarnings violations = Exited s exitCode ->
  let hasError := exists v, In v violations /\ Violation.Severity v = SeverityError in
  let writeFailed :=
    violations = [] /\ snd (Fprintln (wr := Stdout) p "✓ No issues found") <> None in
  (exitCode <> 0 <-> hasError \/ writeFailed) /\
  (violations <> [] ->
   (forall v, In v violations ->
              Violation.Severity v = SeverityWarning \/ Violation.Severity v = SeverityInfo) ->
   exitCode = 0).
Proof.
  intros Hexit hasError writeFailed.
  pose proof (hasErrors_spec violations) as Hspec. fold hasError in Hspec.
  destruct (reportAndExit_cases p noWarnings violations)
    as [[e [Hnil [Hwrite Hrun]]] | [Hwritten [q Hrun]]];
    rewrite Hrun in Hexit; apply osExit_Exited in Hexit as [_ ->].
  - split.
    + split; [intros _; right; split; [exact Hnil | congruence] | discriminate].
    + intros Hne. contradiction.
  - destruct (hasErrors violations) eqn:Herr.
    + assert (Hex : hasError) by now apply Hspec.
      split; [split; [intros _; now left | discriminate]|].
      intros _ Hmild. destruct Hex as [v [Hin Hv]].
      destruct (Hmild v Hin) as [Hw | Hi]; rewrite Hv in *; discriminate.
    + split; [|reflexivity].
      split; [congruence|].
      intros [Hex | [Hnil Hfail]]; exfalso.
      * apply Hspec in Hex. discriminate.
      * now apply Hfail, Hwritten.
Qed.

Lemma reportAndExit_noWarnings (p : Process F) (violations : list Violation) :
  reportAndExit p true violations = reportAndExit p false violations.
Proof.
  unfold reportAndExit.
  destruct (Report (wr := Stdout) (New p) violations) as [[rep sorted] [e|]]; [reflexivity|].
  destruct (hasErrors sorted); [reflexivity|].
  cbn [negb andb]. destruct (hasWarnings sorted); reflexivity.
Qed.
End ProcessExit.

(** C3, as stated, fails: with no violation at all and the standard
    output on a full device, the write of the success line returns an
    error and the process exits with 1. *)
Lemma exit_status_of_failed_report :
  main.reportAndExit (alg := insertionAlgorithm) (files := fullDevice)
    (stdio.Running ("", "")) false [] =
  stdio.Exited ("", "Error reporting results: no space left on device" +:+ reporter.newline) 1 /\
  main.hasErrors [] = false.
Proof. split; reflexivity. Qed.

(** The instance of the amended C3 at a list with one warning, in a
    world where every write succeeds: the process exits with 0. *)
Lemma exit_status_witness :
  exists s,
    main.reportAndExit (alg := insertionAlgorithm) (files := bufferFiles)
      (stdio.Running ("", "")) false [warningViolation] = stdio.Exited s 0.
Proof.
  destruct (main.reportAndExit (alg := insertionAlgorithm) (files := bufferFiles)
              (stdio.Running ("", "")) false [warningViolation]) as [s exitCode|] eqn:Hrun;
    [|vm_compute in Hrun; discriminate].
  exists s. f_equal.
  apply (proj2 (exit_status (alg := insertionAlgorithm) (files := bufferFiles)
                  (stdio.Running ("", "")) false [warningViolation] s exitCode Hrun)).
  - discriminate.
  - intros v [<- | []]. now left.
Defined.

(* ===================================================================== *)
(** * More on the string functions *)
(* ===================================================================== *)

Section StringFacts.
Import GoStrings.

Lemma string_cons_app (c : ascii) (a b : string) : String c a +:+ b = String c (a +:+ b).
Proof. reflexivity. Qed.

Lemma string_app_assoc (a b c : string) : (a +:+ b) +:+ c = a +:+ (b +:+ c).
Proof.
  induction a as [|x a IH]; [reflexivity|].
  change (String x ((a +:+ b) +:+ c) = String x (a +:+ (b +:+ c))). now rewrite IH.
Qed.

Lemma string_app_nil_r (a : string) : a +:+ "" = a.
Proof.
  induction a as [|x a IH]; [reflexivity|].
  change (String x (a +:+ "") = String x a). now rewrite IH.
Qed.

Lemma rev_append_spec (s acc : string) : rev_append s acc = rev s +:+ acc.
Proof.
  unfold rev. revert acc. induction s as [|c s IH]; intros acc; cbn [rev_append]; [reflexivity|].
  rewrite (IH (String c acc)), (IH (String c "")), string_app_assoc. reflexivity.
Qed.

Lemma string_rev_cons (c : ascii) (s : string) : rev (String c s) = rev s +:+ String c "".
Proof. unfold rev at 1. cbn [rev_append]. apply rev_append_spec. Qed.

Lemma string_rev_app (a b : string) : rev (a +:+ b) = rev b +:+ rev a.
Proof.
  induction a as [|c a IH].
  - change ("" +:+ b) with b. now rewrite string_app_nil_r.
  - rewrite string_cons_app, !string_rev_cons, IH, string_app_assoc. reflexivity.
Qed.

Lemma string_rev_involutive (s : string) : rev (rev s) = s.
Proof.
  induction s as [|c s IH]; [reflexivity|].
  rewrite string_rev_cons, string_rev_app, IH. reflexivity.
Qed.

Lemma HasSuffix_spec (s suffix : string) :
  HasSuffix s suffix = true <-> exists pre : string, s = pre +:+ suffix.
Proof.
  unfold HasSuffix. rewrite HasPrefix_spec. split.
  - intros [post Hpost]. exists (rev post).
    rewrite <- (string_rev_involutive s), Hpost, string_rev_app, string_rev_involutive.
    reflexivity.
  - intros [pre ->]. exists (rev pre). apply string_rev_app.
Qed.

Lemma HasPrefix_empty (e : string) : HasPrefix "" e = true -> e = "".
Proof. destruct e; [reflexivity | discriminate]. Qed.

Lemma spaceWidth_None (encodings : list string) (s : string) :
  spaceWidth encodings s = None <-> forall e, In e encodings -> HasPrefix s e = false.
Proof.
  unfold spaceWidth. split.
  - intros Hnone e Hin. destruct (find (HasPrefix s) encodings) eqn:Hfind; [discriminate|].
    now apply (find_none _ _ Hfind).
  - intros Hall. destruct (find (HasPrefix s) encodings) as [e|] eqn:Hfind; [|reflexivity].
    apply find_some in Hfind as [Hin He]. rewrite (Hall e Hin) in He. discriminate.
Qed.

Lemma spaceWidth_Some_0 (encodings : list string) (s : string) :
  Forall (fun e => e <> "") encodings -> spaceWidth encodings s <> Some O.
Proof.
  intros Hne. unfold spaceWidth.
  destruct (find (HasPrefix s) encodings) as [e|] eqn:Hfind; [|discriminate].
  apply find_some in Hfind as [Hin _]. cbn. intros [= Hlen].
  apply (proj1 (List.Forall_forall _ _) Hne e Hin). now destruct e.
Qed.

(** What is left after trimming does not start with a white-space
    rune. *)
Lemma trimLeftFrom_trimmed (encodings : list string) (s : string) (skip : nat) :
  Forall (fun e => e <> "") encodings ->
  spaceWidth encodings (trimLeftFrom encodings skip s) = None.
Proof.
  intros Hne. revert skip. induction s as [|c s IH]; intros skip.
  - assert (Hempty : spaceWidth encodings "" = None).
    { apply spaceWidth_None. intros e Hin.
      destruct (HasPrefix "" e) eqn:He; [|reflexivity].
      apply HasPrefix_empty in He. subst e.
      exfalso. now apply (proj1 (List.Forall_forall _ _) Hne "" Hin). }
    destruct skip as [|skip]; cbn [trimLeftFrom]; [|exact Hempty].
    rewrite Hempty. exact Hempty.
  - destruct skip as [|skip]; cbn [trimLeftFrom]; [|apply IH].
    destruct (spaceWidth encodings (String c s)) as [[|w]|] eqn:Hw.
    + exfalso. now apply (spaceWidth_Some_0 encodings (String c s)).
    + apply IH.
    + exact Hw.
Qed.

Lemma trimLeftFrom_fixed (encodings : list string) (s : string) :
  spaceWidth encodings s = None -> trimLeftFrom encodings 0 s = s.
Proof. intros Hw. destruct s; cbn [trimLeftFrom]; now rewrite Hw. Qed.

Lemma trimLeftFrom_suffix (encodings : list string) (s : string) (skip : nat) :
  exists pre, s = pre +:+ trimLeftFrom encodings skip s.
Proof.
  revert skip. induction s as [|c s IH]; intros skip.
  - exists "". destruct skip; cbn [trimLeftFrom]; [|reflexivity].
    now destruct (spaceWidth encodings "") as [[|w]|].
  - destruct skip as [|skip]; cbn [trimLeftFrom].
    + destruct (spaceWidth encodings (String c s)) as [[|w]|]; try (now exists "").
      destruct (IH w) as [pre Hpre]. exists (String c pre). rewrite string_cons_app. congruence.
    + destruct (IH skip) as [pre Hpre]. exists (String c pre).
      rewrite string_cons_app. congruence.
Qed.

Lemma spaceEncodings_nonempty : Forall (fun e => e <> "") spaceEncodings.
Proof. unfold spaceEncodings. cbn [map bytes]. repeat constructor; discriminate. Qed.

Lemma rev_spaceEncodings_nonempty : Forall (fun e => e <> "") (map rev spaceEncodings).
Proof. unfold spaceEncodings. cbn [map bytes]. repeat constructor; discriminate. Qed.

Lemma TrimRightSpace_prefix (s : string) : exists post, s = TrimRightSpace s +:+ post.
Proof.
  unfold TrimRightSpace.
  destruct (trimLeftFrom_suffix (map rev spaceEncodings) (rev s) 0) as [pre Hpre].
  exists (rev pre). rewrite <- string_rev_app, <- Hpre. symmetry. apply string_rev_involutive.
Qed.

Lemma TrimRightSpace_idempotent (s : string) :
  TrimRightSpace (TrimRightSpace s) = TrimRightSpace s.
Proof.
  unfold TrimRightSpace. rewrite string_rev_involutive. f_equal.
  apply trimLeftFrom_fixed, trimLeftFrom_trimmed, rev_spaceEncodings_nonempty.
Qed.

(** A trimmed string is left as it is by [TrimSpace]. *)
Lemma TrimSpace_idempotent (s : string) : TrimSpace (TrimSpace s) = TrimSpace s.
Proof.
  unfold TrimSpace.
  assert (Hleft : TrimLeftSpace (TrimRightSpace (TrimLeftSpace s)) =
                  TrimRightSpace (TrimLeftSpace s)).
  { apply trimLeftFrom_fixed. apply spaceWidth_None. intros e Hin.
    destruct (HasPrefix (TrimRightSpace (TrimLeftSpace s)) e) eqn:He; [|reflexivity].
    apply HasPrefix_spec in He as [rest Hrest].
    destruct (TrimRightSpace_prefix (TrimLeftSpace s)) as [post Hpost].
    pose proof (trimLeftFrom_trimmed spaceEncodings s 0 spaceEncodings_nonempty) as Hnone.
    fold (TrimLeftSpace s) in Hnone.
    rewrite spaceWidth_None in Hnone. specialize (Hnone e Hin).
    assert (Htrue : HasPrefix (TrimLeftSpace s) e = true).
    { apply HasPrefix_spec. exists (rest +:+ post).
      rewrite Hpost at 1. rewrite Hrest, string_app_assoc. reflexivity. }
    congruence. }
  rewrite Hleft. apply TrimRightSpace_idempotent.
Qed.
End StringFacts.

(* ===================================================================== *)
(** * Loops that collect *)
(* ===================================================================== *)

Section Loops.

Lemma forRange_collect {A B : Type} (visit : A -> Res (list B)) (g : A -> list B)
    (l : list A) (acc : list B) :
  (forall n, In n l -> visit n = Ok (g n)) ->
  forRange l (fun reported n => ds <-! visit n ; Ok (reported ++ ds)) acc =
  Ok (acc ++ flat_map g l).
Proof.
  revert acc. induction l as [|n l IH]; intros acc Hall; cbn [forRange flat_map].
  - now rewrite app_nil_r.
  - rewrite (Hall n (or_introl eq_refl)). cbn [bindRes].
    rewrite IH by (intros m Hm; apply Hall; now right).
    now rewrite app_assoc.
Qed.

Lemma forRange_invariant {A S : Type} (P : S -> Prop) (l : list A) (body : S -> A -> Res S) :
  (forall s x s', P s -> body s x = Ok s' -> P s') ->
  forall s s', P s -> forRange l body s = Ok s' -> P s'.
Proof.
  intros Hstep. induction l as [|x l IH]; intros s s' Hs; cbn [forRange].
  - intros [= <-]. exact Hs.
  - destruct (body s x) as [s1|] eqn:Hbody; cbn [bindRes]; [|discriminate].
    apply IH. now apply (Hstep s x).
Qed.

Lemma fold_left_invariant {A S : Type} (P : S -> Prop) (l : list A) (step : S -> A -> S) :
  (forall s x, P s -> P (step s x)) -> forall s, P s -> P (fold_left step l s).
Proof.
  intros Hstep. induction l as [|x l IH]; intros s Hs; cbn [fold_left]; [exact Hs|].
  apply IH, Hstep, Hs.
Qed.

Lemma fold_left_collect {A B : Type} (g : A -> list B) (l : list A) (acc : list B) :
  fold_left (fun acc x => acc ++ g x) l acc = acc ++ flat_map g l.
Proof.
  revert acc. induction l as [|x l IH]; intros acc; cbn [fold_left flat_map].
  - now rewrite app_nil_r.
  - rewrite IH. now rewrite app_assoc.
Qed.

Lemma fold_left_agree {A B : Type} (f g : B -> A -> B) (l : list A) (acc : B) :
  (forall acc x, In x l -> f acc x = g acc x) ->
  fold_left f l acc = fold_left g l acc.
Proof.
  revert acc. induction l as [|x l IH]; intros acc Hext; cbn [fold_left]; [reflexivity|].
  rewrite (Hext acc x (or_introl eq_refl)). apply IH. intros a y Hy. apply Hext. now right.
Qed.

Lemma flat_map_nil_iff {A B : Type} (g : A -> list B) (l : list A) :
  flat_map g l = [] <-> forall x, In x l -> g x = [].
Proof.
  induction l as [|x l IH]; cbn [flat_map].
  - split; [intros _ x [] | reflexivity].
  - rewrite app_nil, IH. split.
    + intros [Hx Hl] y [<- | Hy]; auto.
    + intros Hall. split; [apply Hall; now left | intros y Hy; apply Hall; now right].
Qed.

Lemma Forall_flat_map_intro {A B : Type} (P : B -> Prop) (g : A -> list B) (l : list A) :
  (forall x, In x l -> Forall P (g x)) -> Forall P (flat_map g l).
Proof.
  induction l as [|x l IH]; intros Hall; cbn [flat_map]; [constructor|].
  apply Forall_app. split; [apply Hall; now left | apply IH; intros y Hy; apply Hall; now right].
Qed.

Lemma length_flat_map_le {A B C : Type} (g : A -> list B) (h : A -> list C) (k : nat)
    (l : list A) :
  (forall x, In x l -> (length (g x) <= k * length (h x))%nat) ->
  (length (flat_map g l) <= k * length (flat_map h l))%nat.
Proof.
  induction l as [|x l IH]; intros Hall; cbn [flat_map]; [cbn; lia|].
  rewrite !length_app.
  pose proof (Hall x (or_introl eq_refl)).
  pose proof (IH (fun y Hy => Hall y (or_intror Hy))). lia.
Qed.

Lemma length_flat_map_bound {A B : Type} (g : A -> list B) (k : nat) (l : list A) :
  (forall x, (length (g x) <= k)%nat) -> (length (flat_map g l) <= k * length l)%nat.
Proof.
  intros Hall. induction l as [|x l IH]; cbn [flat_map length]; [lia|].
  rewrite length_app. pose proof (Hall x). lia.
Qed.

Lemma Forall_append_one {A : Type} (P : A -> Prop) (l : list A) (x : A) :
  Forall P l -> P x -> Forall P (l ++ [x]).
Proof. intros Hl Hx. apply Forall_app. split; [exact Hl | now constructor]. Qed.




Lemma last_cons_option {A : Type} (x : A) (l : list A) :
  last (x :: l) = match last l with Some y => Some y | None => Some x end.
Proof.
  destruct l as [|y l]; [reflexivity|]. cbn [last].
  destruct (last (y :: l)) eqn:Hlast; [reflexivity|].
  apply last_None in Hlast. discriminate.
Qed.
End Loops.

(* ===================================================================== *)
(** * The run of the analyzer (errordemote) *)
(* ===================================================================== *)

Section RunOfThePass.
Import token ast errordemote.
Context `{tables : UnicodeTables}.

Lemma Preorder_nonempty (files : list ast.File) (n : Node) :
  In n (Preorder files) -> files <> [].
Proof. intros Hin ->. exact Hin. Qed.

Lemma visit_candidates (pass : Pass) (n : Node) :
  Files pass <> [] ->
  visit pass n =
  Ok (map diagnosticAt
        (List.filter (fun pos => negb (suppressed pass pos)) (candidatesAt n))).
Proof.
  intros Hne. destruct (Files pass) as [|file0 rest] eqn:Hfiles; [contradiction|].
  destruct n as [e|[]]; cbn [visit candidatesAt]; try reflexivity.
  destruct (isErrorDemotionPattern _); [|reflexivity].
  cbn [List.filter]. unfold suppressed, hasNolintComment, hasResilienceDoc.
  rewrite Hfiles.
  destruct (FileOf (Fset pass) If) as [file|]; cbn [deref bindRes lookup list_lookup];
    repeat match goal with |- context [existsb ?f ?l] => destruct (existsb f l) end;
    reflexivity.
Qed.

Lemma run_candidates (pass : Pass) :
  run pass =
  Ok (map diagnosticAt
        (List.filter (fun pos => negb (suppressed pass pos)) (candidates pass))).
Proof.
  unfold run, candidates.
  rewrite (forRange_collect (visit pass)
             (fun n => map diagnosticAt
                         (List.filter (fun pos => negb (suppressed pass pos))
                            (candidatesAt n)))).
  - cbn [app]. f_equal.
    induction (Preorder (Files pass)) as [|n l IH]; cbn [flat_map]; [reflexivity|].
    rewrite List.filter_app, map_app, IH. reflexivity.
  - intros n Hin. apply visit_candidates. now apply (Preorder_nonempty _ n).
Qed.

Lemma candidates_spec (pass : Pass) (pos : token.Pos) :
  In pos (candidates pass) <->
  exists init cond body els,
    In (NStmt (IfStmt pos init cond body els)) (Preorder (Files pass)) /\
    isErrorDemotionPattern (IfStmt pos init cond body els) = true.
Proof.
  unfold candidates. rewrite in_flat_map. split.
  - intros [n [Hin Hpos]]. destruct n as [e|[]]; cbn [candidatesAt] in Hpos;
      try contradiction.
    destruct (isErrorDemotionPattern _) eqn:Hp; [|contradiction].
    destruct Hpos as [<- | []]. eauto 10.
  - intros [init [cond [body [els [Hin Hp]]]]].
    exists (NStmt (IfStmt pos init cond body els)). split; [exact Hin|].
    cbn [candidatesAt]. rewrite Hp. now left.
Qed.

(** X1. The run of the analyzer never faults: it reads [pass.Files[0]]
    only for a node of a file of the pass. It reports, in the order of
    the visit, one diagnostic with the fixed message at each candidate
    that is not suppressed, and nothing else; the candidates are the
    if-statements of the files of the pass that match the pattern. *)
Theorem run_reports_unsuppressed_candidates :
  forall pass : Pass,
    run pass =
      Ok (map diagnosticAt
            (List.filter (fun pos => negb (suppressed pass pos)) (candidates pass))) /\
    (forall pos,
        In pos (candidates pass) <->
        exists init cond body els,
          In (NStmt (IfStmt pos init cond body els)) (Preorder (Files pass)) /\
          isErrorDemotionPattern (IfStmt pos init cond body els) = true) /\
    (forall pos, Message (diagnosticAt pos) = message /\ Pos (diagnosticAt pos) = pos).
Proof.
  intros pass. split; [apply run_candidates|]. split; [apply candidates_spec|].
  intros pos. split; reflexivity.
Qed.

Lemma Preorder_Decls (files files' : list ast.File) :
  map Decls files' = map Decls files -> Preorder files' = Preorder files.
Proof.
  revert files'. induction files as [|f files IH]; intros [|f' files'] Heq;
    try discriminate; [reflexivity|].
  cbn [map] in Heq. injection Heq as Hd Hrest.
  unfold Preorder in *. cbn [flat_map]. rewrite Hd. f_equal. now apply IH.
Qed.

Lemma suppressed_first_file (fset : FileSet) (f f' : ast.File) (rest rest' : list ast.File)
    (pos : token.Pos) :
  Comments f' = Comments f ->
  suppressed (mkPass fset (f' :: rest')) pos = suppressed (mkPass fset (f :: rest)) pos.
Proof.
  intros Hc. unfold suppressed, hasNolintComment, hasResilienceDoc.
  cbn [Fset Files lookup list_lookup deref bindRes]. now rewrite Hc.
Qed.

(** X2. The diagnostics of a pass depend on the file set, on the
    declarations of the files and on the comments of the first file,
    and on nothing else: two passes that agree on those report the
    same, whatever the comments of their other files are. *)
Theorem run_reads_comments_of_first_file_only (fset : FileSet)
    (files files' : list ast.File) :
  map Decls files' = map Decls files ->
  Comments <$> head files' = Comments <$> head files ->
  run (mkPass fset files') = run (mkPass fset files).
Proof.
  intros Hdecls Hcomments.
  destruct files as [|f rest], files' as [|f' rest']; try discriminate; [reflexivity|].
  cbn in Hcomments. injection Hcomments as Hc.
  rewrite !run_candidates. unfold candidates. cbn [Files].
  rewrite (Preorder_Decls _ _ Hdecls). do 2 f_equal.
  apply filter_ext. intros pos. f_equal. now apply suppressed_first_file.
Qed.


End RunOfThePass.

(** The instance of X2 at the package of [a.go] and [b.go]: without the
    directive of [b.go] the run reports the same. *)
Lemma run_reads_comments_of_first_file_only_witness :
  errordemote.run (tables := asciiTables)
    (errordemote.mkPass (errordemote.Fset twoFilePass)
       [astA; ast.mkFile (ast.Decls astB) []]) =
  errordemote.run (tables := asciiTables) twoFilePass.
Proof.
  apply (run_reads_comments_of_first_file_only (tables := asciiTables)
           (errordemote.Fset twoFilePass) [astA; astB]
           [astA; ast.mkFile (ast.Decls astB) []]); reflexivity.
Defined.


(* ===================================================================== *)
(** * The rules over the generic resources *)
(* ===================================================================== *)

Section ResourceScans.
Import rules.

(** The loop that the rules ODH-OLM-004, 005 and 006 share: it faults on
    a nil entry, and otherwise appends the violation of each flagged
    resource. *)
Lemma resource_scan (kind field : string) (test : Value -> bool)
    (violation : Resource.t -> Violation) (resources : list (option Resource.t))
    (acc : list Violation) :
  forRange resources
    (fun violations p =>
       resource <-! deref p ;
       if negb (String.eqb (Resource.Kind resource) kind)
       then Ok violations
       else
         match Resource.Spec resource !! field with
         | Some v =>
             if test v
             then Ok (violations ++ [ violation resource ])
             else Ok violations
         | None => Ok violations
         end)
    acc =
  if allPresent resources
  then Ok (acc ++ map violation (List.filter (flagged kind field test) (present resources)))
  else Panic.
Proof.
  unfold allPresent. revert acc. induction resources as [|[r|] resources IH]; intros acc;
    cbn [forRange forallb deref bindRes].
  - cbn. now rewrite app_nil_r.
  - rewrite bool_decide_eq_true_2 by eauto. cbn [andb].
    replace (present (Some r :: resources)) with (r :: present resources) by reflexivity.
    cbn [List.filter]. unfold flagged at 1.
    destruct (String.eqb (Resource.Kind r) kind); cbn [negb andb bindRes]; [|apply IH].
    destruct (Resource.Spec r !! field) as [v|]; cbn [bindRes]; [|apply IH].
    destruct (test v); cbn [bindRes]; [|apply IH].
    rewrite IH. destruct (forallb _ resources); [|reflexivity].
    cbn [map]. now rewrite <- app_assoc.
  - rewrite bool_decide_eq_false_2 by (intros [x Hx]; discriminate). reflexivity.
Qed.

Lemma allPresent_spec {A : Type} (l : list (option A)) :
  allPresent l = true <-> ~ In None l.
Proof.
  unfold allPresent. rewrite forallb_forall. split.
  - intros Hall Hin. specialize (Hall None Hin). apply bool_decide_eq_true in Hall.
    destruct Hall as [x Hx]. discriminate.
  - intros Hno [x|] Hin; [|contradiction]. apply bool_decide_eq_true. eauto.
Qed.

Lemma SFeqb_finite (m : positive) (e : Z) (f : spec_float) :
  SFeqb f (S754_finite false m e) = true <-> f = S754_finite false m e.
Proof.
  pose proof (Pos.compare_eq_iff) as Hpos. unfold Pos.compare in Hpos.
  split.
  - destruct f as [s|s| |s m' e']; cbv [SFeqb SFcompare];
      try discriminate; try (destruct s; discriminate).
    destruct s; [discriminate|].
    destruct (Z.compare_spec e' e) as [-> | |]; try discriminate.
    destruct (PosDef.Pos.compare_cont Eq m' m) eqn:Hm; try discriminate.
    apply Hpos in Hm as ->. reflexivity.
  - intros ->. cbv [SFeqb SFcompare]. rewrite Z.compare_refl.
    now rewrite (proj2 (Hpos m m) eq_refl).
Qed.

Lemma isHundredPercent_spec (v : Value) :
  PDBMinAvailableRule.isHundredPercent v = true <-> HundredValue v.
Proof.
  split.
  - destruct v as [|b|n|n|n|f|s|l|m]; cbn [PDBMinAvailableRule.isHundredPercent];
      try discriminate.
    + intros Hn. apply Z.eqb_eq in Hn as ->. constructor.
    + intros Hn. apply Z.eqb_eq in Hn as ->. constructor.
    + intros Hf. apply SFeqb_finite in Hf as ->. constructor.
    + cbv zeta. rewrite orb_true_iff, !String.eqb_eq. now constructor.
  - intros [| | |s Hs]; cbn [PDBMinAvailableRule.isHundredPercent].
    + reflexivity.
    + reflexivity.
    + now apply SFeqb_finite.
    + cbv zeta. now rewrite orb_true_iff, !String.eqb_eq.
Qed.

Lemma isTrueValue_spec (v : Value) :
  PriorityClassGlobalDefaultRule.isTrueValue v = true <-> TrueValue v.
Proof.
  split.
  - destruct v as [|b|n|n|n|f|s|l|m]; cbn [PriorityClassGlobalDefaultRule.isTrueValue];
      try discriminate.
    + intros ->. constructor.
    + rewrite !orb_true_iff, !String.eqb_eq. intros H. constructor. tauto.
  - intros [|s Hs]; cbn [PriorityClassGlobalDefaultRule.isTrueValue]; [reflexivity|].
    rewrite !orb_true_iff, !String.eqb_eq. tauto.
Qed.

Lemma flagged_spec (kind field : string) (test : Value -> bool) (P : Value -> Prop)
    (resource : Resource.t) :
  (forall v, test v = true <-> P v) ->
  flagged kind field test resource = true <->
  Resource.Kind resource = kind /\
  exists v, Resource.Spec resource !! field = Some v /\ P v.
Proof.
  intros Htest. unfold flagged. rewrite andb_true_iff, String.eqb_eq.
  destruct (Resource.Spec resource !! field) as [v|].
  - rewrite Htest. split.
    + intros [Hk Hz]. eauto.
    + intros [Hk [v' [Hv Hz]]]. injection Hv as <-. tauto.
  - split; [intros [_ Hf]; discriminate | intros [_ [v [Hv _]]]; discriminate].
Qed.

(** X6. The rule ODH-OLM-005 faults when an entry of the generic
    resources is nil. Otherwise it returns one violation for each
    resource of kind PodDisruptionBudget whose spec has a "minAvailable"
    field that is the integer 100, the float 100.0, or a string that is
    "100%" or "100" once trimmed, in the order of the resources, and
    nothing else; each of them has severity Error and names the file of
    its resource. *)
Theorem PDBMinAvailable_violations :
  forall bundle : Bundle,
    let full :=
      flagged "PodDisruptionBudget" "minAvailable" PDBMinAvailableRule.isHundredPercent in
    PDBMinAvailableRule.Validate bundle =
      (if allPresent (Bundle.OtherResources bundle)
       then Ok (map PDBMinAvailableRule.violation
                  (List.filter full (present (Bundle.OtherResources bundle))))
       else Panic) /\
    (allPresent (Bundle.OtherResources bundle) = true <->
     ~ In None (Bundle.OtherResources bundle)) /\
    (forall resource, full resource = true <-> FullBudget resource) /\
    (forall resource,
        Violation.File (PDBMinAvailableRule.violation resource) = Resource.FilePath resource /\
        Violation.Severity (PDBMinAvailableRule.violation resource) = SeverityError).
Proof.
  intros bundle. cbv zeta. refine (conj _ (conj _ (conj _ _))).
  - unfold PDBMinAvailableRule.Validate. apply resource_scan.
  - apply allPresent_spec.
  - intros resource. apply flagged_spec, isHundredPercent_spec.
  - intros resource. split; reflexivity.
Qed.

(** X7. The rule ODH-OLM-006 faults when an entry of the generic
    resources is nil. Otherwise it returns one violation for each
    resource of kind PriorityClass whose spec has a "globalDefault"
    field that is the boolean true or one of the strings "true", "True"
    and "TRUE" (not trimmed), in the order of the resources, and nothing
    else; each of them has severity Error and names the file of its
    resource. *)
Theorem PriorityClassGlobalDefault_violations :
  forall bundle : Bundle,
    let global :=
      flagged "PriorityClass" "globalDefault" PriorityClassGlobalDefaultRule.isTrueValue in
    PriorityClassGlobalDefaultRule.Validate bundle =
      (if allPresent (Bundle.OtherResources bundle)
       then Ok (map PriorityClassGlobalDefaultRule.violation
                  (List.filter global (present (Bundle.OtherResources bundle))))
       else Panic) /\
    (allPresent (Bundle.OtherResources bundle) = true <->
     ~ In None (Bundle.OtherResources bundle)) /\
    (forall resource, global resource = true <-> GlobalDefault resource) /\
    (forall resource,
        Violation.File (PriorityClassGlobalDefaultRule.violation resource) =
          Resource.FilePath resource /\
        Violation.Severity (PriorityClassGlobalDefaultRule.violation resource) =
          SeverityError).
Proof.
  intros bundle. cbv zeta. refine (conj _ (conj _ (conj _ _))).
  - unfold PriorityClassGlobalDefaultRule.Validate. apply resource_scan.
  - apply allPresent_spec.
  - intros resource. apply flagged_spec, isTrueValue_spec.
  - intros resource. split; reflexivity.
Qed.
End ResourceScans.

(* ===================================================================== *)
(** * The rules over the CSV, the CRDs and the annotations *)
(* ===================================================================== *)

Section CSVRules.
Import rules.
Context `{tables : UnicodeTables}.

Lemma WebhookOperatorResources_collect (bundle : Bundle) (csv : ClusterServiceVersion.t) :
  Bundle.CSV bundle = Some csv ->
  WebhookOperatorResourcesRule.Validate bundle =
  Ok (flat_map
        (fun webhook =>
           if isConversion webhook then []
           else flat_map (intercepted csv webhook) (WebhookDefinition.Rules webhook))
        (CSVSpec.WebhookDefinitions (ClusterServiceVersion.Spec csv))).
Proof.
  intros Hcsv. unfold WebhookOperatorResourcesRule.Validate. rewrite Hcsv. cbv zeta. f_equal.
  rewrite <- (app_nil_l (flat_map _ _)). rewrite <- fold_left_collect.
  apply fold_left_agree. intros acc webhook _. unfold isConversion.
  destruct (String.eqb (WebhookDefinition.Type_ webhook) "ConversionWebhook");
    [now rewrite app_nil_r|].
  rewrite <- fold_left_collect. apply fold_left_agree. intros acc' rule _.
  unfold intercepted.
  destruct (WebhookOperatorResourcesRule.containsWildcard _),
    (WebhookOperatorResourcesRule.containsOperatorGroup _),
    (WebhookOperatorResourcesRule.containsWebhookConfigResources _);
    cbn [app]; rewrite <- ?app_assoc, ?app_nil_r; reflexivity.
Qed.

Lemma existsb_eqb_In (x : string) (l : list string) :
  existsb (fun y => String.eqb y x) l = true <-> In x l.
Proof.
  rewrite existsb_exists. split.
  - intros [y [Hin Hy]]. apply String.eqb_eq in Hy as ->. exact Hin.
  - intros Hin. exists x. split; [exact Hin | apply String.eqb_refl].
Qed.

Lemma intercepted_nil (csv : ClusterServiceVersion.t) (webhook : WebhookDefinition.t)
    (rule : WebhookRule.t) :
  intercepted csv webhook rule = [] <-> ~ Intercepts rule.
Proof.
  unfold intercepted, Intercepts.
  pose proof (existsb_eqb_In "*" (WebhookRule.APIGroups rule)) as Hw.
  pose proof (existsb_eqb_In "operators.coreos.com" (WebhookRule.APIGroups rule)) as Ho.
  fold (WebhookOperatorResourcesRule.containsWildcard (WebhookRule.APIGroups rule)) in Hw.
  fold (WebhookOperatorResourcesRule.containsOperatorGroup (WebhookRule.APIGroups rule)) in Ho.
  assert (Hr : WebhookOperatorResourcesRule.containsWebhookConfigResources
                 (WebhookRule.Resources rule) = true <->
               exists r, In r (WebhookRule.Resources rule) /\
                         (GoStrings.ToLower r = "validatingwebhookconfigurations" \/
                          GoStrings.ToLower r = "mutatingwebhookconfigurations")).
  { unfold WebhookOperatorResourcesRule.containsWebhookConfigResources.
    rewrite existsb_exists. cbv zeta.
    split; intros [r [Hin Hr]]; exists r; (split; [exact Hin|]);
      rewrite orb_true_iff, !String.eqb_eq in *; exact Hr. }
  destruct (WebhookOperatorResourcesRule.containsWildcard _),
    (WebhookOperatorResourcesRule.containsOperatorGroup _),
    (WebhookOperatorResourcesRule.containsWebhookConfigResources _);
    cbn [app]; split; try discriminate; try tauto.
  - intros _ [H | [H | H]]; [apply Hw in H | apply Ho in H | apply Hr in H]; discriminate.
Qed.

Lemma intercepted_stamp (csv : ClusterServiceVersion.t) (webhook : WebhookDefinition.t)
    (rule : WebhookRule.t) :
  Forall (fun v => Violation.File v = ClusterServiceVersion.FilePath csv /\
                   Violation.Severity v = SeverityError)
    (intercepted csv webhook rule) /\
  (length (intercepted csv webhook rule) <= 3)%nat.
Proof.
  unfold intercepted.
  destruct (WebhookOperatorResourcesRule.containsWildcard _),
    (WebhookOperatorResourcesRule.containsOperatorGroup _),
    (WebhookOperatorResourcesRule.containsWebhookConfigResources _);
    cbn [app length]; split; try lia; repeat constructor.
Qed.

(** X4. On a bundle with a CSV the rule ODH-OLM-002 returns no
    violation exactly when no rule of a webhook that is not a conversion
    webhook lists the group "*", the group "operators.coreos.com", or a
    resource that is, in lower case, "validatingwebhookconfigurations"
    or "mutatingwebhookconfigurations". Every violation it returns has
    severity Error and names the file of the CSV, and there are at most
    three for each webhook rule. *)
Theorem WebhookOperatorResources_violations (bundle : Bundle) (csv : ClusterServiceVersion.t) :
  Bundle.CSV bundle = Some csv ->
  let webhooks := CSVSpec.WebhookDefinitions (ClusterServiceVersion.Spec csv) in
  exists vs,
    WebhookOperatorResourcesRule.Validate bundle = Ok vs /\
    (vs = [] <->
     forall webhook rule,
       In webhook webhooks ->
       WebhookDefinition.Type_ webhook <> "ConversionWebhook" ->
       In rule (WebhookDefinition.Rules webhook) ->
       ~ Intercepts rule) /\
    Forall (fun v => Violation.File v = ClusterServiceVersion.FilePath csv /\
                     Violation.Severity v = SeverityError) vs /\
    (length vs <= 3 * length (flat_map WebhookDefinition.Rules webhooks))%nat.
Proof.
  intros Hcsv webhooks. eexists. split; [apply (WebhookOperatorResources_collect _ _ Hcsv)|].
  fold webhooks. clearbody webhooks. clear Hcsv. refine (conj _ (conj _ _)).
  - rewrite flat_map_nil_iff. split.
    + intros Hall webhook rule Hin Hne Hrule.
      specialize (Hall webhook Hin). unfold isConversion in Hall.
      apply String.eqb_neq in Hne. rewrite Hne in Hall.
      apply (intercepted_nil csv webhook rule).
      now apply (proj1 (flat_map_nil_iff _ _) Hall).
    + intros Hall webhook Hin. unfold isConversion.
      destruct (String.eqb (WebhookDefinition.Type_ webhook) "ConversionWebhook") eqn:Hconv;
        [reflexivity|].
      apply String.eqb_neq in Hconv. apply flat_map_nil_iff. intros rule Hrule.
      apply intercepted_nil. now apply (Hall webhook rule).
  - apply Forall_flat_map_intro. intros webhook _.
    destruct (isConversion webhook); [constructor|].
    apply Forall_flat_map_intro. intros rule _. apply intercepted_stamp.
  - apply length_flat_map_le. intros webhook _.
    destruct (isConversion webhook); [cbn; lia|].
    apply length_flat_map_bound. intros rule. apply intercepted_stamp.
Qed.

(** X5. On a bundle with a CSV the rule ODH-OLM-003 returns one
    violation, of severity Error and at the file of the CSV, when a
    webhook of the CSV is a conversion webhook and no install mode of
    type AllNamespaces is supported; in every other case it returns
    none. *)
Theorem ConversionWebhookAllNamespaces_violations (bundle : Bundle)
    (csv : ClusterServiceVersion.t) :
  Bundle.CSV bundle = Some csv ->
  let conversion :=
    exists webhook,
      In webhook (CSVSpec.WebhookDefinitions (ClusterServiceVersion.Spec csv)) /\
      WebhookDefinition.Type_ webhook = "ConversionWebhook" in
  let supported :=
    exists mode,
      In mode (CSVSpec.InstallModes (ClusterServiceVersion.Spec csv)) /\
      InstallMode.Type_ mode = "AllNamespaces" /\ InstallMode.Supported mode = true in
  (conversion /\ ~ supported ->
   exists v,
     ConversionWebhookAllNamespacesRule.Validate bundle = Ok [v] /\
     Violation.File v = ClusterServiceVersion.FilePath csv /\
     Violation.Severity v = SeverityError) /\
  (~ (conversion /\ ~ supported) ->
   ConversionWebhookAllNamespacesRule.Validate bundle = Ok []).
Proof.
  intros Hcsv conversion supported.
  unfold ConversionWebhookAllNamespacesRule.Validate. rewrite Hcsv. cbv zeta.
  assert (Hconv : existsb
                    (fun webhook => String.eqb (WebhookDefinition.Type_ webhook) "ConversionWebhook")
                    (CSVSpec.WebhookDefinitions (ClusterServiceVersion.Spec csv)) = true <->
                  conversion).
  { rewrite existsb_exists. unfold conversion.
    split; intros [w [Hin Hw]]; exists w; (split; [exact Hin | now apply String.eqb_eq]). }
  assert (Hsup : existsb
                   (fun mode =>
                      String.eqb (InstallMode.Type_ mode) "AllNamespaces" &&
                      InstallMode.Supported mode)
                   (CSVSpec.InstallModes (ClusterServiceVersion.Spec csv)) = true <->
                 supported).
  { rewrite existsb_exists. unfold supported.
    split; intros [m [Hin Hm]]; exists m; (split; [exact Hin|]).
    - apply andb_true_iff in Hm as [Ht Hs]. now apply String.eqb_eq in Ht.
    - destruct Hm as [Ht Hs]. apply andb_true_iff. now rewrite String.eqb_eq. }
  destruct (existsb _ (CSVSpec.WebhookDefinitions _)); cbn [negb].
  - destruct (existsb _ (CSVSpec.InstallModes _)); cbn [negb app].
    + split; [intros [_ Hno]; exfalso; apply Hno; now apply Hsup | reflexivity].
    + split.
      * intros _. eexists. split; [reflexivity|]. split; reflexivity.
      * intros Hno. exfalso. apply Hno. split; [now apply Hconv|].
        intros Hs. apply Hsup in Hs. discriminate.
  - split; [|reflexivity].
    intros [Hc _]. apply Hconv in Hc. discriminate.
Qed.

Lemma isRecommended_spec (channel : string) :
  isRecommended channel = true <-> Recommended channel.
Proof.
  unfold isRecommended, Recommended. rewrite existsb_exists. split.
  - intros [prefix [Hin Hp]]. apply HasPrefix_spec in Hp as [rest Hrest]. eauto.
  - intros [prefix [rest [Hin Hrest]]]. exists prefix. split; [exact Hin|].
    apply HasPrefix_spec. eauto.
Qed.

(** X8. On a bundle with annotations the rule ODH-OLM-007 returns one
    violation for each channel whose name does not start, in lower
    case, with one of "stable", "fast", "candidate", "preview", "alpha"
    and "beta", in the order of the channels, and nothing else. The
    violation names the channel in its message and the six prefixes in
    its description, has severity Warning and is at the annotations
    file. *)
Theorem ChannelNaming_violations (bundle : Bundle) (annotations : BundleAnnotations.t) :
  Bundle.Annotations bundle = Some annotations ->
  ChannelNamingRule.Validate bundle =
    Ok (map (channelViolation annotations)
          (List.filter (fun channel => negb (isRecommended channel))
             (BundleAnnotations.Channels annotations))) /\
  (forall channel, isRecommended channel = true <-> Recommended channel) /\
  (forall channel,
      Violation.Message (channelViolation annotations channel) =
        "Channel '" +:+ channel +:+ "' does not follow recommended naming conventions" /\
      Violation.Description (channelViolation annotations channel) =
        "Consider using a channel name starting with: stable, fast, candidate, preview, alpha, beta. This helps users understand the support level and maturity." /\
      Violation.File (channelViolation annotations channel) =
        BundleAnnotations.FilePath annotations /\
      Violation.Severity (channelViolation annotations channel) = SeverityWarning).
Proof.
  intros Hann. split; [|split].
  - unfold ChannelNamingRule.Validate. rewrite Hann. cbv zeta. f_equal.
    match goal with
    | |- fold_left ?step _ _ = _ =>
        assert (Hloop : forall channels acc,
                   fold_left step channels acc =
                   acc ++ map (channelViolation annotations)
                            (List.filter (fun channel => negb (isRecommended channel)) channels))
    end.
    { induction channels as [|channel channels IH]; intros acc; cbn [fold_left List.filter].
      - cbn. now rewrite app_nil_r.
      - rewrite IH. fold (isRecommended channel).
        destruct (isRecommended channel); cbn [negb map]; [reflexivity|].
        now rewrite <- app_assoc. }
    apply Hloop.
  - apply isRecommended_spec.
  - intros channel. repeat split.
Qed.

(** The table that ODH-OLM-010 collects from the conversion webhooks. *)
Lemma conversionCRDs_lookup (webhooks : list WebhookDefinition.t) (name : string)
    (acc : gmap string bool) :
  default false
    (fold_left
       (fun conversionCRDs webhook =>
          if String.eqb (WebhookDefinition.Type_ webhook) "ConversionWebhook"
          then fold_left
                 (fun conversionCRDs crdName => <[crdName := true]> conversionCRDs)
                 (WebhookDefinition.ConversionCRDs webhook) conversionCRDs
          else conversionCRDs)
       webhooks acc !! name) =
  default false (acc !! name) ||
  existsb
    (fun webhook =>
       isConversion webhook &&
       existsb (String.eqb name) (WebhookDefinition.ConversionCRDs webhook))
    webhooks.
Proof.
  revert acc. induction webhooks as [|webhook webhooks IH]; intros acc;
    cbn [fold_left existsb]; [now rewrite orb_false_r|].
  rewrite IH. unfold isConversion.
  destruct (String.eqb (WebhookDefinition.Type_ webhook) "ConversionWebhook");
    cbn [andb orb]; [|reflexivity].
  rewrite orb_assoc. f_equal.
  generalize (WebhookDefinition.ConversionCRDs webhook). intros names. revert acc.
  induction names as [|n names IHn]; intros acc; cbn [fold_left existsb];
    [now rewrite orb_false_r|].
  rewrite IHn. destruct (String.eqb name n) eqn:Hn.
  - apply String.eqb_eq in Hn as ->. rewrite lookup_insert_eq. cbn.
    now rewrite orb_true_r.
  - apply String.eqb_neq in Hn. rewrite lookup_insert_ne by congruence.
    now rewrite orb_false_l.
Qed.

Lemma isTargeted_spec (csv : ClusterServiceVersion.t) (name : string) :
  isTargeted csv name = true <-> Targeted csv name.
Proof.
  unfold isTargeted, Targeted. rewrite existsb_exists.
  split.
  - intros [w [Hin Hw]]. apply andb_true_iff in Hw as [Hc Hn]. exists w.
    split; [exact Hin|]. split; [now apply String.eqb_eq|].
    apply existsb_exists in Hn as [n [Hn Heq]]. now apply String.eqb_eq in Heq as ->.
  - intros [w [Hin [Hc Hn]]]. exists w. split; [exact Hin|].
    apply andb_true_iff. split; [now apply String.eqb_eq|].
    apply existsb_exists. exists name. split; [exact Hn | apply String.eqb_refl].
Qed.

(** X9. On a bundle with a CSV and the CRDs [crds], none of them nil,
    the rule ODH-OLM-010 returns one violation for each CRD whose name
    [plural.group] is listed by a conversion webhook of the CSV and
    whose spec sets preserveUnknownFields to true, in the order of the
    CRDs, and nothing else; each of them has severity Error and names
    the file of its CRD. *)
Theorem ConversionPreserveUnknownFields_violations (bundle : Bundle)
    (csv : ClusterServiceVersion.t) (crds : list CustomResourceDefinition.t) :
  Bundle.CSV bundle = Some csv ->
  Bundle.CRDs bundle = map Some crds ->
  ConversionPreserveUnknownFieldsRule.Validate bundle =
    Ok (map preserveViolation
          (List.filter
             (fun crd => isTargeted csv (crdFullName crd) && preservesUnknownFields crd)
             crds)) /\
  (forall name, isTargeted csv name = true <-> Targeted csv name) /\
  (forall crd,
      Violation.File (preserveViolation crd) = CustomResourceDefinition.FilePath crd /\
      Violation.Severity (preserveViolation crd) = SeverityError).
Proof.
  intros Hcsv Hcrds. split; [|split; [apply isTargeted_spec | intros crd; split; reflexivity]].
  unfold ConversionPreserveUnknownFieldsRule.Validate. rewrite Hcsv, Hcrds. cbv zeta.
  pose proof (fun name =>
                conversionCRDs_lookup
                  (CSVSpec.WebhookDefinitions (ClusterServiceVersion.Spec csv)) name ∅)
    as Hlookup.
  fold (isTargeted csv) in Hlookup.
  set (table := fold_left _ (CSVSpec.WebhookDefinitions _) ∅) in *.
  assert (Htable : forall name, default false (table !! name) = isTargeted csv name).
  { intros name. rewrite (Hlookup name), lookup_empty. reflexivity. }
  clearbody table. clear Hlookup.
  destruct (size table =? 0)%nat eqn:Hsize.
  - apply Nat.eqb_eq in Hsize. apply map_size_empty_iff in Hsize. subst table. f_equal.
    assert (Hnone : forall name, isTargeted csv name = false).
    { intros name. rewrite <- Htable, lookup_empty. reflexivity. }
    clear Hcrds. induction crds as [|crd crds IH]; [reflexivity|].
    cbn [List.filter]. rewrite Hnone. cbn [andb]. apply IH.
  - clear Hsize.
    match goal with
    | |- forRange _ ?step _ = _ =>
        assert (Hloop : forall crds acc,
                   forRange (map Some crds) step acc =
                   Ok (acc ++ map preserveViolation
                                (List.filter
                                   (fun crd => isTargeted csv (crdFullName crd) &&
                                               preservesUnknownFields crd)
                                   crds)))
    end.
    { clear crds Hcrds. induction crds as [|crd crds IH]; intros acc;
        cbn [map forRange List.filter].
      - now rewrite app_nil_r.
      - cbn [deref bindRes]. fold (crdFullName crd). rewrite Htable.
        destruct (isTargeted csv (crdFullName crd)); cbn [negb andb]; [|apply IH].
        unfold preservesUnknownFields at 1.
        destruct (CRDSpec.PreserveUnknownFields (CustomResourceDefinition.Spec crd)) as [[|]|];
          cbn [bindRes]; try apply IH.
        rewrite IH. cbn [map]. now rewrite <- app_assoc. }
    apply Hloop.
Qed.
End CSVRules.

(** The instance of X4 at the sample bundle: its admission webhook
    lists the group "*", so the rule returns a violation. *)
Lemma WebhookOperatorResources_violations_witness :
  exists vs,
    WebhookOperatorResourcesRule.Validate (tables := asciiTables) sampleBundle = Ok vs /\
    vs <> [].
Proof.
  destruct (WebhookOperatorResources_violations (tables := asciiTables)
              sampleBundle sampleCSV eq_refl) as [vs [Hvs [Hnil _]]].
  exists vs. split; [exact Hvs|]. intros Hempty.
  apply (proj1 Hnil Hempty admissionHook wildcardRule).
  - now left.
  - discriminate.
  - now left.
  - left. now left.
Defined.

(** The instance of X5 at the sample bundle: a conversion webhook and
    only the OwnNamespace install mode give one violation. *)
Lemma ConversionWebhookAllNamespaces_violations_witness :
  exists v,
    ConversionWebhookAllNamespacesRule.Validate sampleBundle = Ok [v] /\
    rules.Violation.File v = "/bundle/manifests/operator.csv.yaml" /\
    rules.Violation.Severity v = rules.SeverityError.
Proof.
  apply (proj1 (ConversionWebhookAllNamespaces_violations sampleBundle sampleCSV eq_refl)).
  split.
  - exists conversionHook. split; [right; now left | reflexivity].
  - intros [mode [[<- | []] [Htype _]]]. discriminate.
Defined.

(** The instance of X8 at the sample bundle: the channel "nightly" is
    reported, the channel "stable-v1" is not. *)
Lemma ChannelNaming_violations_witness :
  ChannelNamingRule.Validate (tables := asciiTables) sampleBundle =
  Ok [channelViolation sampleAnnotations "nightly"].
Proof.
  apply (proj1 (ChannelNaming_violations (tables := asciiTables)
                  sampleBundle sampleAnnotations eq_refl)).
Defined.

(** The instance of X9 at the sample bundle: the CRD of the widgets is
    listed by the conversion webhook and preserves unknown fields. *)
Lemma ConversionPreserveUnknownFields_violations_witness :
  ConversionPreserveUnknownFieldsRule.Validate sampleBundle =
  Ok [preserveViolation widgetCRD].
Proof.
  apply (proj1 (ConversionPreserveUnknownFields_violations
                  sampleBundle sampleCSV [widgetCRD] eq_refl eq_refl)).
Defined.

(* ===================================================================== *)
(** * The registry and the run of the rules *)
(* ===================================================================== *)

Section Registry.
Import rules registry main.
Context `{tables : UnicodeTables}.

Ltac stamp := repeat split; reflexivity.

Ltac stamp_step :=
  repeat match goal with
         | |- context [if ?b then _ else _] => destruct b
         | |- context [match ?o with Some _ => _ | None => _ end] => destruct o
         end;
  try discriminate;
  try (intros [= <-]);
  try assumption;
  try (apply Forall_append_one; [assumption | stamp]).

Lemma resource_loop_stamp (rule : Rule) (resources : list (option Resource.t))
    (step : list Violation -> Resource.t -> Res (list Violation)) (vs : list Violation) :
  (forall acc resource acc', Forall (Stamped rule) acc -> step acc resource = Ok acc' ->
                             Forall (Stamped rule) acc') ->
  forRange resources (fun violations p => resource <-! deref p ; step violations resource) [] =
  Ok vs ->
  Forall (Stamped rule) vs.
Proof.
  intros Hstep. apply forRange_invariant; [|constructor].
  intros acc [resource|] acc' Hacc; cbn [deref bindRes]; [|discriminate].
  now apply Hstep.
Qed.

Lemma GetAllRules_stamp (rule : Rule) (bundle : Bundle) (vs : list Violation) :
  In rule GetAllRules -> Rule.Validate rule bundle = Ok vs -> Forall (Stamped rule) vs.
Proof.
  unfold GetAllRules. cbn [In].
  intros [<- | [<- | [<- | [<- | [<- | [<- | [<- | [<- | []]]]]]]]]; cbn [Rule.Validate].
  - unfold MinKubeVersionRule.Validate. cbv zeta.
    destruct (Bundle.CSV bundle) as [csv|]; [|intros [= <-]; constructor].
    destruct (String.eqb _ _); intros [= <-]; repeat constructor.
  - unfold WebhookOperatorResourcesRule.Validate. cbv zeta.
    destruct (Bundle.CSV bundle) as [csv|]; intros [= <-]; [|constructor].
    apply fold_left_invariant; [|constructor].
    intros acc webhook Hacc. destruct (String.eqb _ _); [exact Hacc|].
    apply fold_left_invariant; [|exact Hacc].
    intros acc' r Hacc'.
    repeat match goal with
           | |- context [if ?b then _ else _] => destruct b
           end;
      repeat (apply Forall_append_one; [|stamp]); exact Hacc'.
  - unfold ConversionWebhookAllNamespacesRule.Validate. cbv zeta.
    destruct (Bundle.CSV bundle) as [csv|]; [|intros [= <-]; constructor].
    destruct (negb _); [intros [= <-]; constructor|].
    destruct (negb _); intros [= <-]; repeat constructor.
  - unfold PDBMaxUnavailableRule.Validate. apply resource_loop_stamp.
    intros acc resource acc' Hacc. stamp_step.
  - unfold PDBMinAvailableRule.Validate. apply resource_loop_stamp.
    intros acc resource acc' Hacc. stamp_step.
  - unfold PriorityClassGlobalDefaultRule.Validate. apply resource_loop_stamp.
    intros acc resource acc' Hacc. stamp_step.
  - unfold ChannelNamingRule.Validate. cbv zeta.
    destruct (Bundle.Annotations bundle) as [annotations|]; intros [= <-]; [|constructor].
    apply fold_left_invariant; [|constructor].
    intros acc channel Hacc. destruct (negb _); [|exact Hacc].
    apply Forall_append_one; [exact Hacc | stamp].
  - unfold ConversionPreserveUnknownFieldsRule.Validate. cbv zeta.
    destruct (Bundle.CSV bundle) as [csv|]; [|intros [= <-]; constructor].
    destruct (size _ =? 0)%nat; [intros [= <-]; constructor|].
    apply forRange_invariant; [|constructor].
    intros acc [crd|] acc' Hacc; cbn [deref bindRes]; [|discriminate].
    stamp_step.
Qed.

Lemma GetAllRules_severity (rule : Rule) :
  In rule GetAllRules ->
  Rule.Severity rule = SeverityError \/ Rule.Severity rule = SeverityWarning.
Proof.
  unfold GetAllRules. cbn [In].
  intros [<- | [<- | [<- | [<- | [<- | [<- | [<- | [<- | []]]]]]]]]; cbn; auto.
Qed.

Lemma String_without_line (v : Violation) :
  Violation.Line v = 0 ->
  Violation.String v =
  "[" +:+ Violation.RuleID v +:+ "] " +:+ Violation.File v +:+ ": " +:+ Violation.Message v.
Proof. intros Hline. unfold Violation.String. now rewrite Hline. Qed.

(** X10. Every violation that a rule of the registry returns carries
    the identifier, name, category, severity and fixable flag of that
    rule; its severity is Error or Warning; and it has no line, so its
    [String()] is "[id] file: message". *)
Theorem violations_carry_their_rule (rule : Rule) (bundle : Bundle) (vs : list Violation) :
  In rule GetAllRules ->
  Rule.Validate rule bundle = Ok vs ->
  Forall
    (fun v =>
       Stamped rule v /\
       (Violation.Severity v = SeverityError \/ Violation.Severity v = SeverityWarning) /\
       Violation.String v =
         "[" +:+ Rule.ID rule +:+ "] " +:+ Violation.File v +:+ ": " +:+ Violation.Message v)
    vs.
Proof.
  intros Hin Hrun.
  eapply List.Forall_impl; [|apply (GetAllRules_stamp rule bundle vs Hin Hrun)].
  intros v Hv. split; [exact Hv|].
  destruct Hv as [Hid [_ [_ [Hsev [_ Hline]]]]]. split.
  - rewrite Hsev. now apply GetAllRules_severity.
  - rewrite (String_without_line v Hline), Hid. reflexivity.
Qed.

(** X11. The identifiers of the registry are pairwise different, so
    [GetRuleByID] returns each rule of the registry at its identifier;
    what it returns is a rule of the registry with the identifier that
    was asked for; and it returns nil exactly for an identifier that no
    rule of the registry has. *)
Theorem GetRuleByID_finds_the_registered_rule :
  forall id : string,
    NoDup (map Rule.ID GetAllRules) /\
    (forall rule, In rule GetAllRules -> GetRuleByID (Rule.ID rule) = Some rule) /\
    (forall rule, GetRuleByID id = Some rule -> In rule GetAllRules /\ Rule.ID rule = id) /\
    (GetRuleByID id = None <-> ~ Registered id).
Proof.
  intros id. refine (conj _ (conj _ (conj _ _))).
  - unfold GetAllRules. cbn [map Rule.ID].
    apply (bool_decide_unpack _). vm_compute. exact I.
  - unfold GetAllRules. cbn [In].
    intros rule [<- | [<- | [<- | [<- | [<- | [<- | [<- | [<- | []]]]]]]]]; reflexivity.
  - unfold GetRuleByID. intros rule Hfind. apply find_some in Hfind as [Hin Hid].
    split; [exact Hin | now apply String.eqb_eq].
  - unfold GetRuleByID, Registered. split.
    + intros Hnone [rule [Hin Hid]].
      pose proof (find_none _ _ Hnone rule Hin) as Hne. cbn beta in Hne.
      apply String.eqb_neq in Hne. contradiction.
    + intros Hno. destruct (find _ GetAllRules) as [rule|] eqn:Hfind; [|reflexivity].
      apply find_some in Hfind as [Hin Hid]. apply String.eqb_eq in Hid.
      exfalso. apply Hno. eauto.
Qed.

Lemma ValidateBundle_from (bundle : Bundle) (rules : list Rule) (acc : list Violation) :
  forRange rules
    (fun allViolations rule =>
       violations <-! Rule.Validate rule bundle ; Ok (allViolations ++ violations))
    acc =
  (vs <-! ValidateBundle bundle rules ; Ok (acc ++ vs)).
Proof.
  unfold ValidateBundle. revert acc.
  induction rules as [|rule rules IH]; intros acc; cbn [forRange bindRes].
  - now rewrite app_nil_r.
  - destruct (Rule.Validate rule bundle) as [vs|]; cbn [bindRes app]; [|reflexivity].
    rewrite (IH (acc ++ vs)), (IH vs).
    destruct (forRange rules _ []) as [vs'|]; cbn [bindRes]; [|reflexivity].
    now rewrite app_assoc.
Qed.

(** X12. [ValidateBundle] concatenates: on no rule it returns the empty
    list, on one rule what the rule returns, and on [rules1 ++ rules2]
    the violations of [rules1] followed by those of [rules2]; it faults
    when one of the runs does. *)
Theorem ValidateBundle_concatenates :
  forall (bundle : Bundle) (rules1 rules2 : list Rule) (rule : Rule),
    ValidateBundle bundle [] = Ok [] /\
    ValidateBundle bundle [rule] = Rule.Validate rule bundle /\
    ValidateBundle bundle (rules1 ++ rules2) =
    (vs1 <-! ValidateBundle bundle rules1 ;
     vs2 <-! ValidateBundle bundle rules2 ;
     Ok (vs1 ++ vs2)).
Proof.
  intros bundle rules1 rules2 rule. split; [reflexivity|]. split.
  - unfold ValidateBundle. cbn [forRange].
    destruct (Rule.Validate rule bundle); reflexivity.
  - induction rules1 as [|r rules1 IH]; cbn [app].
    + cbn [ValidateBundle forRange bindRes].
      destruct (ValidateBundle bundle rules2); reflexivity.
    + unfold ValidateBundle at 1 2. cbn [forRange].
      destruct (Rule.Validate r bundle) as [vs|]; cbn [bindRes app]; [|reflexivity].
      rewrite !ValidateBundle_from, IH.
      destruct (ValidateBundle bundle rules1) as [vs1|]; cbn [bindRes]; [|reflexivity].
      destruct (ValidateBundle bundle rules2) as [vs2|]; cbn [bindRes]; [|reflexivity].
      now rewrite app_assoc.
Qed.

Lemma ValidateBundle_stamp (bundle : Bundle) (rules : list Rule) (vs : list Violation) :
  incl rules GetAllRules ->
  ValidateBundle bundle rules = Ok vs ->
  Forall (fun v => exists rule, In rule rules /\ Stamped rule v) vs.
Proof.
  revert vs. induction rules as [|rule rules IH]; intros vs Hincl.
  - intros [= <-]. constructor.
  - unfold ValidateBundle. cbn [forRange].
    destruct (Rule.Validate rule bundle) as [vs1|] eqn:Hrule; cbn [bindRes app]; [|discriminate].
    rewrite ValidateBundle_from.
    destruct (ValidateBundle bundle rules) as [vs2|] eqn:Hrest; cbn [bindRes]; [|discriminate].
    intros [= <-]. apply Forall_app. split.
    + eapply List.Forall_impl; [|apply (GetAllRules_stamp rule bundle vs1); auto].
      * intros v Hv. exists rule. split; [now left | exact Hv].
      * apply Hincl. now left.
    + eapply List.Forall_impl; [|apply (IH vs2); auto].
      * intros v [r [Hin Hv]]. exists r. split; [now right | exact Hv].
      * intros r Hr. apply Hincl. now right.
Qed.

Lemma selectRules_In (enable disable : string) (rule : Rule) :
  In rule (selectRules enable disable) ->
  In rule GetAllRules /\
  (enable <> "" -> Listed enable (Rule.ID rule)) /\
  (enable = "" -> ~ Listed disable (Rule.ID rule)).
Proof.
  unfold selectRules. cbv zeta.
  destruct (String.eqb enable "") eqn:He; cbn [negb].
  - apply String.eqb_eq in He as ->.
    destruct (String.eqb disable "") eqn:Hd; cbn [negb].
    + apply String.eqb_eq in Hd as ->. intros Hin.
      split; [exact Hin|]. split; [congruence|].
      intros _ Hl. apply parseRuleList_spec in Hl. unfold parseRuleList in Hl.
      cbn [String.eqb] in Hl. rewrite lookup_empty in Hl. destruct Hl as [x Hx]. discriminate.
    + rewrite filter_In, negb_true_iff, bool_decide_eq_false, parseRuleList_spec.
      intros [Hin Hl]. split; [exact Hin|]. split; [congruence | intros _; exact Hl].
  - apply String.eqb_neq in He.
    rewrite filter_In, bool_decide_eq_true, parseRuleList_spec.
    intros [Hin Hl]. split; [exact Hin|]. split; [intros _; exact Hl | contradiction].
Qed.

(** X13. Only the selected rules report: every violation of a run over
    the rules that [selectRules] returns has the identifier of a rule of
    the registry; that identifier is in the enable list when there is
    one, and is not in the disable list otherwise; and its severity is
    Error or Warning. *)
Theorem selected_rules_report_alone (enable disable : string) (bundle : Bundle)
    (vs : list Violation) :
  ValidateBundle bundle (selectRules enable disable) = Ok vs ->
  Forall
    (fun v =>
       Registered (Violation.RuleID v) /\
       (enable <> "" -> Listed enable (Violation.RuleID v)) /\
       (enable = "" -> ~ Listed disable (Violation.RuleID v)) /\
       (Violation.Severity v = SeverityError \/ Violation.Severity v = SeverityWarning))
    vs.
Proof.
  intros Hrun.
  eapply List.Forall_impl;
    [|apply (ValidateBundle_stamp bundle (selectRules enable disable) vs); [|exact Hrun]].
  - intros v [rule [Hin [Hid [_ [_ [Hsev _]]]]]].
    apply selectRules_In in Hin as [Hreg [Hon Hoff]].
    rewrite Hid, Hsev. split; [exists rule; auto|].
    split; [exact Hon|]. split; [exact Hoff|]. now apply GetAllRules_severity.
  - intros rule Hin. now apply selectRules_In in Hin as [Hreg _].
Qed.

Lemma parseRuleList_true (list id : string) (v : bool) :
  parseRuleList list !! id = Some v -> v = true.
Proof.
  unfold parseRuleList. cbv zeta.
  destruct (String.eqb list ""); [rewrite lookup_empty; discriminate|].
  generalize (GoStrings.Split list ","). intros parts.
  assert (Hinv : forall (acc : gmap string bool),
             (forall k b, acc !! k = Some b -> b = true) ->
             forall k b,
               fold_left
                 (fun result part =>
                    let trimmed := GoStrings.TrimSpace part in
                    if negb (String.eqb trimmed "") then <[trimmed := true]> result else result)
                 parts acc !! k = Some b -> b = true).
  { induction parts as [|part parts IH]; intros acc Hacc k b; cbn [fold_left]; [apply Hacc|].
    apply IH. cbv zeta. destruct (negb _); [|exact Hacc].
    intros k' b'. destruct (decide (GoStrings.TrimSpace part = k')) as [<- | Hne].
    - rewrite lookup_insert_eq. congruence.
    - rewrite lookup_insert_ne by exact Hne. apply Hacc. }
  apply Hinv. intros k b. rewrite lookup_empty. discriminate.
Qed.

(** X14. [parseRuleList] returns the set of the identifiers of the
    list: an identifier is mapped to true when it is listed and is not
    a key otherwise; no key is empty or has white space around it; and
    two lists with the same identifiers, in any order and with any
    repetition, give the same map. *)
Theorem parseRuleList_is_the_set_of_listed_identifiers :
  forall list : string,
    (forall id, parseRuleList list !! id = Some true <-> Listed list id) /\
    (forall id, parseRuleList list !! id = None <-> ~ Listed list id) /\
    (forall id, is_Some (parseRuleList list !! id) ->
                id <> "" /\ GoStrings.TrimSpace id = id) /\
    (forall list',
        (forall id, Listed list id <-> Listed list' id) ->
        parseRuleList list' = parseRuleList list).
Proof.
  intros list.
  assert (Hsome : forall l id, parseRuleList l !! id = Some true <-> Listed l id).
  { intros l id. rewrite <- parseRuleList_spec. split; [eauto|].
    intros [v Hv]. now rewrite (parseRuleList_true l id v Hv) in Hv. }
  assert (Hnone : forall l id, parseRuleList l !! id = None <-> ~ Listed l id).
  { intros l id. rewrite <- parseRuleList_spec, <- eq_None_not_Some. reflexivity. }
  refine (conj (Hsome list) (conj (Hnone list) (conj _ _))).
  - intros id Hid. apply parseRuleList_spec in Hid as [Hne [part [_ Hpart]]].
    split; [exact Hne|]. rewrite <- Hpart. apply TrimSpace_idempotent.
  - intros list' Hsame. apply map_eq. intros id.
    destruct (parseRuleList list !! id) as [v|] eqn:Hv.
    + rewrite (parseRuleList_true list id v Hv) in Hv |- *.
      apply (proj2 (Hsome list' id)), (proj1 (Hsame id)), (proj1 (Hsome list id)), Hv.
    + apply (proj2 (Hnone list' id)). intros Hl.
      apply (proj1 (Hnone list id) Hv), (proj2 (Hsame id)), Hl.
Qed.
End Registry.

(** The instance of X10 at the rule ODH-OLM-003 on the sample bundle. *)
Lemma violations_carry_their_rule_witness :
  exists v,
    ConversionWebhookAllNamespacesRule.Validate sampleBundle = Ok [v] /\
    rules.Violation.RuleID v = "ODH-OLM-003" /\
    rules.Violation.String v =
      "[ODH-OLM-003] /bundle/manifests/operator.csv.yaml: CSV defines conversion webhook but AllNamespaces install mode is not supported".
Proof.
  pose (rule :=
          rules.Rule.mk ConversionWebhookAllNamespacesRule.ID
            ConversionWebhookAllNamespacesRule.Name
            ConversionWebhookAllNamespacesRule.Category
            ConversionWebhookAllNamespacesRule.Severity
            ConversionWebhookAllNamespacesRule.Description
            ConversionWebhookAllNamespacesRule.Validate
            ConversionWebhookAllNamespacesRule.Fixable).
  eexists. split; [reflexivity|].
  pose proof (violations_carry_their_rule (tables := asciiTables) rule sampleBundle _
                (or_intror (or_intror (or_introl eq_refl))) eq_refl) as Hall.
  apply List.Forall_inv in Hall. destruct Hall as [[Hid _] [_ Hstring]].
  split; [exact Hid | exact Hstring].
Defined.

(** The instance of X13 at the sample bundle with the enable list
    "ODH-OLM-003, ODH-OLM-010": the two violations of the run are of
    those rules. *)
Lemma selected_rules_report_alone_witness :
  exists vs,
    registry.ValidateBundle sampleBundle
      (main.selectRules (tables := asciiTables) "ODH-OLM-003, ODH-OLM-010" "") = Ok vs /\
    length vs = 2%nat /\
    Forall (fun v => Listed "ODH-OLM-003, ODH-OLM-010" (rules.Violation.RuleID v)) vs.
Proof.
  eexists. split; [vm_compute; reflexivity|]. split; [reflexivity|].
  eapply List.Forall_impl;
    [|apply (selected_rules_report_alone (tables := asciiTables)
               "ODH-OLM-003, ODH-OLM-010" "" sampleBundle); vm_compute; reflexivity].
  intros v [_ [Hlisted _]]. apply Hlisted. discriminate.
Defined.

(* ===================================================================== *)
(** * More on loading a bundle *)
(* ===================================================================== *)

Section LoadingMore.
Import rules loader.
Context `{os : OS} `{yaml : YAML}.

Lemma isManifest_spec (file : DirEntry) :
  isManifest file = true <->
  IsDir file = false /\
  exists stem, Name file = stem +:+ ".yaml" \/ Name file = stem +:+ ".yml".
Proof.
  unfold isManifest. rewrite andb_true_iff, !negb_true_iff, andb_false_iff, !negb_false_iff.
  rewrite !HasSuffix_spec. split.
  - intros [Hd [[stem Hs] | [stem Hs]]]; (split; [exact Hd|]); exists stem; auto.
  - intros [Hd [stem [Hs | Hs]]]; (split; [exact Hd|]); [left | right]; eauto.
Qed.

(** X15. The loop over the manifests directory reads the manifests
    only: its result is the one for the listing without the entries
    that are directories or whose name ends neither in ".yaml" nor in
    ".yml". *)
Theorem loadManifests_reads_manifests_only :
  forall (files : list DirEntry) (bundle : Bundle),
    loadManifestFiles files bundle = loadManifestFiles (List.filter isManifest files) bundle /\
    (forall file,
        isManifest file = true <->
        IsDir file = false /\
        exists stem, Name file = stem +:+ ".yaml" \/ Name file = stem +:+ ".yml").
Proof.
  intros files bundle. split; [|apply isManifest_spec].
  revert bundle. induction files as [|file files IH]; intros bundle; [reflexivity|].
  cbn [List.filter]. destruct (isManifest file) eqn:Hm.
  - rewrite !(loadManifestFiles_step _ _ _ Hm).
    destruct (loadManifestFile bundle _) as [bundle' [e|]]; [reflexivity | apply IH].
  - rewrite (loadManifestFiles_skip _ _ _ Hm). apply IH.
Qed.

Lemma LoadBundle_success (bundlePath : string) (bundle : Bundle) :
  LoadBundle bundlePath = (Some bundle, None) ->
  let bundle1 := fst (loadAnnotations (freshBundle bundlePath)) in
  let files := fst (ReadDir (manifestsOf bundlePath)) in
  snd (loadAnnotations (freshBundle bundlePath)) = None /\
  Bundle.ManifestsPath bundle1 = manifestsOf bundlePath /\
  Bundle.CSV bundle1 = None /\ Bundle.CRDs bundle1 = [] /\
  Bundle.OtherResources bundle1 = [] /\
  snd (loadManifestFiles files bundle1) = None /\
  bundle = fst (loadManifestFiles files bundle1).
Proof.
  unfold LoadBundle, freshBundle, manifestsOf, rootOf.
  destruct (Abs bundlePath) as [absPath [e|]]; cbn [fst snd]; [discriminate|].
  destruct (isNotExist (Stat absPath)); [discriminate|].
  set (bundle0 := Bundle.mk absPath (Join absPath "manifests") (Join absPath "metadata")
                    None [] [] None).
  destruct (loadAnnotations_result bundle0) as [Hann _]. cbv zeta in Hann.
  destruct (loadAnnotations bundle0) as [bundle1 [e|]]; cbn [fst snd] in *; [discriminate|].
  destruct (Hann eq_refl) as [Hp1 [Hmp1 [Hmd1 [Hcsv1 [Hcrd1 Hoth1]]]]].
  cbn [bundle0 Bundle.Path Bundle.ManifestsPath Bundle.MetadataPath Bundle.CSV
       Bundle.CRDs Bundle.OtherResources] in *.
  unfold loadManifests. rewrite Hmp1.
  destruct (isNotExist (Stat (Join absPath "manifests"))); [discriminate|].
  destruct (ReadDir (Join absPath "manifests")) as [files [e|]]; cbn [fst snd];
    [discriminate|].
  destruct (loadManifestFiles files bundle1) as [bundle2 [e|]]; cbn [fst snd];
    [discriminate|].
  intros [= <-]. auto 10.
Qed.

Lemma loadManifestFile_paths (bundle : Bundle) (filePath : string) :
  snd (loadManifestFile bundle filePath) = None ->
  let after := fst (loadManifestFile bundle filePath) in
  let kind := basicKind (fst (UnmarshalBasic (fst (ReadFile filePath)))) in
  Bundle.ManifestsPath after = Bundle.ManifestsPath bundle /\
  if String.eqb kind "ClusterServiceVersion" then
    ClusterServiceVersion.FilePath <$> Bundle.CSV after = Some filePath /\
    crdPaths after = crdPaths bundle /\ resourcePaths after = resourcePaths bundle
  else if String.eqb kind "CustomResourceDefinition" then
    Bundle.CSV after = Bundle.CSV bundle /\
    crdPaths after = crdPaths bundle ++ [Some filePath] /\
    resourcePaths after = resourcePaths bundle
  else
    Bundle.CSV after = Bundle.CSV bundle /\
    crdPaths after = crdPaths bundle /\
    resourcePaths after = resourcePaths bundle ++ [Some filePath].
Proof.
  unfold loadManifestFile, crdPaths, resourcePaths.
  destruct (ReadFile filePath) as [data [e|]]; cbn [fst snd]; [discriminate|].
  destruct (UnmarshalBasic data) as [basic [e|]]; cbn [fst snd]; [discriminate|].
  destruct (String.eqb (basicKind basic) "ClusterServiceVersion");
    [|destruct (String.eqb (basicKind basic) "CustomResourceDefinition")].
  - unfold parseCSV. destruct (UnmarshalCSV data) as [raw [e|]]; cbn [fst snd];
      [discriminate|]. intros _. cbn. auto.
  - unfold parseCRD. destruct (UnmarshalCRD data) as [raw [e|]]; cbn [fst snd];
      [discriminate|]. intros _. cbn. rewrite map_app. auto.
  - unfold parseResource. destruct (UnmarshalResource data) as [raw [e|]]; cbn [fst snd];
      [discriminate|]. intros _. cbn. rewrite map_app. auto.
Qed.

Lemma loadManifestFiles_paths (bundlePath : string) (files : list DirEntry) (bundle : Bundle) :
  Bundle.ManifestsPath bundle = manifestsOf bundlePath ->
  snd (loadManifestFiles files bundle) = None ->
  let after := fst (loadManifestFiles files bundle) in
  crdPaths after =
    crdPaths bundle ++
    map (fun file => Some (manifestPath bundlePath file))
      (List.filter (isCRDManifest bundlePath) files) /\
  resourcePaths after =
    resourcePaths bundle ++
    map (fun file => Some (manifestPath bundlePath file))
      (List.filter (isOtherManifest bundlePath) files) /\
  ClusterServiceVersion.FilePath <$> Bundle.CSV after =
    match last (List.filter (isCSVManifest bundlePath) files) with
    | Some file => Some (manifestPath bundlePath file)
    | None => ClusterServiceVersion.FilePath <$> Bundle.CSV bundle
    end.
Proof.
  revert bundle. induction files as [|file files IH]; intros bundle Hpath Hok after.
  - subst after. cbn. now rewrite !app_nil_r.
  - subst after. destruct (isManifest file) eqn:Hm.
    + rewrite (loadManifestFiles_step _ _ _ Hm), Hpath in *.
      pose proof (loadManifestFile_paths bundle (Join (manifestsOf bundlePath) (Name file)))
        as Hfile.
      destruct (loadManifestFile bundle (Join (manifestsOf bundlePath) (Name file)))
        as [bundle' [e|]]; cbn [fst snd] in *; [discriminate|].
      specialize (Hfile eq_refl). cbv zeta in Hfile. destruct Hfile as [Hmp Hkind].
      assert (Hpath' : Bundle.ManifestsPath bundle' = manifestsOf bundlePath) by congruence.
      specialize (IH bundle' Hpath' Hok). cbv zeta in IH.
      destruct IH as [IHcrd [IHother IHcsv]].
      cbn [List.filter].
      unfold isCRDManifest at 1, isOtherManifest at 1, isCSVManifest at 1.
      rewrite Hm. cbn [andb]. fold (kindOf bundlePath file) in Hkind.
      fold (manifestPath bundlePath file) in Hkind.
      destruct (String.eqb (kindOf bundlePath file) "ClusterServiceVersion") eqn:Hk1;
        [|destruct (String.eqb (kindOf bundlePath file) "CustomResourceDefinition") eqn:Hk2];
        cbn [negb andb].
      * destruct Hkind as [Hcsv [Hcrds Hothers]].
        rewrite IHcrd, IHother, IHcsv, Hcrds, Hothers, Hcsv, last_cons_option.
        split; [reflexivity|]. split; [reflexivity|].
        now destruct (last (List.filter (isCSVManifest bundlePath) files)).
      * destruct Hkind as [Hcsv [Hcrds Hothers]].
        rewrite IHcrd, IHother, IHcsv, Hcrds, Hothers, Hcsv. cbn [map].
        rewrite <- app_assoc. auto.
      * destruct Hkind as [Hcsv [Hcrds Hothers]].
        rewrite IHcrd, IHother, IHcsv, Hcrds, Hothers, Hcsv. cbn [map].
        rewrite <- app_assoc. auto.
    + rewrite (loadManifestFiles_skip _ _ _ Hm) in *.
      specialize (IH bundle Hpath Hok). cbv zeta in IH.
      destruct (isManifest_false_kinds bundlePath file Hm) as [Hc1 [Hc2 Hc3]].
      cbn [List.filter]. rewrite Hc1, Hc2, Hc3. exact IH.
Qed.

(** X16. In a bundle that [LoadBundle] returns, the CRDs record the
    paths of the manifests of kind CustomResourceDefinition, in the
    order of the directory listing, and the generic resources those of
    the manifests of the other kinds; the CSV records the path of the
    last manifest of kind ClusterServiceVersion of the listing: a later
    CSV replaces an earlier one. *)
Theorem LoadBundle_records_manifest_paths (bundlePath : string) (bundle : Bundle) :
  LoadBundle bundlePath = (Some bundle, None) ->
  let files := fst (ReadDir (manifestsOf bundlePath)) in
  crdPaths bundle =
    map (fun file => Some (manifestPath bundlePath file))
      (List.filter (isCRDManifest bundlePath) files) /\
  resourcePaths bundle =
    map (fun file => Some (manifestPath bundlePath file))
      (List.filter (isOtherManifest bundlePath) files) /\
  ClusterServiceVersion.FilePath <$> Bundle.CSV bundle =
    manifestPath bundlePath <$> last (List.filter (isCSVManifest bundlePath) files).
Proof.
  intros Hload files.
  destruct (LoadBundle_success _ _ Hload) as [_ [Hpath [Hcsv [Hcrds [Hothers [Hok ->]]]]]].
  destruct (loadManifestFiles_paths bundlePath files _ Hpath Hok) as [Hc [Ho Hv]].
  fold files. rewrite Hc, Ho, Hv. unfold crdPaths, resourcePaths.
  rewrite Hcrds, Hothers, Hcsv. cbn [map app].
  split; [reflexivity|]. split; [reflexivity|].
  now destruct (last (List.filter (isCSVManifest bundlePath) files)).
Qed.

Lemma loadManifestFiles_first_failure (dir : string) (before after : list DirEntry)
    (file : DirEntry) (bundle : Bundle) :
  Bundle.ManifestsPath bundle = dir ->
  (forall f, In f before -> isManifest f = true -> Loads (Join dir (Name f))) ->
  isManifest file = true ->
  ~ Loads (Join dir (Name file)) ->
  exists cause,
    snd (loadManifestFiles (before ++ file :: after) bundle) =
    Some (Errorf ("failed to load manifest " +:+ Name file +:+ ": " +:+ cause)).
Proof.
  intros Hdir Hbefore Hfile Hfails. revert bundle Hdir.
  induction before as [|f before IH]; intros bundle Hdir; cbn [app].
  - rewrite (loadManifestFiles_step _ _ _ Hfile), Hdir.
    destruct (loadManifestFile_result bundle (Join dir (Name file))) as [Herr _].
    destruct (loadManifestFile bundle (Join dir (Name file))) as [bundle' [e|]];
      cbn [fst snd] in *; [eauto|].
    exfalso. apply Hfails. now apply Herr.
  - assert (IH' : forall bundle, Bundle.ManifestsPath bundle = dir ->
                    exists cause,
                      snd (loadManifestFiles (before ++ file :: after) bundle) =
                      Some (Errorf ("failed to load manifest " +:+ Name file +:+ ": " +:+ cause))).
    { apply IH. intros g Hg. apply Hbefore. now right. }
    destruct (isManifest f) eqn:Hm.
    + rewrite (loadManifestFiles_step _ _ _ Hm), Hdir.
      destruct (loadManifestFile_result bundle (Join dir (Name f))) as [Herr Hrouted].
      destruct (loadManifestFile bundle (Join dir (Name f))) as [bundle' [e|]];
        cbn [fst snd] in *.
      * exfalso.
        assert (Hnone : Some e = None)
          by (apply Herr, Hbefore; [now left | exact Hm]).
        discriminate.
      * apply IH'. destruct (Hrouted eq_refl) as [_ [Hmp _]]. congruence.
    + rewrite (loadManifestFiles_skip _ _ _ Hm). now apply IH'.
Qed.

(** X17. Loading the manifests stops at the first manifest of the
    directory listing that cannot be read or parsed, and the error it
    returns names that file: "failed to load manifest NAME: ...". *)
Theorem loadManifests_names_the_first_failing_manifest (bundle : Bundle)
    (before after : list DirEntry) (file : DirEntry) :
  let dir := Bundle.ManifestsPath bundle in
  isNotExist (Stat dir) = false ->
  ReadDir dir = (before ++ file :: after, None) ->
  (forall f, In f before -> isManifest f = true -> Loads (Join dir (Name f))) ->
  isManifest file = true ->
  ~ Loads (Join dir (Name file)) ->
  exists cause,
    snd (loadManifests bundle) =
    Some (Errorf ("failed to load manifest " +:+ Name file +:+ ": " +:+ cause)).
Proof.
  intros dir Hdir Hread Hbefore Hfile Hfails. unfold loadManifests. fold dir.
  rewrite Hdir, Hread. now apply (loadManifestFiles_first_failure dir).
Qed.

(** X18. A bundle that [LoadBundle] returns has no annotations when the
    annotations file does not exist. When the file exists, the
    annotations record its path, the package and the default channel of
    the file, and the channels: none when the channels annotation is
    missing or empty, otherwise the pieces between its commas, each
    trimmed, so that no channel has white space around it. *)
Theorem LoadBundle_annotations (bundlePath : string) (bundle : Bundle) :
  LoadBundle bundlePath = (Some bundle, None) ->
  let path := annotationsOf bundlePath in
  let raw := fst (UnmarshalAnnotations (fst (ReadFile path))) in
  let channels := annotation raw "operators.operatorframework.io.bundle.channels.v1" in
  (isNotExist (Stat path) = true -> Bundle.Annotations bundle = None) /\
  (isNotExist (Stat path) = false ->
   exists annotations,
     Bundle.Annotations bundle = Some annotations /\
     BundleAnnotations.FilePath annotations = path /\
     BundleAnnotations.Package annotations =
       annotation raw "operators.operatorframework.io.bundle.package.v1" /\
     BundleAnnotations.DefaultChannel annotations =
       annotation raw "operators.operatorframework.io.bundle.channel.default.v1" /\
     (channels = "" -> BundleAnnotations.Channels annotations = []) /\
     (channels <> "" ->
      BundleAnnotations.Channels annotations =
      map GoStrings.TrimSpace (GoStrings.Split channels ",")) /\
     Forall (fun channel => GoStrings.TrimSpace channel = channel)
       (BundleAnnotations.Channels annotations)).
Proof.
  intros Hload path raw channels.
  destruct (LoadBundle_success _ _ Hload) as [Hann [Hpath [_ [_ [_ [Hok ->]]]]]].
  destruct (loadManifestFiles_success bundlePath _ _ Hpath Hok) as [_ [_ [_ [-> _]]]].
  unfold loadAnnotations in *. cbv zeta in *.
  change (Join (Bundle.MetadataPath (freshBundle bundlePath)) "annotations.yaml")
    with path in *.
  destruct (isNotExist (Stat path)).
  { split; [reflexivity | discriminate]. }
  split; [discriminate|]. intros _.
  subst raw channels.
  destruct (ReadFile path) as [data [e|]]; cbn [fst snd] in *; [discriminate|].
  destruct (UnmarshalAnnotations data) as [raw [e|]]; cbn [fst snd] in *; [discriminate|].
  eexists. split; [reflexivity|]. cbn.
  repeat split.
  - intros ->. reflexivity.
  - intros Hne. apply String.eqb_neq in Hne. now rewrite Hne.
  - destruct (negb _); [|constructor].
    apply List.Forall_forall. intros channel Hin.
    apply in_map_iff in Hin as [part [<- _]]. apply TrimSpace_idempotent.
Qed.
End LoadingMore.

(** The sample bundle is what [LoadBundle] returns at [/bundle]. *)
Lemma LoadBundle_sample :
  loader.LoadBundle (os := sampleOS) (yaml := sampleYAML) "/bundle" = (Some sampleBundle, None).
Proof. vm_compute. reflexivity. Qed.

(** The instance of X16 at [/bundle]: the text file and the directory of
    the listing are not in the bundle. *)
Lemma LoadBundle_records_manifest_paths_witness :
  crdPaths sampleBundle = [Some "/bundle/manifests/widgets.crd.yaml"] /\
  resourcePaths sampleBundle = [Some "/bundle/manifests/pdb.yml"] /\
  rules.ClusterServiceVersion.FilePath <$> rules.Bundle.CSV sampleBundle =
    Some "/bundle/manifests/operator.csv.yaml".
Proof.
  apply (LoadBundle_records_manifest_paths (os := sampleOS) (yaml := sampleYAML)
           "/bundle" sampleBundle LoadBundle_sample).
Defined.

(** The instance of X17 at [/locked]: the first manifest loads, the
    second cannot be read, and the error names the second. *)
Lemma loadManifests_names_the_first_failing_manifest_witness :
  exists cause,
    snd (loader.loadManifests (os := sampleOS) (yaml := sampleYAML) lockedBundle) =
    Some (loader.Errorf ("failed to load manifest second.yaml: " +:+ cause)).
Proof.
  apply (loadManifests_names_the_first_failing_manifest (os := sampleOS) (yaml := sampleYAML)
           lockedBundle [loader.mkDirEntry "first.yaml" false]
           [loader.mkDirEntry "third.yaml" false] (loader.mkDirEntry "second.yaml" false)).
  - reflexivity.
  - reflexivity.
  - intros f [<- | []] _. split; [reflexivity|].
    intros [Hbasic | Hkind]; [apply Hbasic; reflexivity | apply Hkind; reflexivity].
  - reflexivity.
  - intros [Hread _]. discriminate Hread.
Defined.

(** The instance of X18 at [/bundle]: the channels "stable-v1, nightly"
    are recorded as "stable-v1" and "nightly". *)
Lemma LoadBundle_annotations_witness :
  exists annotations,
    rules.Bundle.Annotations sampleBundle = Some annotations /\
    rules.BundleAnnotations.Channels annotations = ["stable-v1"; "nightly"].
Proof.
  destruct (proj2 (LoadBundle_annotations (os := sampleOS) (yaml := sampleYAML)
                     "/bundle" sampleBundle LoadBundle_sample) eq_refl)
    as [annotations [Hann [_ [_ [_ [_ [Hchannels _]]]]]]].
  exists annotations. split; [exact Hann|].
  rewrite Hchannels by discriminate. vm_compute. reflexivity.
Defined.

(* ===================================================================== *)
(** * What is printed *)
(* ===================================================================== *)

Section ReportText.
Import rules loader reporter main.
Context `{alg : sort.Algorithm}.

Lemma countBySeverity_from (vs : list Violation) (e w i : Z) :
  fold_left
    (fun '(errorCount, warningCount, infoCount) v =>
       if String.eqb (Violation.Severity v) SeverityError
       then (errorCount + 1, warningCount, infoCount)
       else if String.eqb (Violation.Severity v) SeverityWarning
       then (errorCount, warningCount + 1, infoCount)
       else if String.eqb (Violation.Severity v) SeverityInfo
       then (errorCount, warningCount, infoCount + 1)
       else (errorCount, warningCount, infoCount))
    vs (e, w, i) =
  (e + severityCount SeverityError vs, w + severityCount SeverityWarning vs,
   i + severityCount SeverityInfo vs).
Proof.
  unfold severityCount. revert e w i.
  induction vs as [|v vs IH]; intros e w i; cbn [fold_left List.filter length].
  - cbn [length Z.of_nat]. now rewrite !Z.add_0_r.
  - destruct (String.eqb (Violation.Severity v) SeverityError) eqn:He,
      (String.eqb (Violation.Severity v) SeverityWarning) eqn:Hw,
      (String.eqb (Violation.Severity v) SeverityInfo) eqn:Hi;
      rewrite ?String.eqb_eq in *;
      try (exfalso; unfold SeverityError, SeverityWarning, SeverityInfo in *; congruence);
      rewrite IH; cbn [length]; repeat apply (f_equal2 pair); lia.
Qed.

Lemma countBySeverity_spec (vs : list Violation) :
  countBySeverity vs =
  (severityCount SeverityError vs, severityCount SeverityWarning vs,
   severityCount SeverityInfo vs).
Proof. unfold countBySeverity. now rewrite countBySeverity_from. Qed.

Lemma severityCount_Permutation (severity : Severity) (l1 l2 : list Violation) :
  Permutation l1 l2 -> severityCount severity l1 = severityCount severity l2.
Proof.
  intros Hperm. unfold severityCount. f_equal.
  apply Permutation_length.
  induction Hperm as [|x l l' _ IH|x y l|l l' l'' _ IH1 _ IH2]; cbn [List.filter].
  - constructor.
  - destruct (String.eqb _ _); [now constructor | exact IH].
  - destruct (String.eqb (Violation.Severity x) severity),
      (String.eqb (Violation.Severity y) severity); try reflexivity. constructor.
  - now transitivity (List.filter (fun v => String.eqb (Violation.Severity v) severity) l').
Qed.

Lemma severityCount_positive (severity : Severity) (vs : list Violation) :
  (0 <? severityCount severity vs) =
  existsb (fun v => String.eqb (Violation.Severity v) severity) vs.
Proof.
  unfold severityCount. induction vs as [|v vs IH]; cbn [List.filter existsb]; [reflexivity|].
  destruct (String.eqb (Violation.Severity v) severity); cbn [orb length]; [|exact IH].
  apply Z.ltb_lt. lia.
Qed.

Lemma print_violations (vs : list Violation) (w : string) :
  fold_left
    (fun w v =>
       let w := fst (Fprintln (wr := bufferWriter) w (formatViolation v)) in
       fst (Fprintln (wr := bufferWriter) w ""))
    vs w =
  w +:+ reportBody vs.
Proof.
  revert w. induction vs as [|v vs IH]; intros w; cbn [fold_left reportBody].
  - now rewrite string_app_nil_r.
  - rewrite IH. unfold Fprintln, Write, bufferWriter. cbn [fst].
    rewrite !string_app_assoc. reflexivity.
Qed.

(** X19. On a list that is not empty and a writer that keeps what is
    written, [Report] appends to the output a header and then the
    violations, and nothing else. The header gives the number of
    violations of the list and, for each of Error, Warning and Info that
    occurs in it, the number of violations of that severity. Each
    violation of the list is printed once, formatted and followed by an
    empty line, in the order in which [sort.Slice] leaves the list. *)
Theorem Report_text (w : string) (violations : list Violation) :
  violations <> [] ->
  let sorted := sort.Slice violations less in
  Report (wr := bufferWriter) (New w) violations =
    (New (w +:+ reportHeader violations +:+ reportBody sorted), sorted, None) /\
  Permutation violations sorted.
Proof.
  intros Hne sorted.
  assert (Hperm : Permutation violations sorted) by (symmetry; apply Slice_Permutation).
  split; [|exact Hperm].
  unfold Report. destruct violations as [|v vs]; [contradiction|].
  cbn [length Nat.eqb]. fold sorted.
  rewrite countBySeverity_spec, print_violations.
  unfold reportHeader.
  rewrite <- !(severityCount_Permutation _ _ _ Hperm), <- (Permutation_length Hperm).
  unfold Fprintf, Fprintln, Write, bufferWriter. cbn [writer fst].
  do 2 f_equal. f_equal.
  destruct (0 <? severityCount SeverityError (v :: vs)),
    (0 <? severityCount SeverityWarning (v :: vs)),
    (0 <? severityCount SeverityInfo (v :: vs));
    cbn [fst]; rewrite ?string_app_assoc, ?string_app_nil_r; cbn [append]; reflexivity.
Qed.

Lemma summary_tally (vs : list Violation) (e w : Z) :
  fold_left
    (fun '(errorCount, warningCount) v =>
       if String.eqb (Violation.Severity v) SeverityError
       then (errorCount + 1, warningCount)
       else if String.eqb (Violation.Severity v) SeverityWarning
       then (errorCount, warningCount + 1)
       else (errorCount, warningCount))
    vs (e, w) =
  (e + severityCount SeverityError vs, w + severityCount SeverityWarning vs).
Proof.
  unfold severityCount. revert e w.
  induction vs as [|v vs IH]; intros e w; cbn [fold_left List.filter length].
  - cbn [length Z.of_nat]. now rewrite !Z.add_0_r.
  - destruct (String.eqb (Violation.Severity v) SeverityError) eqn:He,
      (String.eqb (Violation.Severity v) SeverityWarning) eqn:Hw;
      rewrite ?String.eqb_eq in *;
      try (exfalso; unfold SeverityError, SeverityWarning in *; congruence);
      rewrite IH; cbn [length]; repeat apply (f_equal2 pair); lia.
Qed.
End ReportText.

Section ReportErrors.
Import rules loader reporter main.
Context `{alg : sort.Algorithm} {W : Type} `{wr : Writer W}.

(** X20. [Report] returns an error only for the empty list, and then it
    is the error of the one write it makes; for a list that is not
    empty it returns nil, whatever the writes return. *)
Theorem Report_returns_the_error_of_the_empty_report :
  forall (r : Reporter) (violations : list Violation),
    (violations <> [] -> snd (Report r violations) = None) /\
    (violations = [] ->
     Report r violations =
     (New (fst (Fprintln (writer r) "✓ No issues found")), [],
      snd (Fprintln (writer r) "✓ No issues found"))).
Proof.
  intros r violations. unfold Report. destruct violations as [|v vs]; cbn [length Nat.eqb].
  - split; [contradiction|]. intros _. destruct (Fprintln (writer r) _). reflexivity.
  - split; [|discriminate]. intros _.
    destruct (countBySeverity _) as [[e w] i]. reflexivity.
Qed.

(** X21. [ReportSummary] writes one line and returns an error exactly
    when the list has a violation of severity Error, which is when
    [hasErrors] holds of it; the line and the error carry the number of
    violations of severity Error, and the line that of severity
    Warning. Without errors the line is the warning line when
    [hasWarnings] holds, and the success line otherwise. *)
Theorem ReportSummary_outcome :
  forall (r : Reporter) (violations : list Violation),
    let errors := severityCount SeverityError violations in
    let warnings := severityCount SeverityWarning violations in
    ReportSummary r violations =
      (New (fst (Write (writer r) (summaryLine errors warnings))),
       if hasErrors violations
       then Some (Errorf ("validation failed with " +:+ pretty errors +:+ " error(s)"))
       else None) /\
    (0 <? errors) = hasErrors violations /\
    (0 <? warnings) = hasWarnings violations.
Proof.
  intros r violations. cbv zeta. unfold hasErrors, hasWarnings.
  rewrite <- !severityCount_positive.
  split; [|split; reflexivity].
  unfold ReportSummary, summaryLine. rewrite summary_tally. rewrite !Z.add_0_l.
  destruct (0 <? severityCount SeverityError violations); [reflexivity|].
  destruct (0 <? severityCount SeverityWarning violations); reflexivity.
Qed.
End ReportErrors.

(** The instance of X19 at the list of a warning and an error: the
    error is printed first. *)
Lemma Report_text_witness :
  reporter.Report (alg := insertionAlgorithm) (wr := bufferWriter) (reporter.New "")
    [warningViolation; wildcardViolation] =
  (reporter.New
     ("" +:+ reportHeader [warningViolation; wildcardViolation] +:+
      reportBody [wildcardViolation; warningViolation]),
   [wildcardViolation; warningViolation], None).
Proof.
  apply (proj1 (Report_text (alg := insertionAlgorithm) ""
                  [warningViolation; wildcardViolation] ltac:(discriminate))).
Defined.

(* ===================================================================== *)
(** * The program *)
(* ===================================================================== *)

Section WriterInvariant.
Import rules reporter.
Context `{alg : sort.Algorithm} {W : Type} `{wr : Writer W}.
Variable P : W -> Prop.
Hypothesis P_Write : forall w s, P w -> P (fst (Write w s)).

(** What every write keeps, [Report] and [ReportSummary] keep. *)
Lemma Report_keeps (r : Reporter) (violations : list Violation) :
  P (writer r) -> P (writer (fst (fst (Report r violations)))).
Proof.
  intros Hr. unfold Report, Fprintln, Fprintf.
  destruct (length violations =? 0)%nat.
  - pose proof (P_Write (writer r) ("✓ No issues found" +:+ newline) Hr) as Hw.
    now destruct (Write (writer r) _).
  - destruct (countBySeverity _) as [[e w] i]. cbn [fst writer].
    apply fold_left_invariant; [intros w0 v Hw0; now apply P_Write, P_Write|].
    apply P_Write.
    destruct (0 <? i); [apply P_Write|];
      (destruct (0 <? w); [apply P_Write|]);
      (destruct (0 <? e); [apply P_Write|]);
      now apply P_Write.
Qed.

Lemma ReportSummary_keeps (r : Reporter) (violations : list Violation) :
  P (writer r) -> P (writer (fst (ReportSummary r violations))).
Proof.
  intros Hr. unfold ReportSummary, Fprintln, Fprintf.
  destruct (fold_left _ violations (0, 0)) as [e w].
  destruct (0 <? e); cbn [fst writer]; [now apply P_Write|].
  destruct (0 <? w); now apply P_Write.
Qed.
End WriterInvariant.

Section MainProgram.
Import rules loader reporter registry stdio main.
Context `{tables : UnicodeTables} `{alg : sort.Algorithm} `{os : OS} `{yaml : YAML}
  {F : Type} `{files : Files F}.

(** When no write fails with EPIPE, a running process keeps running. *)
Lemma fileWrite_running (fd : Z) (p : Process F) (data : string) :
  (forall fd s data, write fd s data <> EPIPE) ->
  (exists s, p = Running s) ->
  exists s, fst (fileWrite fd p data) = Running s.
Proof.
  intros Hpipe [s ->]. cbn [fileWrite].
  destruct (write fd s data) as [s' err|] eqn:Hwrite; cbn [fst]; [eauto|].
  now apply Hpipe in Hwrite.
Qed.

Lemma reportAndExit_exits (p : Process F) (noWarnings : bool) (violations : list Violation) :
  (forall fd s data, write fd s data <> EPIPE) ->
  (exists s, p = Running s) ->
  exists s exitCode, reportAndExit p noWarnings violations = Exited s exitCode.
Proof.
  intros Hpipe Hp. unfold reportAndExit.
  pose proof (Report_keeps (wr := Stdout) (fun q => exists s, q = Running s)
                (fun q data Hq => fileWrite_running 1 q data Hpipe Hq)
                (New p) violations Hp) as Hrep.
  destruct (Report (wr := Stdout) (New p) violations) as [[rep sorted] [e|]];
    cbn [fst] in Hrep.
  - destruct (fileWrite_running 2 (writer rep)
                ("Error reporting results: " +:+ Error e +:+ newline) Hpipe Hrep)
      as [s Hs].
    unfold Fprintf, Write, Stderr. rewrite Hs. cbn. eauto.
  - pose proof (ReportSummary_keeps (wr := Stdout) (fun q => exists s, q = Running s)
                  (fun q data Hq => fileWrite_running 1 q data Hpipe Hq)
                  rep sorted Hrep) as Hsum.
    destruct (ReportSummary (wr := Stdout) rep sorted) as [rep' err']. cbn [fst] in Hsum.
    destruct Hsum as [s ->]. cbn. eauto.
Qed.

Lemma reportAndExit_code (p : Process F) (noWarnings : bool) (violations : list Violation)
    (s : F) (exitCode : Z) :
  reportAndExit p noWarnings violations = Exited s exitCode ->
  exitCode = 0 \/ exitCode = 1.
Proof.
  intros Hexit.
  destruct (reportAndExit_cases p noWarnings violations)
    as [[e [_ [_ Hrun]]] | [_ [q Hrun]]];
    rewrite Hrun in Hexit; apply osExit_Exited in Hexit as [_ ->]; [now right|].
  destruct (hasErrors violations); auto.
Qed.

(** X22. From loading the bundle on, [main] never panics: the bundle it
    validates is not nil, and no selected rule panics on a bundle that
    was loaded. The process ends killed by SIGPIPE or by [os.Exit] with
    the status 0 or 1, and by [os.Exit] when it starts running and no
    write fails with EPIPE. When loading fails, it writes the line that
    names the bundle path to the standard output and the error to the
    standard error, and exits with 1 unless one of the two writes kills
    it. *)
Theorem main_is_killed_or_exits_with_0_or_1 :
  forall (p : Process F) (enableRules disableRules : string) (noWarnings : bool)
         (bundlePath : string),
  exists outcome,
    main p enableRules disableRules noWarnings bundlePath = Ok outcome /\
    (forall s exitCode, outcome = Exited s exitCode -> exitCode = 0 \/ exitCode = 1) /\
    ((forall fd s data, write fd s data <> EPIPE) ->
     forall s0, p = Running s0 -> exists s exitCode, outcome = Exited s exitCode) /\
    (forall err,
        snd (LoadBundle bundlePath) = Some err ->
        outcome =
        osExit
          (fst (Fprintf (wr := Stderr)
                  (fst (Fprintf (wr := Stdout) p
                          ("Loading bundle from: " +:+ bundlePath +:+ newline)))
                  ("Error loading bundle: " +:+ Error err +:+ newline)))
          1).
Proof.
  intros p enableRules disableRules noWarnings bundlePath. unfold main.
  assert (Hfirst : (forall fd s data, write fd s data <> EPIPE) ->
                   forall s0, p = Running s0 ->
                   exists s,
                     fst (Fprintf (wr := Stdout) p
                            ("Loading bundle from: " +:+ bundlePath +:+ newline)) = Running s).
  { intros Hpipe s0 ->. apply (fileWrite_running 1); eauto. }
  destruct (fst (Fprintf (wr := Stdout) p
                   ("Loading bundle from: " +:+ bundlePath +:+ newline))) as [s1|];
    cbn [alive].
  - destruct (LoadBundle_outcome bundlePath) as [[[bundle Hload] | [err Hload]] [_ Hfull]];
      rewrite Hload; cbn [deref bindRes snd].
    + assert (Hnil : NoNilEntry bundle) by (destruct (Hfull bundle Hload); tauto).
      destruct (ValidateBundle_Ok bundle (selectRules enableRules disableRules)) as [vs Hvs].
      { apply List.Forall_forall. intros rule Hin.
        apply (proj1 (List.Forall_forall _ _) (GetAllRules_Ok bundle Hnil)).
        now apply selectRules_In in Hin as [Hreg _]. }
      rewrite Hvs. cbn [bindRes].
      assert (Hsecond : (forall fd s data, write fd s data <> EPIPE) ->
                        exists s,
                          fst (Fprintf (wr := Stdout) (Running s1)
                                 ("Running " +:+
                                  pretty (Z.of_nat (length (selectRules enableRules disableRules))) +:+
                                  " validation rule(s)..." +:+ newline +:+ newline)) = Running s).
      { intros Hpipe. apply (fileWrite_running 1); eauto. }
      destruct (fst (Fprintf (wr := Stdout) (Running s1) _)) as [s2|]; cbn [alive].
      * eexists. split; [reflexivity|]. split; [|split].
        -- intros s exitCode. apply reportAndExit_code.
        -- intros Hpipe s0 _. apply reportAndExit_exits; eauto.
        -- discriminate.
      * eexists. split; [reflexivity|]. split; [|split].
        -- discriminate.
        -- intros Hpipe s0 _. destruct (Hsecond Hpipe) as [s Hs]. discriminate.
        -- discriminate.
    + eexists. split; [reflexivity|]. split; [|split].
      * intros s exitCode Hexit. apply osExit_Exited in Hexit as [_ ->]. now right.
      * intros Hpipe s0 _.
        destruct (fileWrite_running 2 (Running s1)
                    ("Error loading bundle: " +:+ Error err +:+ newline) Hpipe)
          as [s Hs]; [eauto|].
        unfold Fprintf, Write, Stderr. rewrite Hs. cbn. eauto.
      * intros err' [= <-]. reflexivity.
  - eexists. split; [reflexivity|]. split; [|split].
    + discriminate.
    + intros Hpipe s0 Hp. destruct (Hfirst Hpipe s0 Hp) as [s Hs]. discriminate.
    + intros err _. reflexivity.
Qed.

(** X23. The no-warnings flag changes nothing: with and without it
    [main] writes the same output and ends in the same way, with the
    same exit status. *)
Theorem noWarnings_flag_changes_nothing :
  forall (p : Process F) (enableRules disableRules : string) (bundlePath : string),
    main p enableRules disableRules true bundlePath =
    main p enableRules disableRules false bundlePath.
Proof.
  intros p enableRules disableRules bundlePath. unfold main.
  destruct (fst (Fprintf (wr := Stdout) p _)) as [s1|]; cbn [alive]; [|reflexivity].
  destruct (LoadBundle bundlePath) as [bundle [e|]]; [reflexivity|].
  destruct (deref bundle) as [b|]; cbn [bindRes]; [|reflexivity].
  destruct (fst (Fprintf (wr := Stdout) (Running s1) _)) as [s2|]; cbn [alive]; [|reflexivity].
  destruct (ValidateBundle b _) as [vs|]; cbn [bindRes]; [|reflexivity].
  now rewrite reportAndExit_noWarnings.
Qed.
End MainProgram.

(** With the standard output a pipe whose reader is gone, the process
    is killed at its first write, whatever the bundle is. *)
Lemma main_killed_on_closed_pipe :
  main.main (tables := asciiTables) (alg := insertionAlgorithm) (os := sampleOS)
    (yaml := sampleYAML) (files := closedPipe) (stdio.Running ("", "")) "" "" false "/bundle" =
  Ok stdio.Signalled.
Proof. reflexivity. Qed.

Section Listing.
Import rules reporter registry main.
Context `{tables : UnicodeTables}.

Lemma grouped_lookup (allRules : list Rule) (cat : string) (acc : gmap string (list Rule)) :
  default []
    (fold_left
       (fun categories rule =>
          let cat := Rule.Category rule in
          <[cat := default [] (categories !! cat) ++ [rule]]> categories)
       allRules acc !! cat) =
  default [] (acc !! cat) ++ inCategory allRules cat.
Proof.
  unfold inCategory. revert acc.
  induction allRules as [|rule allRules IH]; intros acc; cbn [fold_left List.filter].
  - now rewrite app_nil_r.
  - rewrite IH. cbv zeta.
    destruct (String.eqb (Rule.Category rule) cat) eqn:Hcat.
    + apply String.eqb_eq in Hcat as ->. rewrite lookup_insert_eq.
      cbn [from_option id]. now rewrite <- app_assoc.
    + apply String.eqb_neq in Hcat. now rewrite lookup_insert_ne.
Qed.

Lemma print_entries (ruleList : list Rule) (w : string) :
  fold_left
    (fun stdout rule =>
       let stdout :=
         fst (Fprintf (wr := bufferWriter) stdout
                ("  " +:+ Rule.ID rule +:+ ": " +:+ Rule.Name rule +:+ newline)) in
       let stdout :=
         fst (Fprintf (wr := bufferWriter) stdout
                ("    Severity: " +:+ Rule.Severity rule +:+ newline)) in
       let stdout :=
         fst (Fprintf (wr := bufferWriter) stdout
                ("    " +:+ Rule.Description rule +:+ newline)) in
       fst (Fprintln (wr := bufferWriter) stdout ""))
    ruleList w =
  w +:+ ruleEntries ruleList.
Proof.
  revert w. induction ruleList as [|rule ruleList IH]; intros w; cbn [fold_left ruleEntries].
  - now rewrite string_app_nil_r.
  - rewrite IH. unfold Fprintf, Fprintln, Write, bufferWriter, ruleEntry. cbn [fst].
    rewrite !string_app_assoc. reflexivity.
Qed.

Lemma printRuleList_text (allRules : list Rule) (w : string) :
  printRuleList (wr := bufferWriter) allRules w =
  w +:+ ("Available validation rules:" +:+ newline) +:+ newline +:+
  categorySections allRules printedCategories +:+
  ("Total: " +:+ pretty (Z.of_nat (length allRules)) +:+ " rules" +:+ newline).
Proof.
  unfold printRuleList. cbv zeta.
  set (categories := fold_left _ allRules ∅).
  assert (Hgroup : forall cat : string,
             default [] (categories !! cat) = inCategory allRules cat).
  { intros cat. unfold categories. rewrite grouped_lookup, lookup_empty. reflexivity. }
  clearbody categories.
  assert (Hcats : forall cats w,
             fold_left
               (fun stdout cat =>
                  match categories !! cat with
                  | Some ruleList =>
                      if (0 <? length ruleList)%nat then
                        let stdout :=
                          fst (Fprintf (wr := bufferWriter) stdout
                                 ("=== " +:+ cat +:+ " ===" +:+ newline +:+ newline)) in
                        fold_left
                          (fun stdout rule =>
                             let stdout :=
                               fst (Fprintf (wr := bufferWriter) stdout
                                      ("  " +:+ Rule.ID rule +:+ ": " +:+ Rule.Name rule +:+ newline)) in
                             let stdout :=
                               fst (Fprintf (wr := bufferWriter) stdout
                                      ("    Severity: " +:+ Rule.Severity rule +:+ newline)) in
                             let stdout :=
                               fst (Fprintf (wr := bufferWriter) stdout
                                      ("    " +:+ Rule.Description rule +:+ newline)) in
                             fst (Fprintln (wr := bufferWriter) stdout ""))
                          ruleList stdout
                      else stdout
                  | None => stdout
                  end)
               cats w =
             w +:+ categorySections allRules cats).
  { induction cats as [|cat cats IH]; intros w0; cbn [fold_left categorySections].
    - now rewrite string_app_nil_r.
    - rewrite IH. unfold categorySection. rewrite <- (Hgroup cat).
      destruct (categories !! cat) as [[|rule ruleList]|];
        cbn [from_option id length Nat.ltb Nat.leb].
      + reflexivity.
      + cbv zeta. rewrite print_entries.
        unfold Fprintf, Write, bufferWriter. cbn [fst].
        rewrite !string_app_assoc. reflexivity.
      + reflexivity. }
  fold printedCategories. rewrite Hcats.
  unfold Fprintf, Fprintln, Write, bufferWriter. cbn [fst].
  rewrite !string_app_assoc. reflexivity.
Qed.

Lemma listed_once (allRules : list Rule) :
  Forall (fun rule => In (Rule.Category rule) printedCategories) allRules ->
  Permutation (flat_map (inCategory allRules) printedCategories) allRules.
Proof.
  unfold printedCategories. cbn [flat_map]. rewrite app_nil_r.
  induction 1 as [|rule allRules Hcat _ IH]; [reflexivity|].
  unfold inCategory in *. cbn [List.filter].
  cbn [In] in Hcat. destruct Hcat as [Hc | [Hc | [Hc | [Hc | []]]]]; rewrite <- Hc;
    cbn [String.eqb Ascii.eqb Bool.eqb andb
         CategoryOLMRequirement CategoryOLMBestPractice CategorySecurity CategoryUpgrade].
  all: cbn [app]; rewrite ?app_assoc, <- ?Permutation_middle, <- ?app_assoc; now constructor.
Qed.

(** X24. On a writer that keeps what is written, the listing of the
    rules [allRules] is a title, then for each of the four categories
    that has a rule a heading and the rules of that category in the
    order of [allRules], each with its identifier, name, severity and
    description, then the number of rules. When every rule is in one of
    the four categories, as those of the registry are, each rule is
    listed once. *)
Theorem printRules_lists_each_rule_once (allRules : list Rule) (w : string) :
  Forall (fun rule => In (Rule.Category rule) printedCategories) allRules ->
  printRuleList (wr := bufferWriter) allRules w =
    w +:+ ("Available validation rules:" +:+ newline) +:+ newline +:+
    categorySections allRules printedCategories +:+
    ("Total: " +:+ pretty (Z.of_nat (length allRules)) +:+ " rules" +:+ newline) /\
  Permutation (flat_map (inCategory allRules) printedCategories) allRules.
Proof.
  intros Hcats. split; [apply printRuleList_text | now apply listed_once].
Qed.
End Listing.

(** The instance of X24 at the registry: [printRules] lists each of the
    eight rules once and ends with "Total: 8 rules". *)
Lemma printRules_lists_each_rule_once_witness :
  main.printRules (tables := asciiTables) (wr := bufferWriter) "" =
    "" +:+ ("Available validation rules:" +:+ reporter.newline) +:+ reporter.newline +:+
    categorySections (registry.GetAllRules (tables := asciiTables)) printedCategories +:+
    ("Total: " +:+ "8" +:+ " rules" +:+ reporter.newline) /\
  Permutation
    (flat_map (inCategory (registry.GetAllRules (tables := asciiTables))) printedCategories)
    (registry.GetAllRules (tables := asciiTables)).
Proof.
  apply (printRules_lists_each_rule_once
           (registry.GetAllRules (tables := asciiTables)) "").
  unfold registry.GetAllRules, printedCategories.
  repeat (apply List.Forall_cons; [cbn; auto 10|]). apply List.Forall_nil.
Defined.
